(** * nf_core.utils.fetch_wf_config: configuration resolution and its
      content-addressed cache

    A shallow embedding of [fetch_wf_config] (src/nf_core/utils.py, lines
    152-237).  The function is effectful: it reads the process environment,
    probes, reads and writes the file system and runs the [nextflow]
    executable.  It is modelled as a computation over an explicit [world]
    that returns a Python outcome (a value or a raised exception), the world
    it leaves behind and the list of system calls it made.

    Conventions.
    - A Python [bytes] value is a [string] (a sequence of 8-bit characters).
    - A Python [str] is represented by its UTF-8 encoding, so decoding is a
      validity check ([decode_utf8]); the text encoding of the locale is
      taken to be UTF-8.
    - A [dict] is an association list in insertion order with unique keys.
    - The library functions [hashlib.sha256(..).hexdigest()], [json.dump]
      and [json.load] are an interface ([Library]); the theorems hold for
      every implementation of it.

    Beside it the file embeds [check_if_outdated] (lines 28-48) with the
    version numbers of [distutils.version.StrictVersion], the attributes
    [Pipeline._load_pipeline_config] derives from the configuration (lines
    126-137) and the loop of [wait_cli_function] (lines 260-281). *)

From Stdlib Require Import ZArith Ascii String List Bool Lia DecimalString DecimalN.
From stdpp Require Import base option list strings gmap.

Local Open Scope string_scope.
Local Open Scope list_scope.

(* ===================================================================== *)
(** ** Strings, paths and text                                            *)
(* ===================================================================== *)

Abbreviation bytes := string (only parsing).

Definition byte_val (c : ascii) : N := N_of_ascii c.

Definition slash : ascii := "/"%char.

Definition startswith (p s : string) : bool := String.prefix p s.

Fixpoint endswith_char (c : ascii) (s : string) : bool :=
  match s with
  | EmptyString => false
  | String a EmptyString => Ascii.eqb a c
  | String _ r => endswith_char c r
  end.

(** [posixpath.join(a, b)]: an absolute [b] replaces [a]; otherwise the
    two are glued with one separator unless [a] is empty or already ends
    with one. *)
Definition path_join (a b : string) : string :=
  if startswith "/" b then b
  else if (String.eqb a "" || endswith_char slash a)%bool then a +:+ b
  else a +:+ "/" +:+ b.

Fixpoint rstrip_slash_rev (r : list ascii) : list ascii :=
  match r with
  | c :: r' => if Ascii.eqb c slash then rstrip_slash_rev r' else r
  | [] => []
  end.

Fixpoint drop_to_slash (r : list ascii) : list ascii :=
  match r with
  | c :: r' => if Ascii.eqb c slash then r else drop_to_slash r'
  | [] => []
  end.

(** [posixpath.dirname(p)]: everything up to the last separator, with the
    trailing separators removed unless the head consists of separators
    only. *)
Definition dirname (p : string) : string :=
  let head := drop_to_slash (rev (list_ascii_of_string p)) in
  match rstrip_slash_rev head with
  | [] => string_of_list_ascii (rev head)
  | stripped => string_of_list_ascii (rev stripped)
  end.

(* ===================================================================== *)
(** ** Python dictionaries with string keys and values                    *)
(* ===================================================================== *)

Abbreviation dict := (list (string * string)) (only parsing).

Fixpoint dict_get (k : string) (d : dict) : option string :=
  match d with
  | [] => None
  | (k', v) :: d' => if String.eqb k' k then Some v else dict_get k d'
  end.

(** [d[k] = v]: an existing key keeps its position, a new key is appended. *)
Fixpoint dict_set (k v : string) (d : dict) : dict :=
  match d with
  | [] => [(k, v)]
  | (k', v') :: d' =>
      if String.eqb k' k then (k', v) :: d' else (k', v') :: dict_set k v d'
  end.

Definition dict_keys (d : dict) : list string := map fst d.

(* ===================================================================== *)
(** ** Text as Python reads it                                            *)
(* ===================================================================== *)

Definition in_range (lo hi : N) (c : ascii) : bool :=
  (N.leb lo (byte_val c) && N.leb (byte_val c) hi)%bool.

Definition is_cont (c : ascii) : bool := in_range 128 191 c.

(** The strict UTF-8 decoder: overlong forms, surrogates and code points
    above U+10FFFF are rejected. *)
Fixpoint valid_utf8 (s : bytes) : bool :=
  match s with
  | EmptyString => true
  | String c0 r0 =>
      if in_range 0 127 c0 then valid_utf8 r0
      else
        match r0 with
        | EmptyString => false
        | String c1 r1 =>
            if in_range 194 223 c0 then is_cont c1 && valid_utf8 r1
            else
              match r1 with
              | EmptyString => false
              | String c2 r2 =>
                  if in_range 224 239 c0 then
                    (if N.eqb (byte_val c0) 224 then in_range 160 191 c1
                     else if N.eqb (byte_val c0) 237 then in_range 128 159 c1
                     else is_cont c1)
                    && is_cont c2 && valid_utf8 r2
                  else
                    match r2 with
                    | EmptyString => false
                    | String c3 r3 =>
                        in_range 240 244 c0
                        && (if N.eqb (byte_val c0) 240 then in_range 144 191 c1
                            else if N.eqb (byte_val c0) 244 then in_range 128 143 c1
                            else is_cont c1)
                        && is_cont c2 && is_cont c3 && valid_utf8 r3
                    end
              end
        end
  end.

(** [b.decode("utf-8")]: [None] stands for [UnicodeDecodeError]. *)
Definition decode_utf8 (b : bytes) : option string :=
  if valid_utf8 b then Some b else None.

Definition LF : ascii := ascii_of_N 10.
Definition CR : ascii := ascii_of_N 13.

(** [bytes.splitlines()]: lines end at "\n", "\r" or "\r\n"; the
    terminators are dropped and a final terminator opens no empty line. *)
Fixpoint splitlines_from (cur : string) (s : bytes) : list bytes :=
  match s with
  | EmptyString => if String.eqb cur "" then [] else [cur]
  | String c r =>
      if Ascii.eqb c LF then cur :: splitlines_from "" r
      else if Ascii.eqb c CR then
        match r with
        | String c' r' =>
            if Ascii.eqb c' LF then cur :: splitlines_from "" r'
            else cur :: splitlines_from "" r
        | EmptyString => cur :: splitlines_from "" r
        end
      else splitlines_from (cur +:+ String c "") r
  end.

Definition splitlines (s : bytes) : list bytes := splitlines_from "" s.

(** Iterating a file opened in text mode (universal newlines): every line
    keeps its terminator, translated to "\n". *)
Fixpoint text_lines_from (cur : string) (s : string) : list string :=
  match s with
  | EmptyString => if String.eqb cur "" then [] else [cur]
  | String c r =>
      if Ascii.eqb c LF then (cur +:+ String LF "") :: text_lines_from "" r
      else if Ascii.eqb c CR then
        match r with
        | String c' r' =>
            if Ascii.eqb c' LF then (cur +:+ String LF "") :: text_lines_from "" r'
            else (cur +:+ String LF "") :: text_lines_from "" r
        | EmptyString => (cur +:+ String LF "") :: text_lines_from "" r
        end
      else text_lines_from (cur +:+ String c "") r
  end.

Definition text_lines (s : string) : list string := text_lines_from "" s.

(** [s.split(sep, 1)] when the separator occurs: the text before and after
    its first occurrence; [None] when it does not occur (the list has one
    element and the unpacking [k, v = ...] raises [ValueError]). *)
Fixpoint split_once (sep s : string) : option (string * string) :=
  if startswith sep s then Some ("", String.substring (String.length sep) (String.length s - String.length sep) s)
  else
    match s with
    | EmptyString => None
    | String c r =>
        match split_once sep r with
        | Some (k, v) => Some (String c k, v)
        | None => None
        end
    end.

(** *** The pattern [^\s*(params\.[a-zA-Z0-9_]+)\s*=]

    [\s] in a [str] pattern is Unicode white space; on the UTF-8
    representation these are the one-byte characters 9-13, 28-32 and the
    encodings of U+0085, U+00A0, U+1680, U+2000-U+200A, U+2028, U+2029,
    U+202F, U+205F and U+3000. *)

Definition is_space1 (c : ascii) : bool :=
  (in_range 9 13 c || in_range 28 32 c)%bool.

Definition is_space2 (c0 c1 : ascii) : bool :=
  (N.eqb (byte_val c0) 194 && (N.eqb (byte_val c1) 133 || N.eqb (byte_val c1) 160))%bool.

Definition is_space3 (c0 c1 c2 : ascii) : bool :=
  let b0 := byte_val c0 in
  let b1 := byte_val c1 in
  let b2 := byte_val c2 in
  ((N.eqb b0 225 && N.eqb b1 154 && N.eqb b2 128)
   || (N.eqb b0 226 && N.eqb b1 128
       && (in_range 128 138 c2 || N.eqb b2 168 || N.eqb b2 169 || N.eqb b2 175))
   || (N.eqb b0 226 && N.eqb b1 129 && N.eqb b2 159)
   || (N.eqb b0 227 && N.eqb b1 128 && N.eqb b2 128))%bool.

(** The greedy [\s*]: what is left of [s] after its leading white space. *)
Fixpoint skip_space (s : string) : string :=
  match s with
  | EmptyString => s
  | String c0 r0 =>
      if is_space1 c0 then skip_space r0
      else
        match r0 with
        | EmptyString => s
        | String c1 r1 =>
            if is_space2 c0 c1 then skip_space r1
            else
              match r1 with
              | EmptyString => s
              | String c2 r2 => if is_space3 c0 c1 c2 then skip_space r2 else s
              end
        end
  end.

(** [[a-zA-Z0-9_]] *)
Definition is_ident_char (c : ascii) : bool :=
  (in_range 97 122 c || in_range 65 90 c || in_range 48 57 c || N.eqb (byte_val c) 95)%bool.

(** The greedy [[a-zA-Z0-9_]+]: the longest run of identifier characters
    and the rest. *)
Fixpoint span_ident (s : string) : string * string :=
  match s with
  | String c r =>
      if is_ident_char c then let '(i, t) := span_ident r in (String c i, t)
      else ("", s)
  | EmptyString => ("", "")
  end.

(** [re.match(r"^\s*(params\.[a-zA-Z0-9_]+)\s*=", l)]: [group(1)] when the
    line matches.  Each greedy run is followed by a character outside its
    class, so giving characters back never helps and the match is
    deterministic. *)
Definition match_param (l : string) : option string :=
  let s := skip_space l in
  if startswith "params." s then
    let '(ident, rest) := span_ident (String.substring 7 (String.length s - 7) s) in
    if String.eqb ident "" then None
    else if startswith "=" (skip_space rest) then Some ("params." +:+ ident)
    else None
  else None.

(* ===================================================================== *)
(** ** The world: environment, file system, the nextflow executable       *)
(* ===================================================================== *)

Inductive pyarg :=
| AStr (s : string)
| AInt (n : Z)
| ABytes (b : bytes).

(** The exceptions that can leave [fetch_wf_config]. *)
Inductive exn :=
| TypeError
| FileNotFoundError
| IsADirectoryError
| NotADirectoryError
| PermissionError
| FileExistsError
| OSError (errno : Z)
| CalledProcessError (returncode : Z) (output : bytes)
| UnicodeDecodeError
| JSONDecodeError
| AssertionError (args : list pyarg).

Definition ENOENT : Z := 2.

Inductive outcome (A : Type) :=
| Return (a : A)
| Raise (e : exn).
Arguments Return {A} a.
Arguments Raise {A} e.

Record file := mkfile {
  contents : bytes;
  readable : bool;
  writable : bool
}.

Inductive node :=
| Directory (dir_writable : bool)
| Regular (f : file).

(** What [subprocess.check_output] does with a command line. *)
Inductive proc_result :=
| Completed (stdout : bytes)
| NonZeroExit (returncode : Z) (output : bytes)
| SpawnFailed (errno : Z).

(** The part of the world the function only reads: the process
    environment and the behaviour of the programs it can run. *)
Record system := mksystem {
  environ : gmap string string;
  run_process : list string → proc_result
}.

Inductive open_mode := ReadBinary | ReadText | WriteText.

Inductive event :=
| EvIsDir (p : string)
| EvIsFile (p : string)
| EvMkdir (p : string)
| EvOpen (p : string) (m : open_mode)
| EvExec (argv : list string).

(** *** File-system primitives *)

Definition fs_isdir (fs : gmap string node) (p : string) : bool :=
  match fs !! p with Some (Directory _) => true | _ => false end.

Definition fs_isfile (fs : gmap string node) (p : string) : bool :=
  match fs !! p with Some (Regular _) => true | _ => false end.

(** [open(p, "r"/"rb").read()] *)
Definition fs_read (fs : gmap string node) (p : string) : outcome bytes :=
  match fs !! p with
  | None => Raise FileNotFoundError
  | Some (Directory _) => Raise IsADirectoryError
  | Some (Regular f) => if readable f then Return (contents f) else Raise PermissionError
  end.

(** Creating an entry needs a writable parent directory. *)
Definition fs_may_create (fs : gmap string node) (p : string) : outcome unit :=
  match fs !! dirname p with
  | None => Raise FileNotFoundError
  | Some (Regular _) => Raise NotADirectoryError
  | Some (Directory wr) => if wr then Return tt else Raise PermissionError
  end.

(** [os.mkdir(p)] *)
Definition fs_mkdir (fs : gmap string node) (p : string) : outcome (gmap string node) :=
  match fs !! p with
  | Some _ => Raise FileExistsError
  | None =>
      match fs_may_create fs p with
      | Return _ => Return (<[p := Directory true]> fs)
      | Raise e => Raise e
      end
  end.

(** [open(p, "w")] followed by writing [data]: an existing regular file is
    truncated, a missing one is created. *)
Definition fs_write (fs : gmap string node) (p : string) (data : bytes)
  : outcome (gmap string node) :=
  match fs !! p with
  | Some (Directory _) => Raise IsADirectoryError
  | Some (Regular f) =>
      if writable f
      then Return (<[p := Regular (mkfile data (readable f) true)]> fs)
      else Raise PermissionError
  | None =>
      match fs_may_create fs p with
      | Return _ => Return (<[p := Regular (mkfile data true true)]> fs)
      | Raise e => Raise e
      end
  end.

(* ===================================================================== *)
(** ** Computations                                                       *)
(* ===================================================================== *)

(** A computation runs in a system on a file system and yields an outcome,
    the file system it leaves and the system calls it made, oldest first.
    A raised exception keeps the effects made before it. *)
Definition M (A : Type) : Type :=
  system → gmap string node → outcome A * gmap string node * list event.

#[export] Instance M_ret : MRet M := λ A a sys fs, (Return a, fs, []).

#[export] Instance M_bind : MBind M := λ A B f m sys fs,
  match m sys fs with
  | (Return a, fs1, t1) => let '(r, fs2, t2) := f a sys fs1 in (r, fs2, t1 ++ t2)
  | (Raise e, fs1, t1) => (Raise e, fs1, t1)
  end.

(** The three components of a run. *)
Definition result {A} (x : outcome A * gmap string node * list event) : outcome A := x.1.1.
Definition final_fs {A} (x : outcome A * gmap string node * list event) : gmap string node := x.1.2.
Definition trace {A} (x : outcome A * gmap string node * list event) : list event := x.2.

Definition raise {A} (e : exn) : M A := λ sys fs, (Raise e, fs, []).

(** [try: m except ...: h e]: the handler [h] answers [None] for the
    exceptions the [except] clauses do not name. *)
Definition try_except {A} (m : M A) (h : exn → option (M A)) : M A := λ sys fs,
  match m sys fs with
  | (Return a, fs1, t1) => (Return a, fs1, t1)
  | (Raise e, fs1, t1) =>
      match h e with
      | Some k => let '(r, fs2, t2) := k sys fs1 in (r, fs2, t1 ++ t2)
      | None => (Raise e, fs1, t1)
      end
  end.

Definition lift_outcome {A} (o : outcome A) : M A := λ sys fs, (o, fs, []).

Definition os_getenv (k : string) : M (option string) := λ sys fs,
  (Return (environ sys !! k), fs, []).

Definition os_path_isdir (p : string) : M bool := λ sys fs,
  (Return (fs_isdir fs p), fs, [EvIsDir p]).

Definition os_path_isfile (p : string) : M bool := λ sys fs,
  (Return (fs_isfile fs p), fs, [EvIsFile p]).

Definition os_mkdir (p : string) : M unit := λ sys fs,
  match fs_mkdir fs p with
  | Return fs' => (Return tt, fs', [EvMkdir p])
  | Raise e => (Raise e, fs, [EvMkdir p])
  end.

Definition open_read (p : string) (m : open_mode) : M bytes := λ sys fs,
  (fs_read fs p, fs, [EvOpen p m]).

Definition open_write (p : string) (data : bytes) : M unit := λ sys fs,
  match fs_write fs p data with
  | Return fs' => (Return tt, fs', [EvOpen p WriteText])
  | Raise e => (Raise e, fs, [EvOpen p WriteText])
  end.

(** [subprocess.check_output(argv, stderr=devnull)] *)
Definition check_output (argv : list string) : M bytes := λ sys fs,
  (match run_process sys argv with
   | Completed out => Return out
   | NonZeroExit rc out => Raise (CalledProcessError rc out)
   | SpawnFailed errno => Raise (OSError errno)
   end, fs, [EvExec argv]).

(** [for x in xs: acc = body x acc] *)
Fixpoint for_each {A B} (xs : list A) (body : A → B → M B) (acc : B) : M B :=
  match xs with
  | [] => mret acc
  | x :: xs' => acc' ← body x acc; for_each xs' body acc'
  end.

(* ===================================================================== *)
(** ** fetch_wf_config                                                    *)
(* ===================================================================== *)

(** What [json.load] can hand back: a dictionary of strings, or some other
    JSON value. *)
Inductive pyobj :=
| PyDict (d : dict)
| PyOther.

(** The library functions the code calls.  [sha256_hexdigest b] is
    [hashlib.sha256(b).hexdigest()], 64 hexadecimal digits;
    [json_dump d] is the text [json.dump(d, fh, indent=4)] writes;
    [json_load s] is [json.load] on a file with text [s], [None] when it
    raises [JSONDecodeError]. *)
Class Library := {
  sha256_hexdigest : bytes → string;
  json_dump : dict → string;
  json_load : string → option pyobj
}.

(** Lines 211-217, the body of the loop over the tool's output: a line
    that is not UTF-8 raises, a line without the separator changes
    nothing. *)
Definition parse_config_line (config : dict) (l : bytes) : outcome dict :=
  match decode_utf8 l with
  | None => Raise UnicodeDecodeError
  | Some ul =>
      match split_once " = " ul with
      | Some (k, v) => Return (dict_set k v config)
      | None => Return config
      end
  end.

Fixpoint parse_config_lines (ls : list bytes) (config : dict) : outcome dict :=
  match ls with
  | [] => Return config
  | l :: ls' =>
      match parse_config_line config l with
      | Return config' => parse_config_lines ls' config'
      | Raise e => Raise e
      end
  end.

(** Lines 224-227, the body of the loop over the lines of main.nf. *)
Definition scan_line (config : dict) (l : string) : dict :=
  match match_param l with
  | Some name => dict_set name "false" config
  | None => config
  end.

Definition scan_lines (ls : list string) (config : dict) : dict :=
  fold_left scan_line ls config.

Definition nextflow_missing_msg : string :=
  "It looks like Nextflow is not installed. It is required for most nf-core functions.".

Definition nextflow_failed_msg : string :=
  "`nextflow config` returned non-zero error code: %s," +:+ String LF "   %s".

Definition nextflow_argv (wf_path : string) : list string :=
  ["nextflow"; "config"; "-flat"; wf_path].

Definition tracked_files : list string := ["nextflow.config"; "main.nf"].

Section Fetch.
Context `{Library}.

(** Line 169: the default is computed before the lookup, so an unset HOME
    raises [TypeError] from [os.path.join] even when NXF_HOME is set. *)
Definition get_nxf_home : M string :=
  home ← os_getenv "HOME";
  dflt ← match home with
         | Some h => mret (path_join h ".nextflow")
         | None => raise TypeError
         end;
  nxf ← os_getenv "NXF_HOME";
  mret (default dflt nxf).

(** Lines 171-175. *)
Definition build_cache_basedir (nxf_home : string) : M (option string) :=
  d ← os_path_isdir nxf_home;
  if d : bool then
    let cache_basedir := path_join nxf_home "nf-core" in
    e ← os_path_isdir cache_basedir;
    _ ← (if e : bool then mret tt else os_mkdir cache_basedir);
    mret (Some cache_basedir)
  else mret None.

(** Lines 182-186: one round of the loop. *)
Definition hash_file (wf_path fn concat_hash : string) : M string :=
  try_except
    (data ← open_read (path_join wf_path fn) ReadBinary;
     mret (concat_hash +:+ sha256_hexdigest data))
    (λ e, match e with
          | FileNotFoundError => Some (mret concat_hash)
          | _ => None
          end).

(** Lines 188-189: the fingerprint [bighash], absent when no tracked
    file was read. *)
Definition bighash_of (concat_hash : string) : option string :=
  if (0 <? String.length concat_hash)%nat
  then Some (sha256_hexdigest concat_hash)
  else None.

(** Line 190. *)
Definition cache_filename (concat_hash : string) : option string :=
  bighash ← bighash_of concat_hash;
  Some ("wf-config-cache-" +:+ String.substring 0 25 bighash +:+ ".json").

(** Lines 178-190: the cache file name, [None] when no tracked file
    exists. *)
Definition compute_cache_fn (wf_path : string) : M (option string) :=
  concat_hash ← for_each tracked_files (hash_file wf_path) "";
  mret (cache_filename concat_hash).

(** Lines 163-175: the variable [cache_basedir]. *)
Definition setup_cache_basedir : M (option string) :=
  nxf_home ← get_nxf_home;
  build_cache_basedir nxf_home.

(** Lines 163-193: the variable [cache_path] when the lookup starts. *)
Definition locate_cache (wf_path : string) : M (option string) :=
  cache_basedir ← setup_cache_basedir;
  cache_fn ← compute_cache_fn wf_path;
  match cache_basedir, cache_fn with
  | Some basedir, Some fn => mret (Some (path_join basedir fn))
  | _, _ => mret None
  end.

(** Lines 201-217.  An [OSError] other than ENOENT leaves the [except]
    clause without raising; the [else] branch is then not run.  The
    [open(os.devnull, "w")] of line 203 is no file of the modelled file
    system and leaves no event in the trace: the events [EvOpen] speak of
    the tracked files and of the cache file only.  An [OSError] it raises
    is handled as one of the spawn is, and [SpawnFailed] stands for
    both. *)
Definition call_nextflow_config (wf_path : string) (config : dict) : M dict :=
  raw ← try_except
          (out ← check_output (nextflow_argv wf_path); mret (Some out))
          (λ e, match e with
                | OSError errno =>
                    if (errno =? ENOENT)%Z
                    then Some (raise (AssertionError [AStr nextflow_missing_msg]))
                    else Some (mret None)
                | CalledProcessError rc out =>
                    Some (raise (AssertionError [AStr nextflow_failed_msg; AInt rc; ABytes out]))
                | _ => None
                end);
  match raw with
  | Some nfconfig_raw => lift_outcome (parse_config_lines (splitlines nfconfig_raw) config)
  | None => mret config
  end.

(** Lines 219-229. *)
Definition scrape_main_nf (wf_path : string) (config : dict) : M dict :=
  try_except
    (data ← open_read (path_join wf_path "main.nf") ReadText;
     match decode_utf8 data with
     | None => raise UnicodeDecodeError
     | Some text => mret (scan_lines (text_lines text) config)
     end)
    (λ e, match e with
          | FileNotFoundError => Some (mret config)
          | _ => None
          end).

(** Lines 231-235. *)
Definition save_cache (cache_path : option string) (config : dict) : M unit :=
  match cache_path with
  | Some p => open_write p (json_dump config)
  | None => mret tt
  end.

(** Lines 199-237: what happens when no cached copy is returned. *)
Definition resolve_fresh (wf_path : string) (cache_path : option string) : M pyobj :=
  config ← call_nextflow_config wf_path [];
  config ← scrape_main_nf wf_path config;
  _ ← save_cache cache_path config;
  mret (PyDict config).

(** Lines 196-198. *)
Definition load_cache (cache_path : string) : M pyobj :=
  data ← open_read cache_path ReadText;
  match decode_utf8 data with
  | None => raise UnicodeDecodeError
  | Some text =>
      match json_load text with
      | Some config => mret config
      | None => raise JSONDecodeError
      end
  end.

Definition fetch_wf_config (wf_path : string) : M pyobj :=
  cache_path ← locate_cache wf_path;
  match cache_path with
  | Some p =>
      hit ← os_path_isfile p;
      if hit : bool then load_cache p else resolve_fresh wf_path (Some p)
  | None => resolve_fresh wf_path None
  end.

End Fetch.

(* ===================================================================== *)
(** ** What each phase computes                                           *)
(* ===================================================================== *)

(** The outcomes of the phases of [fetch_wf_config] as functions of the
    system and the file system they run on; the run lemmas below show
    that the code computes them. *)

Section Phases.
Context `{Library}.

(** The Nextflow home directory, when HOME is set. *)
Definition nxf_home_of (sys : system) : option string :=
  h ← environ sys !! "HOME";
  Some (default (path_join h ".nextflow") (environ sys !! "NXF_HOME")).

Definition cache_basedir_of (nxf : string) : string := path_join nxf "nf-core".

(** What one tracked file adds to [concat_hash]. *)
Definition add_digest (acc : string) (o : outcome bytes) : outcome string :=
  match o with
  | Return data => Return (acc +:+ sha256_hexdigest data)
  | Raise FileNotFoundError => Return acc
  | Raise e => Raise e
  end.

Definition concat_hash_of (wf : string) (fs : gmap string node) : outcome string :=
  match add_digest "" (fs_read fs (path_join wf "nextflow.config")) with
  | Return a1 => add_digest a1 (fs_read fs (path_join wf "main.nf"))
  | Raise e => Raise e
  end.

(** The fingerprint of a workflow directory. *)
Definition fingerprint_of (wf : string) (fs : gmap string node) : outcome (option string) :=
  match concat_hash_of wf fs with
  | Return ch => Return (bighash_of ch)
  | Raise e => Raise e
  end.

Definition hash_events (wf : string) (fs : gmap string node) : list event :=
  match add_digest "" (fs_read fs (path_join wf "nextflow.config")) with
  | Return _ =>
      [EvOpen (path_join wf "nextflow.config") ReadBinary;
       EvOpen (path_join wf "main.nf") ReadBinary]
  | Raise _ => [EvOpen (path_join wf "nextflow.config") ReadBinary]
  end.

Definition cache_path_for (basedir fn : option string) : option string :=
  match basedir, fn with
  | Some b, Some f => Some (path_join b f)
  | _, _ => None
  end.

(** What reading the cache file gives. *)
Definition cached_config (fs : gmap string node) (p : string) : outcome pyobj :=
  match fs_read fs p with
  | Return data =>
      match decode_utf8 data with
      | Some text =>
          match json_load text with
          | Some config => Return config
          | None => Raise JSONDecodeError
          end
      | None => Raise UnicodeDecodeError
      end
  | Raise e => Raise e
  end.

(** What the call of the tool leaves in [config]. *)
Definition tool_config (sys : system) (wf : string) (config : dict) : outcome dict :=
  match run_process sys (nextflow_argv wf) with
  | Completed raw => parse_config_lines (splitlines raw) config
  | NonZeroExit rc out =>
      Raise (AssertionError [AStr nextflow_failed_msg; AInt rc; ABytes out])
  | SpawnFailed errno =>
      if (errno =? ENOENT)%Z
      then Raise (AssertionError [AStr nextflow_missing_msg])
      else Return config
  end.

(** What the scan of main.nf leaves in [config]. *)
Definition scraped_config (fs : gmap string node) (wf : string) (config : dict)
  : outcome dict :=
  match fs_read fs (path_join wf "main.nf") with
  | Return data =>
      match decode_utf8 data with
      | Some text => Return (scan_lines (text_lines text) config)
      | None => Raise UnicodeDecodeError
      end
  | Raise FileNotFoundError => Return config
  | Raise e => Raise e
  end.

(** The parameter names the scan of main.nf finds, in file order. *)
Definition scanned_names (fs : gmap string node) (wf : string) : list string :=
  match fs_read fs (path_join wf "main.nf") with
  | Return data =>
      match decode_utf8 data with
      | Some text => omap match_param (text_lines text)
      | None => []
      end
  | Raise _ => []
  end.

End Phases.

(* ===================================================================== *)
(** ** Observations used to state the properties                          *)
(* ===================================================================== *)

Fixpoint last_char (s : string) : option ascii :=
  match s with
  | EmptyString => None
  | String c EmptyString => Some c
  | String _ r => last_char r
  end.

Definition is_exec (e : event) : bool :=
  match e with EvExec _ => true | _ => false end.
Definition is_write (e : event) : bool :=
  match e with EvOpen _ WriteText => true | _ => false end.
Definition is_lookup (e : event) : bool :=
  match e with EvIsFile _ => true | _ => false end.
Definition is_mkdir (e : event) : bool :=
  match e with EvMkdir _ => true | _ => false end.
Definition is_text_read (e : event) : bool :=
  match e with EvOpen _ ReadText => true | _ => false end.

(** The external tool was run. *)
Definition tool_invoked (t : list event) : bool := existsb is_exec t.
(** Some file was opened for writing. *)
Definition file_written (t : list event) : bool := existsb is_write t.
(** The existence of a cache file was tested. *)
Definition cache_looked_up (t : list event) : bool := existsb is_lookup t.
(** A directory was created. *)
Definition dir_made (t : list event) : bool := existsb is_mkdir t.
(** Some file was opened for reading as text: main.nf for the scan, or a
    cache file. *)
Definition text_read (t : list event) : bool := existsb is_text_read t.

(** Probing events: all that happens before the cache lookup. *)
Definition is_probe (e : event) : bool :=
  match e with
  | EvIsDir _ | EvMkdir _ | EvOpen _ ReadBinary => true
  | _ => false
  end.

(** The file system after the setup: unchanged, or with the cache
    directory created. *)
Definition basedir_added (sys : system) (fs fs1 : gmap string node) : Prop :=
  fs1 = fs
  ∨ ∃ nxf, nxf_home_of sys = Some nxf ∧ fs_isdir fs nxf = true
      ∧ fs !! cache_basedir_of nxf = None
      ∧ fs1 = <[cache_basedir_of nxf := Directory true]> fs.

(** The events of the lookup itself. *)
Definition lookup_events (cp : option string) : list event :=
  match cp with Some p => [EvIsFile p] | None => [] end.

(** The key/value pairs of the lines that hold the separator, in line
    order; the other lines contribute nothing. *)
Definition key_value_lines (ls : list string) : list (string * string) :=
  omap (split_once " = ") ls.

(** Last write wins: the value of the last pair with key [k]. *)
Fixpoint last_write (k : string) (kvs : list (string * string)) : option string :=
  match kvs with
  | [] => None
  | (k', v) :: kvs' =>
      match last_write k kvs' with
      | Some v' => Some v'
      | None => if String.eqb k' k then Some v else None
      end
  end.

(** Two tracked files with the same content: both missing, or both
    readable regular files holding the same bytes.  Nothing is asked of
    the other permission bits, of the paths or of the rest of the file
    system. *)
Inductive same_tracked_file (fs1 : gmap string node) (p1 : string)
    (fs2 : gmap string node) (p2 : string) : Prop :=
| both_absent :
    fs1 !! p1 = None → fs2 !! p2 = None → same_tracked_file fs1 p1 fs2 p2
| both_present f1 f2 :
    fs1 !! p1 = Some (Regular f1) → fs2 !! p2 = Some (Regular f2) →
    readable f1 = true → readable f2 = true →
    contents f1 = contents f2 →
    same_tracked_file fs1 p1 fs2 p2.

Section Observations.
Context `{Library}.

(** What is left to do once the cache path is known (lines 192-237), on
    the file system [fs1] the setup left. *)
Definition lookup_and_resolve (wf : string) (cp : option string) (sys : system)
    (fs1 : gmap string node) : outcome pyobj * gmap string node * list event :=
  match cp with
  | Some p =>
      if fs_isfile fs1 p
      then (cached_config fs1 p, fs1, [EvIsFile p; EvOpen p ReadText])
      else
        let '(r, fs2, t2) := resolve_fresh wf (Some p) sys fs1 in
        (r, fs2, EvIsFile p :: t2)
  | None => resolve_fresh wf None sys fs1
  end.

(** A persist step that fails: [os.mkdir] of the cache directory, or the
    [open(cache_path, "w")] that follows the computation of the fresh
    mapping [d]. *)
Inductive persist_fails (wf : string) (sys : system) (fs : gmap string node) : exn → Prop :=
| mkdir_fails nxf e :
    nxf_home_of sys = Some nxf →
    fs_isdir fs nxf = true →
    fs_isdir fs (cache_basedir_of nxf) = false →
    fs_mkdir fs (cache_basedir_of nxf) = Raise e →
    persist_fails wf sys fs e
| write_fails p td d e :
    result (locate_cache wf sys fs) = Return (Some p) →
    fs_isfile fs p = false →
    tool_config sys wf [] = Return td →
    scraped_config fs wf td = Return d →
    fs_write (final_fs (locate_cache wf sys fs)) p (json_dump d) = Raise e →
    persist_fails wf sys fs e.

End Observations.

(* ===================================================================== *)
(** ** Further observations                                               *)
(* ===================================================================== *)

(** A key free of the character "=". *)
Definition no_equals_sign (k : string) : bool :=
  forallb (λ c, negb (Ascii.eqb c "=")) (list_ascii_of_string k).

(* ===================================================================== *)
(** ** check_if_outdated (lines 28-48)                                    *)
(* ===================================================================== *)

Definition is_ascii_digit (c : ascii) : bool := in_range 48 57 c.

(** A character the pattern [[^0-9\.]] does not match. *)
Definition is_version_char (c : ascii) : bool :=
  (is_ascii_digit c || Ascii.eqb c ".")%bool.

(** [re.sub("[^0-9\.]", "", s)]: the digits and dots of [s].  A character
    outside ASCII has no byte in that set, so its bytes go together. *)
Fixpoint clean_version (s : string) : string :=
  match s with
  | EmptyString => ""
  | String c r =>
      if is_version_char c then String c (clean_version r) else clean_version r
  end.

(** The longest run of digits and the rest. *)
Fixpoint span_digits (s : string) : string * string :=
  match s with
  | String c r =>
      if is_ascii_digit c then let '(ds, t) := span_digits r in (String c ds, t)
      else ("", s)
  | EmptyString => ("", "")
  end.

(** [int(s)] for a run of digits. *)
Definition int_of_digits (s : string) : N :=
  match DecimalString.NilEmpty.uint_of_string s with
  | Some d => N.of_uint d
  | None => 0%N
  end.

(** [str(n)] *)
Definition str_of_N (n : N) : string :=
  DecimalString.NilZero.string_of_uint (N.to_uint n).

(** The group [(\d+)]. *)
Definition digits1 (s : string) : option (N * string) :=
  let '(ds, t) := span_digits s in
  if String.eqb ds "" then None else Some (int_of_digits ds, t).

(** [distutils.version.StrictVersion]: the tuple [version] and the
    [prerelease] pair. *)
Record strict_version := mkversion {
  version : N * N * N;
  prerelease : option (ascii * N)
}.

(** The groups [(\. (\d+))?] and [([ab](\d+))?]: each is skipped when it
    does not match. *)
Definition opt_patch (s : string) : N * string :=
  match s with
  | String c r =>
      if Ascii.eqb c "." then
        match digits1 r with Some (p, t) => (p, t) | None => (0%N, s) end
      else (0%N, s)
  | EmptyString => (0%N, s)
  end.

Definition opt_prerelease (s : string) : option (ascii * N) * string :=
  match s with
  | String c r =>
      if (Ascii.eqb c "a" || Ascii.eqb c "b")%bool then
        match digits1 r with Some (n, t) => (Some (c, n), t) | None => (None, s) end
      else (None, s)
  | EmptyString => (None, s)
  end.

(** [$]: the end of the string, or a newline that ends it. *)
Definition at_end (s : string) : bool :=
  (String.eqb s "" || String.eqb s (String LF ""))%bool.

(** [StrictVersion.parse]: the pattern
    [^(\d+) \. (\d+) (\. (\d+))? ([ab](\d+))?$]; [None] is [ValueError]. *)
Definition parse_strict_version (vstring : string) : option strict_version :=
  match digits1 vstring with
  | Some (major, String c r1) =>
      if Ascii.eqb c "." then
        match digits1 r1 with
        | Some (minor, r2) =>
            let '(patch, r3) := opt_patch r2 in
            let '(pre, r4) := opt_prerelease r3 in
            if at_end r4 then Some (mkversion (major, minor, patch) pre) else None
        | None => None
        end
      else None
  | _ => None
  end.

(** [StrictVersion(vstring)]: an empty string is not parsed and leaves an
    object without a [version]. *)
Inductive constructed :=
| Unparsed
| Parsed (v : strict_version)
| Invalid.

Definition construct_version (vstring : string) : constructed :=
  if String.eqb vstring "" then Unparsed
  else match parse_strict_version vstring with
       | Some v => Parsed v
       | None => Invalid
       end.

Definition triple_compare (a b : N * N * N) : comparison :=
  let '(a1, a2, a3) := a in
  let '(b1, b2, b3) := b in
  match (a1 ?= b1)%N with
  | Eq => match (a2 ?= b2)%N with Eq => (a3 ?= b3)%N | c => c end
  | c => c
  end.

(** [StrictVersion._cmp] *)
Definition strict_version_cmp (a b : strict_version) : comparison :=
  match triple_compare (version a) (version b) with
  | Eq =>
      match prerelease a, prerelease b with
      | None, None => Eq
      | Some _, None => Lt
      | None, Some _ => Gt
      | Some (c1, n1), Some (c2, n2) =>
          match (byte_val c1 ?= byte_val c2)%N with
          | Eq => (n1 ?= n2)%N
          | c => c
          end
      end
  | c => c
  end.

(** The result of [>] from that of [_cmp]. *)
Definition is_gt (c : comparison) : bool :=
  match c with Gt => true | _ => false end.

Inductive check_outcome :=
| ReturnsTrue
| ReturnsTuple (is_outdated : bool) (current_version remote_version : string)
| RaisesValueError (vstring : string)
| RaisesAttributeError
| RaisesRequestError.

(** A variable set to a non-empty value. *)
Definition env_truthy (env : gmap string string) (k : string) : bool :=
  match env !! k with
  | Some v => negb (String.eqb v "")
  | None => false
  end.

(** [check_if_outdated]: [pkg_version] is [nf_core.__version__],
    [http_get url] the text of the response to [requests.get(url)], [None]
    when the request raises.  The second component lists the URLs
    requested. *)
Definition check_if_outdated (env : gmap string string) (pkg_version : string)
    (http_get : string → option string)
    (current_version remote_version : option string) (source_url : string)
  : check_outcome * list string :=
  if env_truthy env "NFCORE_NO_VERSION_CHECK" then (ReturnsTrue, [])
  else
    let current := clean_version (default pkg_version current_version) in
    let url := default source_url (env !! "NFCORE_VERSION_URL") +:+ "?v=" +:+ current in
    let '(remote, requests) :=
      match remote_version with
      | Some r => (Some r, [])
      | None => (clean_version <$> http_get url, [url])
      end in
    match remote with
    | None => (RaisesRequestError, requests)
    | Some remote =>
        (match construct_version remote with
         | Invalid => RaisesValueError remote
         | vr =>
             match construct_version current with
             | Invalid => RaisesValueError current
             | vc =>
                 match vr, vc with
                 | Parsed r, Parsed c =>
                     ReturnsTuple
                       (is_gt (strict_version_cmp r c))
                       current remote
                 | _, _ => RaisesAttributeError
                 end
             end
         end, requests)
    end.

(* ===================================================================== *)
(** ** Pipeline._load_pipeline_config (lines 126-137)                     *)
(* ===================================================================== *)

Definition quote_char : ascii := "'"%char.

Fixpoint lstrip_quotes (s : string) : string :=
  match s with
  | String c r => if Ascii.eqb c quote_char then lstrip_quotes r else s
  | EmptyString => s
  end.

Definition string_rev (s : string) : string :=
  string_of_list_ascii (rev (list_ascii_of_string s)).

(** [s.strip("'")] *)
Definition strip_quotes (s : string) : string :=
  string_rev (lstrip_quotes (string_rev (lstrip_quotes s))).

(** [s.replace(old, "")] for a non-empty [old]: the occurrences are found
    from the left and do not overlap; [skip] counts the characters of the
    occurrence being dropped. *)
Fixpoint remove_from (old : string) (skip : nat) (s : string) : string :=
  match s with
  | EmptyString => ""
  | String c r =>
      match skip with
      | S k => remove_from old k r
      | O =>
          if startswith old s then remove_from old (String.length old - 1) r
          else String c (remove_from old 0 r)
      end
  end.

Definition remove_all (old s : string) : string := remove_from old 0 s.

(** The greedy [[0-9\.]+]. *)
Fixpoint span_version (s : string) : string * string :=
  match s with
  | String c r =>
      if is_version_char c then let '(v, t) := span_version r in (String c v, t)
      else ("", s)
  | EmptyString => ("", "")
  end.

(** [re.search(r"[0-9\.]+(-edge)?", s)]: [group(0)] of the leftmost
    match. *)
Fixpoint search_version (s : string) : option string :=
  match s with
  | EmptyString => None
  | String c r =>
      if is_version_char c then
        let '(v, t) := span_version s in
        Some (v +:+ (if startswith "-edge" t then "-edge" else ""))
      else search_version r
  end.

(** Line 133. *)
Definition pipeline_name_of (nf_config : dict) : string :=
  remove_all "nf-core/" (strip_quotes (default "" (dict_get "manifest.name" nf_config))).

(** Lines 135-137: [None] leaves [minNextflowVersion] as it was. *)
Definition min_nextflow_version_of (nf_config : dict) : option string :=
  search_version (default "" (dict_get "manifest.nextflowVersion" nf_config)).

(** A string of digits and dots only: what [clean_version] leaves. *)
Definition is_clean (s : string) : bool :=
  forallb is_version_char (list_ascii_of_string s).

(** A character a strict version number can hold. *)
Definition is_strict_char (c : ascii) : bool :=
  (is_version_char c || Ascii.eqb c "a" || Ascii.eqb c "b" || Ascii.eqb c LF)%bool.

Definition is_strict_text (s : string) : bool :=
  forallb is_strict_char (list_ascii_of_string s).

(** The text [major.minor.patch]. *)
Definition dotted (v : N * N * N) : string :=
  let '(major, minor, patch) := v in
  str_of_N major +:+ "." +:+ str_of_N minor +:+ "." +:+ str_of_N patch.

(** [old] occurs in [s]. *)
Fixpoint occurs (old s : string) : bool :=
  (startswith old s
   || match s with String _ r => occurs old r | EmptyString => false end)%bool.

(* ===================================================================== *)
(** ** wait_cli_function (lines 260-281)                                  *)
(* ===================================================================== *)

(** One turn of the loop as the caller's [poll_func] and the terminal
    decide it: the call returns a true or a false value, a false one
    followed by a sleep that ctrl+c may interrupt, or the call itself is
    interrupted or raises. *)
Inductive poll_result :=
| Truthy
| Falsy (sleep_interrupted : bool)
| Interrupted
| Raised (e : exn).

Inductive wait_result :=
| WaitReturns
| WaitRaises (e : exn)
| StillWaiting.

Definition cancelled : exn := AssertionError [AStr "Cancelled!"].

(** The loop over the results the calls of [poll_func] give in turn, with
    the seconds asked of each [time.sleep]; [poll_every] is not read.  At
    the end of the script the loop is still running. *)
Fixpoint wait_cli_function (script : list poll_result) (poll_every : Z)
  : wait_result * list Z :=
  match script with
  | [] => (StillWaiting, [])
  | Truthy :: _ => (WaitReturns, [])
  | Falsy false :: script' =>
      let '(r, sleeps) := wait_cli_function script' poll_every in (r, 2%Z :: sleeps)
  | Falsy true :: _ => (WaitRaises cancelled, [2%Z])
  | Interrupted :: _ => (WaitRaises cancelled, [])
  | Raised e :: _ => (WaitRaises e, [])
  end.

(** A string of quote characters only. *)
Definition all_quotes (s : string) : bool :=
  forallb (Ascii.eqb quote_char) (list_ascii_of_string s).


(* ===================================================================== *)
(** ** A reference implementation of the library interface                *)
(* ===================================================================== *)

Module SHA256.

Local Open Scope N_scope.

Definition mask32 : N := 0xffffffff.
Definition add32 (a b : N) : N := N.land (a + b) mask32.
Definition rotr (n x : N) : N :=
  N.lor (N.shiftr x n) (N.land (N.shiftl x (32 - n)) mask32).
Definition not32 (x : N) : N := N.lxor x mask32.

Definition Ch (x y z : N) : N := N.lxor (N.land x y) (N.land (not32 x) z).
Definition Maj (x y z : N) : N :=
  N.lxor (N.lxor (N.land x y) (N.land x z)) (N.land y z).
Definition Sigma0 (x : N) : N := N.lxor (N.lxor (rotr 2 x) (rotr 13 x)) (rotr 22 x).
Definition Sigma1 (x : N) : N := N.lxor (N.lxor (rotr 6 x) (rotr 11 x)) (rotr 25 x).
Definition sigma0 (x : N) : N := N.lxor (N.lxor (rotr 7 x) (rotr 18 x)) (N.shiftr x 3).
Definition sigma1 (x : N) : N := N.lxor (N.lxor (rotr 17 x) (rotr 19 x)) (N.shiftr x 10).

(** The round constants are the first 32 bits of the fractional parts of
    the cube roots of the first 64 primes, the initial hash value those of
    the square roots of the first 8 primes. *)
Definition is_prime (p : nat) : bool :=
  forallb (λ d, negb (Nat.eqb (p mod d) 0)) (seq 2 (p - 2)).

Definition first_primes (n : nat) : list N :=
  map N.of_nat (firstn n (List.filter is_prime (seq 2 310))).

(** The integer cube root of a number below 2^105, bit by bit. *)
Definition cube_root (x : N) : N :=
  fold_left (λ r i, let r' := r + N.shiftl 1 (N.of_nat i) in
                    if r' * r' * r' <=? x then r' else r)
            (rev (seq 0 35)) 0.

Definition frac32_cbrt (p : N) : N := N.land (cube_root (N.shiftl p 96)) mask32.
Definition frac32_sqrt (p : N) : N := N.land (N.sqrt (N.shiftl p 64)) mask32.

Definition K : list N := Eval vm_compute in map frac32_cbrt (first_primes 64).

Definition H0 : list N := Eval vm_compute in map frac32_sqrt (first_primes 8).

(** The message followed by 0x80, zero bytes up to 56 modulo 64 and the
    bit length as eight big-endian bytes. *)
Definition be_bytes (n : nat) (x : N) : list N :=
  map (λ i, N.land (N.shiftr x (8 * N.of_nat i)) 0xff) (rev (seq 0 n)).

Definition pad (msg : list N) : list N :=
  let len := N.of_nat (length msg) in
  let zeros := N.to_nat ((119 - len mod 64) mod 64) in
  msg ++ [0x80] ++ repeat 0 zeros ++ be_bytes 8 (8 * len).

Fixpoint be_words (bs : list N) : list N :=
  match bs with
  | b0 :: b1 :: b2 :: b3 :: r =>
      (N.shiftl b0 24 + N.shiftl b1 16 + N.shiftl b2 8 + b3) :: be_words r
  | _ => []
  end.

(** The schedule, newest word first: [ws] holds W[t-1], W[t-2], ... *)
Fixpoint extend (n : nat) (ws : list N) : list N :=
  match n with
  | O => ws
  | S n' =>
      let w := add32 (add32 (sigma1 (nth 1 ws 0)) (nth 6 ws 0))
                     (add32 (sigma0 (nth 14 ws 0)) (nth 15 ws 0)) in
      extend n' (w :: ws)
  end.

Definition schedule (block : list N) : list N :=
  rev (extend 48 (rev (be_words block))).

Definition round (st : list N) (kw : N * N) : list N :=
  match st with
  | [a; b; c; d; e; f; g; h] =>
      let t1 := add32 (add32 (add32 h (Sigma1 e)) (add32 (Ch e f g) (fst kw))) (snd kw) in
      let t2 := add32 (Sigma0 a) (Maj a b c) in
      [add32 t1 t2; a; b; c; add32 d t1; e; f; g]
  | _ => st
  end.

Definition compress (h : list N) (block : list N) : list N :=
  let st := fold_left round (combine K (schedule block)) h in
  map (λ p, add32 (fst p) (snd p)) (combine h st).

Fixpoint blocks (n : nat) (bs : list N) : list (list N) :=
  match n with
  | O => []
  | S n' =>
      match bs with
      | [] => []
      | _ => firstn 64 bs :: blocks n' (skipn 64 bs)
      end
  end.

Definition digest_words (msg : list N) : list N :=
  let p := pad msg in
  fold_left compress (blocks (length p) p) H0.

Definition hex_digit (d : N) : ascii :=
  if d <? 10 then ascii_of_N (48 + d) else ascii_of_N (87 + d).

Definition hex_word (w : N) : string :=
  string_of_list_ascii
    (map (λ i, hex_digit (N.land (N.shiftr w (4 * N.of_nat i)) 0xf)) (rev (seq 0 8))).

Definition hexdigest (b : bytes) : string :=
  String.concat "" (map hex_word (digest_words (map N_of_ascii (list_ascii_of_string b)))).

End SHA256.

Module JSON.

Local Open Scope N_scope.

Definition chr (n : N) : ascii := ascii_of_N n.

Definition dquote : string := String (chr 0x22) EmptyString.

Definition hex4 (n : N) : string :=
  string_of_list_ascii
    (map (λ i, SHA256.hex_digit (N.land (N.shiftr n (4 * N.of_nat i)) 0xf)) (rev (seq 0 4))).

Definition u_escape (cp : N) : string :=
  if cp <? 0x10000 then "\u" +:+ hex4 cp
  else
    let v := cp - 0x10000 in
    "\u" +:+ hex4 (N.lor 0xd800 (N.shiftr v 10))
    +:+ "\u" +:+ hex4 (N.lor 0xdc00 (N.land v 0x3ff)).

(** One character of a string literal, [ensure_ascii=True]. *)
Definition escape_codepoint (cp : N) : string :=
  if cp =? 0x22 then "\" +:+ dquote
  else if cp =? 0x5c then "\\"
  else if cp =? 0x0a then "\n"
  else if cp =? 0x0d then "\r"
  else if cp =? 0x09 then "\t"
  else if cp =? 0x08 then "\b"
  else if cp =? 0x0c then "\f"
  else if (0x20 <=? cp) && (cp <=? 0x7e) then String (chr cp) ""
  else u_escape cp.

Definition low6 (c : ascii) : N := N.land (byte_val c) 0x3f.

(** The code points of a [str], read off its UTF-8 representation. *)
Fixpoint escape (s : string) : string :=
  match s with
  | EmptyString => ""
  | String c0 r0 =>
      let b0 := byte_val c0 in
      if b0 <? 0xc0 then escape_codepoint b0 +:+ escape r0
      else
        match r0 with
        | EmptyString => escape_codepoint b0
        | String c1 r1 =>
            if b0 <? 0xe0 then
              escape_codepoint (N.shiftl (N.land b0 0x1f) 6 + low6 c1) +:+ escape r1
            else
              match r1 with
              | EmptyString => escape_codepoint b0 +:+ escape r0
              | String c2 r2 =>
                  if b0 <? 0xf0 then
                    escape_codepoint
                      (N.shiftl (N.land b0 0x0f) 12 + N.shiftl (low6 c1) 6 + low6 c2)
                    +:+ escape r2
                  else
                    match r2 with
                    | EmptyString => escape_codepoint b0 +:+ escape r0
                    | String c3 r3 =>
                        escape_codepoint
                          (N.shiftl (N.land b0 0x07) 18 + N.shiftl (low6 c1) 12
                           + N.shiftl (low6 c2) 6 + low6 c3)
                        +:+ escape r3
                    end
              end
        end
  end.

Definition quote (s : string) : string := dquote +:+ escape s +:+ dquote.

Definition NL : string := String LF "".

(** [json.dumps(d, indent=4)] *)
Definition dump (d : dict) : string :=
  match d with
  | [] => "{}"
  | _ =>
      "{" +:+ NL
      +:+ String.concat ("," +:+ NL)
            (map (λ kv, "    " +:+ quote (fst kv) +:+ ": " +:+ quote (snd kv)) d)
      +:+ NL +:+ "}"
  end.

#[local] Unset Elimination Schemes.
Inductive json :=
| JStr (s : string)
| JAtom
| JArr (l : list json)
| JObj (l : list (string * json)).
#[local] Set Elimination Schemes.

Definition utf8_encode (cp : N) : string :=
  if cp <? 0x80 then String (chr cp) ""
  else if cp <? 0x800 then
    String (chr (0xc0 + N.shiftr cp 6)) (String (chr (0x80 + N.land cp 0x3f)) "")
  else if cp <? 0x10000 then
    String (chr (0xe0 + N.shiftr cp 12))
      (String (chr (0x80 + N.land (N.shiftr cp 6) 0x3f))
         (String (chr (0x80 + N.land cp 0x3f)) ""))
  else
    String (chr (0xf0 + N.shiftr cp 18))
      (String (chr (0x80 + N.land (N.shiftr cp 12) 0x3f))
         (String (chr (0x80 + N.land (N.shiftr cp 6) 0x3f))
            (String (chr (0x80 + N.land cp 0x3f)) ""))).

Definition hex_val (c : ascii) : option N :=
  let b := byte_val c in
  if (48 <=? b) && (b <=? 57) then Some (b - 48)
  else if (97 <=? b) && (b <=? 102) then Some (b - 87)
  else if (65 <=? b) && (b <=? 70) then Some (b - 55)
  else None.

Definition read_hex4 (s : string) : option (N * string) :=
  match s with
  | String a (String b (String c (String d r))) =>
      match hex_val a, hex_val b, hex_val c, hex_val d with
      | Some x, Some y, Some z, Some t => Some (4096 * x + 256 * y + 16 * z + t, r)
      | _, _, _, _ => None
      end
  | _ => None
  end.

Definition simple_escape (c : ascii) : option ascii :=
  let b := byte_val c in
  if b =? 0x22 then Some c
  else if b =? 0x5c then Some c
  else if b =? 0x2f then Some c
  else if b =? 0x62 then Some (chr 8)
  else if b =? 0x66 then Some (chr 12)
  else if b =? 0x6e then Some (chr 10)
  else if b =? 0x72 then Some (chr 13)
  else if b =? 0x74 then Some (chr 9)
  else None.

(** The body of a string literal, after the opening quote. *)
Fixpoint scan_string (fuel : nat) (s acc : string) : option (string * string) :=
  match fuel with
  | O => None
  | S fuel' =>
      match s with
      | EmptyString => None
      | String c r =>
          let b := byte_val c in
          if b =? 0x22 then Some (acc, r)
          else if b <? 0x20 then None
          else if b =? 0x5c then
            match r with
            | EmptyString => None
            | String e r' =>
                if byte_val e =? 0x75 then
                  match read_hex4 r' with
                  | None => None
                  | Some (u, r'') =>
                      if (0xd800 <=? u) && (u <=? 0xdbff) && startswith "\u" r'' then
                        match read_hex4 (String.substring 2 (String.length r'' - 2) r'') with
                        | None => None
                        | Some (u2, r3) =>
                            if (0xdc00 <=? u2) && (u2 <=? 0xdfff) then
                              scan_string fuel' r3
                                (acc +:+ utf8_encode
                                   (0x10000 + N.lor (N.shiftl (u - 0xd800) 10) (u2 - 0xdc00)))
                            else scan_string fuel' r'' (acc +:+ utf8_encode u)
                        end
                      else scan_string fuel' r'' (acc +:+ utf8_encode u)
                  end
                else
                  match simple_escape e with
                  | Some x => scan_string fuel' r' (acc +:+ String x "")
                  | None => None
                  end
            end
          else scan_string fuel' r (acc +:+ String c "")
      end
  end.

Definition is_json_ws (c : ascii) : bool :=
  let b := byte_val c in (b =? 32) || (b =? 9) || (b =? 10) || (b =? 13).

Fixpoint skip_ws (s : string) : string :=
  match s with
  | String c r => if is_json_ws c then skip_ws r else s
  | EmptyString => s
  end.

Definition is_digit (c : ascii) : bool := in_range 48 57 c.

Fixpoint skip_digits (s : string) : string :=
  match s with
  | String c r => if is_digit c then skip_digits r else s
  | EmptyString => s
  end.

(** A digit run that must not be empty. *)
Definition digits1 (s : string) : option string :=
  match s with
  | String c r => if is_digit c then Some (skip_digits r) else None
  | EmptyString => None
  end.

(** A number literal: an optional minus sign, an integer part without
    leading zeros, an optional fraction and an optional exponent.  The
    result is the rest after the longest match. *)
Definition scan_number (s : string) : option string :=
  let s1 := if startswith "-" s then String.substring 1 (String.length s - 1) s else s in
  let int_part :=
    match s1 with
    | String c r =>
        if byte_val c =? 48 then Some r
        else if is_digit c then Some (skip_digits r)
        else None
    | EmptyString => None
    end in
  match int_part with
  | None => None
  | Some s2 =>
      let s3 :=
        match s2 with
        | String c r =>
            if byte_val c =? 46 then
              match digits1 r with Some t => t | None => s2 end
            else s2
        | EmptyString => s2
        end in
      let s4 :=
        match s3 with
        | String c r =>
            if (byte_val c =? 101) || (byte_val c =? 69) then
              let r' :=
                match r with
                | String sg t => if (byte_val sg =? 43) || (byte_val sg =? 45) then t else r
                | EmptyString => r
                end in
              match digits1 r' with Some t => t | None => s3 end
            else s3
        | EmptyString => s3
        end in
      Some s4
  end.

Definition after (p s : string) : option string :=
  if startswith p s
  then Some (String.substring (String.length p) (String.length s - String.length p) s)
  else None.

Definition scan_atom (s : string) : option string :=
  match after "null" s with
  | Some r => Some r
  | None =>
  match after "true" s with
  | Some r => Some r
  | None =>
  match after "false" s with
  | Some r => Some r
  | None =>
  match scan_number s with
  | Some r => Some r
  | None =>
  match after "NaN" s with
  | Some r => Some r
  | None =>
  match after "Infinity" s with
  | Some r => Some r
  | None => after "-Infinity" s
  end end end end end end.

Fixpoint value (fuel : nat) (s : string) : option (json * string) :=
  match fuel with
  | O => None
  | S fuel' =>
      match s with
      | EmptyString => None
      | String c r =>
          let b := byte_val c in
          if b =? 0x22 then
            match scan_string (S (String.length r)) r "" with
            | Some (str, r') => Some (JStr str, r')
            | None => None
            end
          else if b =? 0x7b then
            match skip_ws r with
            | String c' r' =>
                if byte_val c' =? 0x7d then Some (JObj [], r')
                else members fuel' (skip_ws r) []
            | EmptyString => None
            end
          else if b =? 0x5b then
            match skip_ws r with
            | String c' r' =>
                if byte_val c' =? 0x5d then Some (JArr [], r')
                else elements fuel' (skip_ws r) []
            | EmptyString => None
            end
          else
            match scan_atom s with
            | Some r' => Some (JAtom, r')
            | None => None
            end
      end
  end
with elements (fuel : nat) (s : string) (acc : list json) : option (json * string) :=
  match fuel with
  | O => None
  | S fuel' =>
      match value fuel' s with
      | None => None
      | Some (v, r) =>
          match skip_ws r with
          | String c r' =>
              if byte_val c =? 0x2c then elements fuel' (skip_ws r') (v :: acc)
              else if byte_val c =? 0x5d then Some (JArr (rev (v :: acc)), r')
              else None
          | EmptyString => None
          end
      end
  end
with members (fuel : nat) (s : string) (acc : list (string * json)) : option (json * string) :=
  match fuel with
  | O => None
  | S fuel' =>
      match s with
      | String q r0 =>
          if byte_val q =? 0x22 then
            match scan_string (S (String.length r0)) r0 "" with
            | None => None
            | Some (k, r1) =>
                match skip_ws r1 with
                | String c r2 =>
                    if byte_val c =? 0x3a then
                      match value fuel' (skip_ws r2) with
                      | None => None
                      | Some (v, r3) =>
                          match skip_ws r3 with
                          | String c' r4 =>
                              if byte_val c' =? 0x2c
                              then members fuel' (skip_ws r4) ((k, v) :: acc)
                              else if byte_val c' =? 0x7d
                              then Some (JObj (rev ((k, v) :: acc)), r4)
                              else None
                          | EmptyString => None
                          end
                      end
                    else None
                | EmptyString => None
                end
            end
          else None
      | EmptyString => None
      end
  end.

(** A parsed object whose members are all strings, as a [dict]: a repeated
    key keeps its first position and its last value. *)
Fixpoint to_dict (l : list (string * json)) (d : dict) : option dict :=
  match l with
  | [] => Some d
  | (k, JStr v) :: l' => to_dict l' (dict_set k v d)
  | _ => None
  end.

(** [json.loads(s)]: white space around one value, nothing after it. *)
Definition load (s : string) : option pyobj :=
  match value (2 * String.length s + 2) (skip_ws s) with
  | None => None
  | Some (v, r) =>
      match skip_ws r with
      | EmptyString =>
          Some match v with
               | JObj l => match to_dict l [] with Some d => PyDict d | None => PyOther end
               | _ => PyOther
               end
      | _ => None
      end
  end.

End JSON.

(** Python's [hashlib] and [json], as far as the code uses them. *)
Definition python_library : Library := {|
  sha256_hexdigest := SHA256.hexdigest;
  json_dump := JSON.dump;
  json_load := JSON.load
|}.

(* ===================================================================== *)
(** ** Concrete systems                                                   *)
(* ===================================================================== *)

Definition nl : string := String LF "".

Definition home_env : gmap string string := {[ "HOME" := "/home/u" ]}.

(** A system whose nextflow prints [out] for the workflow [wf]. *)
Definition tool_prints (wf : string) (out : bytes) : list string → proc_result :=
  λ argv, if bool_decide (argv = nextflow_argv wf) then Completed out else SpawnFailed ENOENT.

Definition demo_output : bytes :=
  "params.a = 1" +:+ nl +:+ "manifest.name = 'x'" +:+ nl.

Definition demo_sys : system := mksystem home_env (tool_prints "/wf" demo_output).

Definition demo_config : file := mkfile ("params.a = 1" +:+ nl) true true.
Definition demo_main_nf : file :=
  mkfile ("params.a = 5" +:+ nl +:+ "params.b = 2" +:+ nl) true true.

(** A workflow in /wf and an existing, empty Nextflow home. *)
Definition demo_fs : gmap string node :=
  list_to_map [ ("/home/u/.nextflow", Directory true);
                ("/wf/nextflow.config", Regular demo_config);
                ("/wf/main.nf", Regular demo_main_nf) ].

Definition demo_basedir : string := "/home/u/.nextflow/nf-core".
Definition demo_cache_path : string :=
  "/home/u/.nextflow/nf-core/wf-config-cache-d34288406e156b49871f4049e.json".

Definition demo_mapping : list (string * string) :=
  [("params.a", "false"); ("manifest.name", "'x'"); ("params.b", "false")].

(** The workflow again, with the cache directory present. *)
Definition cached_fs (dir_writable : bool) (entry : option file) : gmap string node :=
  match entry with
  | Some f => <[demo_cache_path := Regular f]> (<[demo_basedir := Directory dir_writable]> demo_fs)
  | None => <[demo_basedir := Directory dir_writable]> demo_fs
  end.

(** Nextflow is not installed. *)
Definition no_tool_sys : system := mksystem home_env (λ _, SpawnFailed ENOENT).

(** Spawning nextflow fails with EACCES. *)
Definition eacces_sys : system := mksystem home_env (λ _, SpawnFailed 13).

(** NXF_HOME names a directory that does not exist. *)
Definition nxf_env : gmap string string :=
  {[ "HOME" := "/home/u"; "NXF_HOME" := "/opt/nxf" ]}.
Definition nxf_sys : system := mksystem nxf_env (tool_prints "/wf" demo_output).

(** A directory without tracked files. *)
Definition bare_fs : gmap string node :=
  list_to_map [ ("/home/u/.nextflow", Directory true); ("/bare", Directory true) ].
Definition bare_sys : system := mksystem home_env (tool_prints "/bare" "").

(** A copy of the workflow elsewhere, read-only, beside other files. *)
Definition copy_fs : gmap string node :=
  list_to_map [ ("/srv/copy/nextflow.config", Regular (mkfile ("params.a = 1" +:+ nl) true false));
                ("/srv/copy/main.nf",
                 Regular (mkfile ("params.a = 5" +:+ nl +:+ "params.b = 2" +:+ nl) true false));
                ("/srv/copy/README.md", Regular (mkfile "notes" true true)) ].

(** Tool output with a line that holds no separator. *)
Definition foo_output : bytes := "foo = bar" +:+ nl +:+ "garbage" +:+ nl.
Definition foo_sys : system := mksystem home_env (tool_prints "/wf" foo_output).

(** Tool output that is not UTF-8. *)
Definition bad_line : bytes := String (ascii_of_N 255) "".
Definition bad_sys : system := mksystem home_env (tool_prints "/wf" bad_line).

(** The tool exits with status 1 after printing a message. *)
Definition failing_sys : system := mksystem home_env (λ _, NonZeroExit 1 "boom").

(** HOME is unset, NXF_HOME is set. *)
Definition homeless_sys : system :=
  mksystem {[ "NXF_HOME" := "/opt/nxf" ]} (tool_prints "/wf" demo_output).

(** The workflow and its copy side by side. *)
Definition twin_fs : gmap string node := demo_fs ∪ copy_fs.

(** A server that knows version 1.11. *)
Definition version_server (url : string) : option string :=
  if String.eqb url "https://nf-co.re/tools_version?v=1.10" then Some ("v1.11" +:+ nl)
  else None.

(** A server that answers with an error page. *)
Definition error_server (url : string) : option string := Some "Not Found".

(** The workflow with a main.nf that may not be read. *)
Definition locked_fs : gmap string node :=
  <["/wf/main.nf" := Regular (mkfile ("params.b = 2" +:+ nl) false true)]> demo_fs.


(* ===================================================================== *)
(** ** The model on small inputs                                          *)
(* ===================================================================== *)

Example dirname_ex1 : dirname "/h/.nextflow/nf-core/x.json" = "/h/.nextflow/nf-core".
Proof. reflexivity. Qed.
Example dirname_ex2 : dirname "/x" = "/".
Proof. reflexivity. Qed.
Example dirname_ex3 : dirname "x" = "".
Proof. reflexivity. Qed.
Example dirname_ex4 : dirname "a//b" = "a".
Proof. reflexivity. Qed.
Example join_ex1 : path_join "/a" "b" = "/a/b".
Proof. reflexivity. Qed.
Example join_ex2 : path_join "/a/" "b" = "/a/b".
Proof. reflexivity. Qed.
Example join_ex3 : path_join "" "b" = "b".
Proof. reflexivity. Qed.
Example splitlines_ex1 : splitlines (String "a" (String LF (String CR (String LF "b")))) = ["a"; ""; "b"].
Proof. reflexivity. Qed.
Example splitlines_ex2 : splitlines (String "a" (String LF "")) = ["a"].
Proof. reflexivity. Qed.
Example split_once_ex1 : split_once " = " "a = b = c" = Some ("a", "b = c").
Proof. reflexivity. Qed.
Example split_once_ex2 : split_once " = " "a=b" = None.
Proof. reflexivity. Qed.
Example split_once_ex3 : split_once " = " " = " = Some ("", "").
Proof. reflexivity. Qed.
Example match_param_ex1 : match_param "  params.foo_1 = 'x'" = Some "params.foo_1".
Proof. reflexivity. Qed.
Example match_param_ex2 : match_param "params.foo.bar = 1" = None.
Proof. reflexivity. Qed.
Example match_param_ex3 : match_param "// params.foo = 1" = None.
Proof. reflexivity. Qed.
Example match_param_ex4 : match_param "params.=3" = None.
Proof. reflexivity. Qed.
Example match_param_ex5 : match_param "params.a==3" = Some "params.a".
Proof. reflexivity. Qed.

(* ===================================================================== *)
(** ** How each phase runs                                                *)
(* ===================================================================== *)

Section Runs.
Context `{Library}.

Lemma run_bind {A B} (m : M A) (f : A → M B) sys fs :
  (m ≫= f) sys fs =
  match m sys fs with
  | (Return a, fs1, t1) => let '(r, fs2, t2) := f a sys fs1 in (r, fs2, t1 ++ t2)
  | (Raise e, fs1, t1) => (Raise e, fs1, t1)
  end.
Proof. reflexivity. Qed.

Lemma get_nxf_home_run sys fs :
  get_nxf_home sys fs =
  (match nxf_home_of sys with Some nxf => Return nxf | None => Raise TypeError end, fs, []).
Proof.
  unfold get_nxf_home, nxf_home_of. rewrite run_bind. unfold os_getenv at 1.
  destruct (environ sys !! "HOME") as [h|]; reflexivity.
Qed.

Lemma build_cache_basedir_run nxf sys fs :
  build_cache_basedir nxf sys fs =
  if fs_isdir fs nxf then
    if fs_isdir fs (cache_basedir_of nxf)
    then (Return (Some (cache_basedir_of nxf)), fs, [EvIsDir nxf; EvIsDir (cache_basedir_of nxf)])
    else
      match fs_mkdir fs (cache_basedir_of nxf) with
      | Return fs' =>
          (Return (Some (cache_basedir_of nxf)), fs',
           [EvIsDir nxf; EvIsDir (cache_basedir_of nxf); EvMkdir (cache_basedir_of nxf)])
      | Raise e =>
          (Raise e, fs,
           [EvIsDir nxf; EvIsDir (cache_basedir_of nxf); EvMkdir (cache_basedir_of nxf)])
      end
  else (Return None, fs, [EvIsDir nxf]).
Proof.
  unfold build_cache_basedir, cache_basedir_of. rewrite run_bind. unfold os_path_isdir at 1.
  destruct (fs_isdir fs nxf); [|reflexivity].
  rewrite run_bind. unfold os_path_isdir at 1.
  destruct (fs_isdir fs (path_join nxf "nf-core")); [reflexivity|].
  rewrite run_bind. unfold os_mkdir.
  destruct (fs_mkdir fs (path_join nxf "nf-core")); reflexivity.
Qed.

Lemma setup_cache_basedir_run sys fs :
  setup_cache_basedir sys fs =
  match nxf_home_of sys with
  | Some nxf => build_cache_basedir nxf sys fs
  | None => (Raise TypeError, fs, [])
  end.
Proof.
  unfold setup_cache_basedir. rewrite run_bind, get_nxf_home_run.
  destruct (nxf_home_of sys) as [nxf|]; [|reflexivity].
  destruct (build_cache_basedir nxf sys fs) as [[r fs1] t1]. reflexivity.
Qed.

Lemma hash_file_run wf fn acc sys fs :
  hash_file wf fn acc sys fs =
  (add_digest acc (fs_read fs (path_join wf fn)), fs, [EvOpen (path_join wf fn) ReadBinary]).
Proof.
  unfold hash_file, try_except. rewrite run_bind. unfold open_read.
  destruct (fs_read fs (path_join wf fn)) as [data|e]; simpl; [reflexivity|].
  destruct e; reflexivity.
Qed.

Lemma compute_cache_fn_run wf sys fs :
  compute_cache_fn wf sys fs =
  (match concat_hash_of wf fs with
   | Return ch => Return (cache_filename ch)
   | Raise e => Raise e
   end, fs, hash_events wf fs).
Proof.
  unfold compute_cache_fn, concat_hash_of, hash_events, tracked_files, for_each.
  rewrite !run_bind, hash_file_run.
  destruct (add_digest "" (fs_read fs (path_join wf "nextflow.config"))) as [a1|e1];
    [|reflexivity].
  rewrite run_bind, hash_file_run.
  destruct (add_digest a1 (fs_read fs (path_join wf "main.nf"))) as [a2|e2]; reflexivity.
Qed.

Lemma locate_cache_run wf sys fs :
  locate_cache wf sys fs =
  match setup_cache_basedir sys fs with
  | (Return basedir, fs1, t1) =>
      (match concat_hash_of wf fs1 with
       | Return ch => Return (cache_path_for basedir (cache_filename ch))
       | Raise e => Raise e
       end, fs1, t1 ++ hash_events wf fs1)
  | (Raise e, fs1, t1) => (Raise e, fs1, t1)
  end.
Proof.
  unfold locate_cache. rewrite run_bind.
  destruct (setup_cache_basedir sys fs) as [[[basedir|e] fs1] t1]; [|reflexivity].
  rewrite run_bind, compute_cache_fn_run.
  destruct (concat_hash_of wf fs1) as [ch|e]; [|reflexivity].
  unfold cache_path_for.
  destruct basedir as [b|], (cache_filename ch) as [fn|]; simpl; by rewrite ?app_nil_r.
Qed.

Lemma load_cache_run p sys fs :
  load_cache p sys fs = (cached_config fs p, fs, [EvOpen p ReadText]).
Proof.
  unfold load_cache, cached_config. rewrite run_bind. unfold open_read.
  destruct (fs_read fs p) as [data|e]; [|reflexivity].
  destruct (decode_utf8 data) as [text|]; [|reflexivity].
  destruct (json_load text); reflexivity.
Qed.

Lemma call_nextflow_config_run wf config sys fs :
  call_nextflow_config wf config sys fs =
  (tool_config sys wf config, fs, [EvExec (nextflow_argv wf)]).
Proof.
  unfold call_nextflow_config, tool_config, try_except. rewrite !run_bind. unfold check_output.
  destruct (run_process sys (nextflow_argv wf)) as [out|rc out|errno]; simpl.
  - unfold lift_outcome. reflexivity.
  - reflexivity.
  - destruct (errno =? ENOENT)%Z; reflexivity.
Qed.

Lemma scrape_main_nf_run wf config sys fs :
  scrape_main_nf wf config sys fs =
  (scraped_config fs wf config, fs, [EvOpen (path_join wf "main.nf") ReadText]).
Proof.
  unfold scrape_main_nf, scraped_config, try_except. rewrite run_bind. unfold open_read.
  destruct (fs_read fs (path_join wf "main.nf")) as [data|e]; simpl.
  - destruct (decode_utf8 data); reflexivity.
  - destruct e; reflexivity.
Qed.

Lemma resolve_fresh_run wf cp sys fs :
  resolve_fresh wf cp sys fs =
  match tool_config sys wf [] with
  | Raise e => (Raise e, fs, [EvExec (nextflow_argv wf)])
  | Return c1 =>
      match scraped_config fs wf c1 with
      | Raise e => (Raise e, fs, [EvExec (nextflow_argv wf); EvOpen (path_join wf "main.nf") ReadText])
      | Return c2 =>
          match cp with
          | None =>
              (Return (PyDict c2), fs,
               [EvExec (nextflow_argv wf); EvOpen (path_join wf "main.nf") ReadText])
          | Some p =>
              match fs_write fs p (json_dump c2) with
              | Return fs' =>
                  (Return (PyDict c2), fs',
                   [EvExec (nextflow_argv wf); EvOpen (path_join wf "main.nf") ReadText;
                    EvOpen p WriteText])
              | Raise e =>
                  (Raise e, fs,
                   [EvExec (nextflow_argv wf); EvOpen (path_join wf "main.nf") ReadText;
                    EvOpen p WriteText])
              end
          end
      end
  end.
Proof.
  unfold resolve_fresh. rewrite run_bind, call_nextflow_config_run.
  destruct (tool_config sys wf []) as [c1|e]; [|reflexivity].
  rewrite run_bind, scrape_main_nf_run.
  destruct (scraped_config fs wf c1) as [c2|e]; [|reflexivity].
  rewrite run_bind. destruct cp as [p|]; simpl; [|reflexivity].
  unfold open_write. destruct (fs_write fs p (json_dump c2)); reflexivity.
Qed.

Lemma fetch_wf_config_run wf sys fs :
  fetch_wf_config wf sys fs =
  match locate_cache wf sys fs with
  | (Return (Some p), fs1, t1) =>
      if fs_isfile fs1 p
      then (cached_config fs1 p, fs1, t1 ++ [EvIsFile p; EvOpen p ReadText])
      else
        let '(r, fs2, t2) := resolve_fresh wf (Some p) sys fs1 in
        (r, fs2, t1 ++ EvIsFile p :: t2)
  | (Return None, fs1, t1) =>
      let '(r, fs2, t2) := resolve_fresh wf None sys fs1 in (r, fs2, t1 ++ t2)
  | (Raise e, fs1, t1) => (Raise e, fs1, t1)
  end.
Proof.
  unfold fetch_wf_config. rewrite run_bind.
  destruct (locate_cache wf sys fs) as [[[[p|]|e] fs1] t1]; try reflexivity.
  rewrite run_bind. unfold os_path_isfile at 1.
  destruct (fs_isfile fs1 p).
  - rewrite load_cache_run. reflexivity.
  - destruct (resolve_fresh wf (Some p) sys fs1) as [[r fs2] t2]. reflexivity.
Qed.

End Runs.

(* ===================================================================== *)
(** ** Paths                                                              *)
(* ===================================================================== *)

Lemma last_char_app a b : b ≠ "" → last_char (a +:+ b) = last_char b.
Proof.
  intros Hb. induction a as [|c a IH]; [reflexivity|].
  simpl. rewrite <- IH. destruct (a +:+ b) eqn:E; [|reflexivity].
  destruct a; simpl in E; [done | discriminate].
Qed.

Lemma last_char_path_join a b : b ≠ "" → last_char (path_join a b) = last_char b.
Proof.
  intros Hb. unfold path_join.
  destruct (startswith "/" b); [reflexivity|].
  destruct (String.eqb a "" || endswith_char slash a)%bool.
  - by apply last_char_app.
  - rewrite last_char_app; [by apply last_char_app|].
    destruct b; [done|discriminate].
Qed.

Section Paths.
Context `{Library}.

Lemma last_char_cache_filename ch fn :
  cache_filename ch = Some fn → fn ≠ "" ∧ last_char fn = Some "n"%char.
Proof.
  unfold cache_filename, bighash_of.
  destruct (0 <? String.length ch)%nat; [|discriminate].
  intros [= <-]. split; [discriminate|].
  change ("wf-config-cache-" +:+ String.substring 0 25 (sha256_hexdigest ch) +:+ ".json")
    with ("wf-config-cache-" +:+ (String.substring 0 25 (sha256_hexdigest ch) +:+ ".json")).
  rewrite last_char_app.
  - by rewrite last_char_app.
  - destruct (String.substring 0 25 (sha256_hexdigest ch)); discriminate.
Qed.

Lemma last_char_cache_path b fn ch :
  cache_filename ch = Some fn → last_char (path_join b fn) = Some "n"%char.
Proof.
  intros [Hne Hl]%last_char_cache_filename. by rewrite last_char_path_join.
Qed.

Lemma last_char_basedir nxf : last_char (cache_basedir_of nxf) = Some "e"%char.
Proof. unfold cache_basedir_of. by rewrite last_char_path_join. Qed.

Lemma last_char_config wf : last_char (path_join wf "nextflow.config") = Some "g"%char.
Proof. by rewrite last_char_path_join. Qed.

Lemma last_char_main_nf wf : last_char (path_join wf "main.nf") = Some "f"%char.
Proof. by rewrite last_char_path_join. Qed.

End Paths.

(* ===================================================================== *)
(** ** Dictionaries                                                       *)
(* ===================================================================== *)

Lemma dict_get_set_eq k v d : dict_get k (dict_set k v d) = Some v.
Proof.
  induction d as [|[k' v'] d IH]; simpl.
  - by rewrite String.eqb_refl.
  - destruct (String.eqb k' k) eqn:E; simpl; rewrite E; [reflexivity|exact IH].
Qed.

Lemma dict_get_set_ne k k' v d : k ≠ k' → dict_get k' (dict_set k v d) = dict_get k' d.
Proof.
  intros Hne. induction d as [|[k0 v0] d IH]; simpl.
  - destruct (String.eqb_spec k k'); [done|reflexivity].
  - destruct (String.eqb_spec k0 k) as [->|Hk]; simpl.
    + destruct (String.eqb_spec k k'); [done|reflexivity].
    + destruct (String.eqb_spec k0 k'); [reflexivity|exact IH].
Qed.

Lemma dict_get_set k k' v d :
  dict_get k' (dict_set k v d) = if decide (k = k') then Some v else dict_get k' d.
Proof.
  case_decide as Hk; [subst; apply dict_get_set_eq | by apply dict_get_set_ne].
Qed.

(* ===================================================================== *)
(** ** What a trace shows                                                 *)
(* ===================================================================== *)

Lemma probe_no_exec t : forallb is_probe t = true → tool_invoked t = false.
Proof.
  unfold tool_invoked. induction t as [|e t IH]; [done|]. simpl.
  intros [He Ht]%andb_true_iff. rewrite (IH Ht). by destruct e.
Qed.

Lemma probe_no_write t : forallb is_probe t = true → file_written t = false.
Proof.
  unfold file_written. induction t as [|e t IH]; [done|]. simpl.
  intros [He Ht]%andb_true_iff. rewrite (IH Ht). by destruct e as [| | |? []|].
Qed.

Lemma probe_no_lookup t : forallb is_probe t = true → cache_looked_up t = false.
Proof.
  unfold cache_looked_up. induction t as [|e t IH]; [done|]. simpl.
  intros [He Ht]%andb_true_iff. rewrite (IH Ht). by destruct e.
Qed.

Lemma probe_no_text_read t : forallb is_probe t = true → text_read t = false.
Proof.
  unfold text_read. induction t as [|e t IH]; [done|]. simpl.
  intros [He Ht]%andb_true_iff. rewrite (IH Ht). by destruct e as [| | |? []|].
Qed.

(* ===================================================================== *)
(** ** The file system                                                    *)
(* ===================================================================== *)

Lemma fs_read_ext fs fs' p : fs' !! p = fs !! p → fs_read fs' p = fs_read fs p.
Proof. unfold fs_read. by intros ->. Qed.

Lemma fs_isfile_ext fs fs' p : fs' !! p = fs !! p → fs_isfile fs' p = fs_isfile fs p.
Proof. unfold fs_isfile. by intros ->. Qed.

Lemma fs_mkdir_Return fs p fs' :
  fs_mkdir fs p = Return fs' → fs !! p = None ∧ fs' = <[p := Directory true]> fs.
Proof.
  unfold fs_mkdir. destruct (fs !! p); [discriminate|].
  destruct (fs_may_create fs p); [|discriminate]. by intros [= <-].
Qed.

Lemma fs_write_Return fs p data fs' :
  fs_write fs p data = Return fs' →
  ∃ f, fs' = <[p := Regular f]> fs ∧ contents f = data ∧ writable f = true.
Proof.
  unfold fs_write. destruct (fs !! p) as [[|f]|].
  - discriminate.
  - destruct (writable f); [|discriminate]. intros [= <-]. by eexists.
  - destruct (fs_may_create fs p); [|discriminate]. intros [= <-]. by eexists.
Qed.

Section Locate.
Context `{Library}.

Lemma concat_hash_of_ext wf fs fs' :
  (∀ fn, fn ∈ tracked_files → fs' !! path_join wf fn = fs !! path_join wf fn) →
  concat_hash_of wf fs' = concat_hash_of wf fs ∧ hash_events wf fs' = hash_events wf fs.
Proof.
  intros Hfs. unfold concat_hash_of, hash_events.
  rewrite !(fs_read_ext fs fs'); [done| |]; apply Hfs; unfold tracked_files; set_solver.
Qed.

Lemma hash_events_probe wf fs : forallb is_probe (hash_events wf fs) = true.
Proof. unfold hash_events. by destruct (add_digest _ _). Qed.

(** The setup leaves the file system as it was or with the cache
    directory created under an existing Nextflow home. *)
Lemma setup_cache_basedir_spec sys fs :
  let x := setup_cache_basedir sys fs in
  forallb is_probe (trace x) = true
  ∧ (final_fs x = fs
     ∨ ∃ nxf, nxf_home_of sys = Some nxf ∧ fs_isdir fs nxf = true
         ∧ fs !! cache_basedir_of nxf = None
         ∧ final_fs x = <[cache_basedir_of nxf := Directory true]> fs)
  ∧ (dir_made (trace x) = true → ∃ nxf, nxf_home_of sys = Some nxf ∧ fs_isdir fs nxf = true)
  ∧ (∀ b, result x = Return (Some b) →
       ∃ nxf, nxf_home_of sys = Some nxf ∧ fs_isdir fs nxf = true ∧ b = cache_basedir_of nxf)
  ∧ (result x = Return None →
       ∃ nxf, nxf_home_of sys = Some nxf ∧ fs_isdir fs nxf = false ∧ final_fs x = fs
              ∧ trace x = [EvIsDir nxf]).
Proof.
  intros x. subst x. rewrite setup_cache_basedir_run. unfold result, final_fs, trace.
  destruct (nxf_home_of sys) as [nxf|]; [|by repeat split; auto].
  rewrite build_cache_basedir_run.
  destruct (fs_isdir fs nxf) eqn:Hnxf.
  - destruct (fs_isdir fs (cache_basedir_of nxf)) eqn:Hb.
    + simpl. split; [done|]. split; [by left|]. split; [by eauto|].
      split; [|discriminate]. intros b [= <-]. eauto.
    + destruct (fs_mkdir fs (cache_basedir_of nxf)) as [fs'|e] eqn:Hmk; simpl.
      * apply fs_mkdir_Return in Hmk as [Hnone ->].
        split; [done|]. split; [right; by exists nxf|]. split; [by eauto|].
        split; [|discriminate]. intros b [= <-]. eauto.
      * split; [done|]. split; [by left|]. split; [by eauto|].
        split; discriminate.
  - simpl. split; [done|]. split; [by left|]. split; [discriminate|].
    split; [discriminate|]. intros _. by exists nxf.
Qed.

End Locate.

Section LocateCache.
Context `{Library}.

Lemma basedir_added_lookup sys fs fs1 q :
  basedir_added sys fs fs1 → last_char q ≠ Some "e"%char → fs1 !! q = fs !! q.
Proof.
  intros [->|(nxf & _ & _ & _ & ->)] Hq; [done|].
  apply lookup_insert_ne. intros <-. by rewrite last_char_basedir in Hq.
Qed.

Lemma basedir_added_regular sys fs fs1 q f :
  basedir_added sys fs fs1 → fs1 !! q = Some (Regular f) ↔ fs !! q = Some (Regular f).
Proof.
  intros [->|(nxf & _ & _ & Hnone & ->)]; [done|].
  destruct (decide (cache_basedir_of nxf = q)) as [<-|Hne].
  - rewrite lookup_insert_eq, Hnone. split; discriminate.
  - by rewrite lookup_insert_ne.
Qed.

Lemma basedir_added_tracked sys fs fs1 wf fn :
  basedir_added sys fs fs1 → fn ∈ tracked_files →
  fs1 !! path_join wf fn = fs !! path_join wf fn.
Proof.
  intros Hb Hfn. apply (basedir_added_lookup sys); [done|].
  unfold tracked_files in Hfn.
  apply elem_of_cons in Hfn as [->|Hfn]; [by rewrite last_char_config|].
  apply list_elem_of_singleton in Hfn as ->. by rewrite last_char_main_nf.
Qed.

Lemma locate_cache_spec wf sys fs :
  let x := locate_cache wf sys fs in
  forallb is_probe (trace x) = true
  ∧ basedir_added sys fs (final_fs x)
  ∧ (dir_made (trace x) = true → ∃ nxf, nxf_home_of sys = Some nxf ∧ fs_isdir fs nxf = true)
  ∧ (∀ p, result x = Return (Some p) →
       ∃ nxf ch fn, nxf_home_of sys = Some nxf ∧ fs_isdir fs nxf = true
         ∧ concat_hash_of wf fs = Return ch ∧ cache_filename ch = Some fn
         ∧ p = path_join (cache_basedir_of nxf) fn)
  ∧ (result x = Return None →
       (∃ nxf, nxf_home_of sys = Some nxf ∧ fs_isdir fs nxf = false
          ∧ final_fs x = fs ∧ dir_made (trace x) = false)
       ∨ concat_hash_of wf fs = Return "").
Proof.
  intros x. subst x. rewrite locate_cache_run.
  pose proof (setup_cache_basedir_spec sys fs) as (Hprobe & Hfs & Hmk & Hsome & Hnone).
  destruct (setup_cache_basedir sys fs) as [[[b|e] fs1] t1];
    unfold result, final_fs, trace in *; simpl in *.
  2:{ repeat split; auto; discriminate. }
  assert (Hadd : basedir_added sys fs fs1) by exact Hfs.
  destruct (concat_hash_of_ext wf fs fs1) as [Hch Hev].
  { intros fn Hfn. by apply (basedir_added_tracked sys). }
  rewrite Hch, Hev. clear Hch Hev.
  assert (Hmk' : dir_made (t1 ++ hash_events wf fs) = true →
                 ∃ nxf, nxf_home_of sys = Some nxf ∧ fs_isdir fs nxf = true).
  { unfold dir_made in *. rewrite existsb_app. intros [Ht|Hh]%orb_true_iff; [auto|].
    exfalso. unfold hash_events in Hh. by destruct (add_digest _ _). }
  split; [rewrite forallb_app, Hprobe; apply hash_events_probe|].
  split; [done|]. split; [done|].
  destruct (concat_hash_of wf fs) as [ch|e]; simpl; [|split; intros; discriminate].
  split.
  - intros p Hp. destruct b as [b|]; [|discriminate].
    destruct (Hsome b eq_refl) as (nxf & Hn & Hd & ->).
    unfold cache_path_for in Hp. destruct (cache_filename ch) as [fn|] eqn:Hfn; [|discriminate].
    injection Hp as <-. eauto 10.
  - intros Hp. destruct b as [b|].
    + right. unfold cache_path_for in Hp.
      destruct (cache_filename ch) as [fn|] eqn:Hfn; [discriminate|].
      unfold cache_filename, bighash_of in Hfn. destruct ch; [done|discriminate].
    + left. destruct (Hnone eq_refl) as (nxf & Hn & Hd & -> & ->).
      exists nxf. repeat split; auto.
      unfold dir_made. rewrite existsb_app. simpl.
      unfold hash_events. by destruct (add_digest _ _).
Qed.

End LocateCache.

Section FetchShape.
Context `{Library}.

Lemma scraped_config_ext wf fs fs' config :
  fs' !! path_join wf "main.nf" = fs !! path_join wf "main.nf" →
  scraped_config fs' wf config = scraped_config fs wf config.
Proof. intros Hfs. unfold scraped_config. by rewrite (fs_read_ext fs fs'). Qed.

Lemma cached_config_ext fs fs' p :
  fs' !! p = fs !! p → cached_config fs' p = cached_config fs p.
Proof. intros Hfs. unfold cached_config. by rewrite (fs_read_ext fs fs'). Qed.

Lemma cache_path_for_last_char b ch p :
  cache_path_for b (cache_filename ch) = Some p → last_char p = Some "n"%char.
Proof.
  unfold cache_path_for. destruct b as [b|]; [|discriminate].
  destruct (cache_filename ch) as [fn|] eqn:Hfn; [|discriminate].
  intros [= <-]. by apply (last_char_cache_path _ _ ch).
Qed.

(** The run of [fetch_wf_config] after a setup that returned. *)
Lemma fetch_after_setup wf sys fs b fs1 t1 :
  setup_cache_basedir sys fs = (Return b, fs1, t1) →
  basedir_added sys fs fs1
  ∧ forallb is_probe (t1 ++ hash_events wf fs) = true
  ∧ fetch_wf_config wf sys fs =
    match concat_hash_of wf fs with
    | Raise e => (Raise e, fs1, t1 ++ hash_events wf fs)
    | Return ch =>
        let '(r, fs2, t2) :=
          lookup_and_resolve wf (cache_path_for b (cache_filename ch)) sys fs1 in
        (r, fs2, (t1 ++ hash_events wf fs) ++ t2)
    end.
Proof.
  intros Hsetup.
  pose proof (setup_cache_basedir_spec sys fs) as (Hprobe & Hadd & _).
  rewrite fetch_wf_config_run, locate_cache_run.
  rewrite Hsetup in *. unfold final_fs, trace in *. simpl in *.
  destruct (concat_hash_of_ext wf fs fs1) as [-> ->].
  { intros fn Hfn. by apply (basedir_added_tracked sys). }
  split; [done|].
  split; [rewrite forallb_app, Hprobe; apply hash_events_probe|].
  destruct (concat_hash_of wf fs) as [ch|e]; [|done].
  unfold lookup_and_resolve.
  destruct (cache_path_for b (cache_filename ch)) as [p|]; [|done].
  destruct (fs_isfile fs1 p); [done|].
  by destruct (resolve_fresh wf (Some p) sys fs1) as [[r fs2] t2].
Qed.

(** The run of [fetch_wf_config] when the setup raises. *)
Lemma fetch_setup_raises wf sys fs e fs1 t1 :
  setup_cache_basedir sys fs = (Raise e, fs1, t1) →
  fetch_wf_config wf sys fs = (Raise e, fs, t1) ∧ forallb is_probe t1 = true.
Proof.
  intros Hsetup.
  pose proof (setup_cache_basedir_spec sys fs) as (Hprobe & Hadd & _).
  rewrite fetch_wf_config_run, locate_cache_run.
  rewrite Hsetup in *. unfold final_fs, trace in *. simpl in *. split; [|done].
  destruct Hadd as [->|(nxf & Hn & Hd & Hnone & ->)]; [done|].
  exfalso. revert Hsetup. rewrite setup_cache_basedir_run, Hn, build_cache_basedir_run, Hd.
  destruct (fs_isdir fs (cache_basedir_of nxf)); [discriminate|].
  destruct (fs_mkdir fs (cache_basedir_of nxf)) eqn:Hmk; [discriminate|].
  intros [= _ Hfs _]. rewrite Hfs in Hnone. by rewrite lookup_insert_eq in Hnone.
Qed.

(** The events of the fresh resolution. *)
Lemma resolve_fresh_spec wf cp sys fs :
  let x := resolve_fresh wf cp sys fs in
  tool_invoked (trace x) = true
  ∧ cache_looked_up (trace x) = false
  ∧ dir_made (trace x) = false
  ∧ (cp = None → final_fs x = fs ∧ file_written (trace x) = false)
  ∧ (∀ e, tool_config sys wf [] = Raise e →
       result x = Raise e ∧ final_fs x = fs ∧ file_written (trace x) = false).
Proof.
  intros x. subst x. rewrite resolve_fresh_run. unfold result, final_fs, trace.
  destruct (tool_config sys wf []) as [c1|e]; simpl.
  2:{ do 3 (split; [done|]). split; [done|]. by intros e' [= ->]. }
  destruct (scraped_config fs wf c1) as [c2|e]; simpl.
  2:{ do 3 (split; [done|]). split; [done|]. discriminate. }
  destruct cp as [p|]; simpl.
  2:{ do 3 (split; [done|]). split; [done|]. discriminate. }
  destruct (fs_write fs p (json_dump c2)); simpl;
    (do 3 (split; [done|])); (split; discriminate).
Qed.

End FetchShape.

(* ===================================================================== *)
(** ** The claims                                                         *)
(* ===================================================================== *)

Section Claims.
Context `{Library}.

Lemma same_tracked_file_read fs1 p1 fs2 p2 :
  same_tracked_file fs1 p1 fs2 p2 →
  fs_read fs1 p1 = fs_read fs2 p2
  ∧ (fs_read fs1 p1 = Raise FileNotFoundError ∨ ∃ data, fs_read fs1 p1 = Return data).
Proof.
  unfold fs_read. intros [H1 H2|f1 f2 H1 H2 R1 R2 Hc]; rewrite H1, H2.
  - auto.
  - rewrite R1, R2, Hc. eauto.
Qed.

(** C4.  Two workflow directories whose tracked files nextflow.config and
    main.nf hold the same bytes (the same ones being present) get the same
    fingerprint and the same cache file name, and the fingerprint
    computation returns; the systems, the directories' paths, the other
    files and the write permissions may differ. *)
Theorem fingerprint_deterministic wf1 sys1 fs1 wf2 sys2 fs2 :
  same_tracked_file fs1 (path_join wf1 "nextflow.config") fs2 (path_join wf2 "nextflow.config") →
  same_tracked_file fs1 (path_join wf1 "main.nf") fs2 (path_join wf2 "main.nf") →
  fingerprint_of wf1 fs1 = fingerprint_of wf2 fs2
  ∧ result (compute_cache_fn wf1 sys1 fs1) = result (compute_cache_fn wf2 sys2 fs2)
  ∧ ∃ fn, result (compute_cache_fn wf1 sys1 fs1) = Return fn.
Proof.
  intros [Hc Hc']%same_tracked_file_read [Hm Hm']%same_tracked_file_read.
  rewrite !compute_cache_fn_run. unfold result, fingerprint_of, concat_hash_of. simpl.
  rewrite <- Hc, <- Hm.
  destruct Hc' as [->|[d1 ->]], Hm' as [->|[d2 ->]]; simpl; eauto.
Qed.

Lemma tool_invoked_app t1 t2 :
  tool_invoked (t1 ++ t2) = tool_invoked t1 || tool_invoked t2.
Proof. apply existsb_app. Qed.

Lemma file_written_app t1 t2 :
  file_written (t1 ++ t2) = file_written t1 || file_written t2.
Proof. apply existsb_app. Qed.

Lemma cache_looked_up_app t1 t2 :
  cache_looked_up (t1 ++ t2) = cache_looked_up t1 || cache_looked_up t2.
Proof. apply existsb_app. Qed.

Lemma dir_made_app t1 t2 : dir_made (t1 ++ t2) = dir_made t1 || dir_made t2.
Proof. apply existsb_app. Qed.

Lemma hash_events_no_mkdir wf fs : dir_made (hash_events wf fs) = false.
Proof. unfold hash_events. by destruct (add_digest _ _). Qed.

Ltac trace_app :=
  rewrite ?tool_invoked_app, ?file_written_app, ?cache_looked_up_app, ?dir_made_app.

(** C5.  When neither nextflow.config nor main.nf exists in the workflow
    directory, no fingerprint and no cache file name are derived, and
    [fetch_wf_config] tests for no cache file, opens no file for writing
    and leaves every regular file as it was; once the cache directory
    setup has returned it runs the fresh resolution without a cache
    path. *)
Theorem no_tracked_file_no_caching wf sys fs :
  fs !! path_join wf "nextflow.config" = None →
  fs !! path_join wf "main.nf" = None →
  fingerprint_of wf fs = Return None
  ∧ result (compute_cache_fn wf sys fs) = Return None
  ∧ cache_looked_up (trace (fetch_wf_config wf sys fs)) = false
  ∧ file_written (trace (fetch_wf_config wf sys fs)) = false
  ∧ (∀ q f, final_fs (fetch_wf_config wf sys fs) !! q = Some (Regular f)
            ↔ fs !! q = Some (Regular f))
  ∧ (∀ b, result (setup_cache_basedir sys fs) = Return b →
       tool_invoked (trace (fetch_wf_config wf sys fs)) = true
       ∧ result (fetch_wf_config wf sys fs)
         = result (resolve_fresh wf None sys (final_fs (setup_cache_basedir sys fs)))).
Proof.
  intros Hc Hm.
  assert (Hch : concat_hash_of wf fs = Return "").
  { unfold concat_hash_of, fs_read. by rewrite Hc, Hm. }
  split; [unfold fingerprint_of; by rewrite Hch|].
  split; [rewrite compute_cache_fn_run; unfold result; simpl; by rewrite Hch|].
  destruct (setup_cache_basedir sys fs) as [[[b|e] fs1] t1] eqn:Hsetup.
  - destruct (fetch_after_setup wf sys fs b fs1 t1 Hsetup) as (Hadd & Hprobe & ->).
    rewrite Hch. replace (cache_path_for b (cache_filename "")) with (@None string)
      by by destruct b.
    unfold lookup_and_resolve.
    change (final_fs (Return b, fs1, t1)) with fs1.
    pose proof (resolve_fresh_spec wf None sys fs1) as (Hexec & Hlook & _ & Hnone & _).
    destruct (Hnone eq_refl) as [Hfs Hw].
    destruct (resolve_fresh wf None sys fs1) as [[r fs2] t2].
    unfold result, final_fs, trace in *; simpl in *. subst fs2.
    set (t0 := t1 ++ hash_events wf fs) in *.
    trace_app. rewrite Hlook, Hw, Hexec, orb_true_r, !orb_false_r.
    split; [by apply probe_no_lookup|].
    split; [by apply probe_no_write|].
    split; [intros q f; by apply (basedir_added_regular sys)|done].
  - destruct (fetch_setup_raises wf sys fs e fs1 t1 Hsetup) as [-> Hprobe].
    unfold result, final_fs, trace; simpl.
    split; [by apply probe_no_lookup|].
    split; [by apply probe_no_write|].
    split; [done|]. intros; discriminate.
Qed.

Lemma dir_made_In p t : In (EvMkdir p) t → dir_made t = true.
Proof.
  intros Hin. apply existsb_exists. by exists (EvMkdir p).
Qed.

Lemma probe_not_In t e : forallb is_probe t = true → is_probe e = false → ¬ In e t.
Proof.
  intros Hp He Hin. apply (proj1 (forallb_forall _ _) Hp) in Hin. congruence.
Qed.

Lemma setup_mkdir_events sys fs p :
  In (EvMkdir p) (trace (setup_cache_basedir sys fs)) →
  ∃ nxf, nxf_home_of sys = Some nxf ∧ p = cache_basedir_of nxf ∧ fs_isdir fs nxf = true.
Proof.
  rewrite setup_cache_basedir_run.
  destruct (nxf_home_of sys) as [nxf|]; [|by intros []].
  rewrite build_cache_basedir_run.
  destruct (fs_isdir fs nxf) eqn:Hd; [|by intros [|[]]].
  destruct (fs_isdir fs (cache_basedir_of nxf)); [by intros [|[|[]]]|].
  destruct (fs_mkdir fs (cache_basedir_of nxf)); unfold trace; simpl;
    (intros [Hin|[Hin|[Hin|[]]]]; [done|done|]); injection Hin as <-; by exists nxf.
Qed.

Lemma lookup_and_resolve_no_mkdir wf cp sys fs :
  dir_made (trace (lookup_and_resolve wf cp sys fs)) = false.
Proof.
  unfold lookup_and_resolve.
  destruct cp as [p|].
  - pose proof (resolve_fresh_spec wf (Some p) sys fs) as (_ & _ & Hmk & _).
    destruct (fs_isfile fs p); [done|].
    by destruct (resolve_fresh wf (Some p) sys fs) as [[r fs2] t2].
  - by pose proof (resolve_fresh_spec wf None sys fs) as (_ & _ & Hmk & _).
Qed.

Lemma fetch_mkdir_events wf sys fs p :
  In (EvMkdir p) (trace (fetch_wf_config wf sys fs)) →
  ∃ nxf, nxf_home_of sys = Some nxf ∧ p = cache_basedir_of nxf ∧ fs_isdir fs nxf = true.
Proof.
  pose proof (setup_mkdir_events sys fs p) as Hsetup'.
  destruct (setup_cache_basedir sys fs) as [[[b|e] fs1] t1] eqn:Hsetup.
  - destruct (fetch_after_setup wf sys fs b fs1 t1 Hsetup) as (_ & _ & ->).
    assert (Hh : ¬ In (EvMkdir p) (hash_events wf fs)).
    { intros Hin%dir_made_In. by rewrite hash_events_no_mkdir in Hin. }
    unfold trace in Hsetup'; simpl in Hsetup'.
    destruct (concat_hash_of wf fs) as [ch|e].
    + pose proof (lookup_and_resolve_no_mkdir wf (cache_path_for b (cache_filename ch)) sys fs1)
        as Hmk.
      destruct (lookup_and_resolve _ _ _ _) as [[r fs2] t2]. unfold trace in *; simpl in *.
      rewrite !in_app_iff. intros [[Hin|Hin]|Hin]; [auto|done|].
      apply dir_made_In in Hin. congruence.
    + unfold trace; simpl. rewrite in_app_iff. intros [Hin|Hin]; [auto|done].
  - destruct (fetch_setup_raises wf sys fs e fs1 t1 Hsetup) as [-> _]. exact Hsetup'.
Qed.

(** C10.  With HOME set and the Nextflow home directory [nxf] (NXF_HOME,
    or ~/.nextflow) not an existing directory, [fetch_wf_config] leaves
    the file system as it was (the home directory is not created), makes
    no directory, tests for no cache file and opens no file for writing;
    whatever the fingerprint, it runs the fresh resolution without a cache
    path.  In every run a cache lookup, a write or a mkdir happens only
    under an existing home directory, and the only directory ever made is
    its nf-core subdirectory. *)
Theorem cache_needs_nxf_home wf sys fs nxf :
  nxf_home_of sys = Some nxf →
  (fs_isdir fs nxf = false →
     final_fs (fetch_wf_config wf sys fs) = fs
     ∧ dir_made (trace (fetch_wf_config wf sys fs)) = false
     ∧ cache_looked_up (trace (fetch_wf_config wf sys fs)) = false
     ∧ file_written (trace (fetch_wf_config wf sys fs)) = false
     ∧ ∀ ch, concat_hash_of wf fs = Return ch →
         tool_invoked (trace (fetch_wf_config wf sys fs)) = true
         ∧ result (fetch_wf_config wf sys fs) = result (resolve_fresh wf None sys fs))
  ∧ (cache_looked_up (trace (fetch_wf_config wf sys fs)) = true
     ∨ file_written (trace (fetch_wf_config wf sys fs)) = true
     ∨ dir_made (trace (fetch_wf_config wf sys fs)) = true →
     fs_isdir fs nxf = true)
  ∧ (∀ p, In (EvMkdir p) (trace (fetch_wf_config wf sys fs)) →
     p = cache_basedir_of nxf ∧ fs_isdir fs nxf = true).
Proof.
  intros Hnxf.
  assert (Hno : fs_isdir fs nxf = false →
     final_fs (fetch_wf_config wf sys fs) = fs
     ∧ dir_made (trace (fetch_wf_config wf sys fs)) = false
     ∧ cache_looked_up (trace (fetch_wf_config wf sys fs)) = false
     ∧ file_written (trace (fetch_wf_config wf sys fs)) = false
     ∧ ∀ ch, concat_hash_of wf fs = Return ch →
         tool_invoked (trace (fetch_wf_config wf sys fs)) = true
         ∧ result (fetch_wf_config wf sys fs) = result (resolve_fresh wf None sys fs)).
  { intros Hdir.
    assert (Hsetup : setup_cache_basedir sys fs = (Return None, fs, [EvIsDir nxf])).
    { by rewrite setup_cache_basedir_run, Hnxf, build_cache_basedir_run, Hdir. }
    destruct (fetch_after_setup wf sys fs _ _ _ Hsetup) as (_ & Hprobe & ->).
    set (t0 := [EvIsDir nxf] ++ hash_events wf fs) in *.
    assert (Ht0 : dir_made t0 = false).
    { unfold t0. by rewrite dir_made_app, hash_events_no_mkdir. }
    destruct (concat_hash_of wf fs) as [ch|e].
    - unfold cache_path_for, lookup_and_resolve.
      pose proof (resolve_fresh_spec wf None sys fs) as (Hexec & Hlook & Hmk & Hnone & _).
      destruct (Hnone eq_refl) as [Hfs Hw].
      destruct (resolve_fresh wf None sys fs) as [[r fs2] t2].
      unfold result, final_fs, trace in *; cbn [fst snd] in *. subst fs2.
      trace_app. rewrite Ht0, Hmk, Hlook, Hw, Hexec.
      rewrite (probe_no_lookup _ Hprobe), (probe_no_write _ Hprobe), orb_true_r.
      by repeat split.
    - unfold final_fs, trace, result; cbn [fst snd].
      rewrite Ht0, (probe_no_lookup _ Hprobe), (probe_no_write _ Hprobe).
      do 4 (split; [done|]). intros; discriminate. }
  split; [exact Hno|].
  split.
  - destruct (fs_isdir fs nxf) eqn:Hdir; [done|].
    destruct (Hno eq_refl) as (_ & -> & -> & -> & _). by intros [|[|]].
  - intros p (nxf' & Hn & -> & Hd)%fetch_mkdir_events.
    rewrite Hnxf in Hn. by injection Hn as <-.
Qed.

Lemma scan_lines_get k ls d :
  dict_get k (scan_lines ls d)
  = if bool_decide (k ∈ omap match_param ls) then Some "false" else dict_get k d.
Proof.
  revert d. induction ls as [|l ls IH]; intros d; [done|].
  unfold scan_lines in *. simpl. rewrite IH. unfold scan_line.
  destruct (match_param l) as [name|]; [|done].
  rewrite dict_get_set.
  destruct (decide (name = k)) as [->|Hne].
  - rewrite (bool_decide_eq_true_2 (k ∈ k :: _)); [|set_solver].
    by case_bool_decide.
  - destruct (decide (k ∈ omap match_param ls)) as [Hin|Hin].
    + rewrite !bool_decide_eq_true_2; [done|set_solver|done].
    + rewrite !bool_decide_eq_false_2; [done|set_solver|done].
Qed.

Lemma scraped_config_get fs wf config d k :
  scraped_config fs wf config = Return d →
  dict_get k d
  = if bool_decide (k ∈ scanned_names fs wf) then Some "false" else dict_get k config.
Proof.
  unfold scraped_config, scanned_names.
  destruct (fs_read fs (path_join wf "main.nf")) as [data|e].
  - destruct (decode_utf8 data) as [text|]; [|discriminate].
    intros [= <-]. apply scan_lines_get.
  - destruct e; try discriminate. by intros [= <-].
Qed.

(** A run that invokes the tool is a fresh resolution: the setup and the
    fingerprint computation returned and no cache file was found. *)
Lemma invoked_fresh wf sys fs :
  tool_invoked (trace (fetch_wf_config wf sys fs)) = true →
  ∃ b fs1 t0 ch cp,
    result (setup_cache_basedir sys fs) = Return b
    ∧ final_fs (setup_cache_basedir sys fs) = fs1
    ∧ basedir_added sys fs fs1
    ∧ forallb is_probe t0 = true
    ∧ concat_hash_of wf fs = Return ch
    ∧ cp = cache_path_for b (cache_filename ch)
    ∧ (∀ p, cp = Some p →
         fs_isfile fs p = false ∧ last_char p = Some "n"%char
         ∧ ∃ nxf fn, nxf_home_of sys = Some nxf ∧ fs_isdir fs nxf = true
             ∧ cache_filename ch = Some fn ∧ p = path_join (cache_basedir_of nxf) fn)
    ∧ fetch_wf_config wf sys fs =
      let '(r, fs2, t2) := resolve_fresh wf cp sys fs1 in
      (r, fs2, t0 ++ lookup_events cp ++ t2).
Proof.
  intros Hinv.
  pose proof (setup_cache_basedir_spec sys fs) as (_ & _ & _ & Hsome & _).
  destruct (setup_cache_basedir sys fs) as [[[b|e] fs1] t1] eqn:Hsetup.
  2:{ destruct (fetch_setup_raises wf sys fs e fs1 t1 Hsetup) as [Hf Hprobe].
      rewrite Hf in Hinv. unfold trace in Hinv; cbn [fst snd] in Hinv.
      by rewrite probe_no_exec in Hinv. }
  destruct (fetch_after_setup wf sys fs b fs1 t1 Hsetup) as (Hadd & Hprobe & Hf).
  rewrite Hf in *. clear Hf.
  set (t0 := t1 ++ hash_events wf fs) in *.
  destruct (concat_hash_of wf fs) as [ch|e].
  2:{ unfold trace in Hinv; cbn [fst snd] in Hinv. by rewrite probe_no_exec in Hinv. }
  exists b, fs1, t0, ch, (cache_path_for b (cache_filename ch)).
  unfold result, final_fs in *; cbn [fst snd] in *.
  do 6 (split; [done|]).
  unfold lookup_and_resolve in *.
  destruct (cache_path_for b (cache_filename ch)) as [p|] eqn:Hcp.
  - pose proof (cache_path_for_last_char _ _ _ Hcp) as Hlast.
    assert (Hp : fs1 !! p = fs !! p).
    { apply (basedir_added_lookup sys); [done|]. by rewrite Hlast. }
    destruct (fs_isfile fs1 p) eqn:Hfile.
    + exfalso. revert Hinv. unfold trace; cbn [fst snd].
      rewrite tool_invoked_app, (probe_no_exec _ Hprobe). done.
    + split.
      * intros ? [= <-]. rewrite <- (fs_isfile_ext fs fs1 p Hp).
        split; [done|]. split; [done|].
        unfold cache_path_for in Hcp. destruct b as [b|]; [|done].
        destruct (cache_filename ch) as [fn|]; [|done].
        destruct (Hsome b eq_refl) as (nxf & Hn & Hd & ->).
        injection Hcp as <-. by exists nxf, fn.
      * by destruct (resolve_fresh wf (Some p) sys fs1) as [[r fs2] t2].
  - split; [done|].
    by destruct (resolve_fresh wf None sys fs1) as [[r fs2] t2].
Qed.

(** C7 (as the code has it).  When the run invokes the tool, that is when
    no cache file answers the lookup, and the executable is not found
    (ENOENT), [fetch_wf_config] raises [AssertionError] with the message
    that Nextflow is required, opens no cache file for writing and leaves
    every regular file, so every cache entry, as it was. *)
Theorem tool_missing_raises wf sys fs :
  tool_invoked (trace (fetch_wf_config wf sys fs)) = true →
  run_process sys (nextflow_argv wf) = SpawnFailed ENOENT →
  result (fetch_wf_config wf sys fs) = Raise (AssertionError [AStr nextflow_missing_msg])
  ∧ file_written (trace (fetch_wf_config wf sys fs)) = false
  ∧ (∀ q f, final_fs (fetch_wf_config wf sys fs) !! q = Some (Regular f)
            ↔ fs !! q = Some (Regular f)).
Proof.
  intros Hinv Hrun.
  assert (Htool : tool_config sys wf [] = Raise (AssertionError [AStr nextflow_missing_msg])).
  { unfold tool_config. by rewrite Hrun. }
  destruct (invoked_fresh wf sys fs Hinv)
    as (b & fs1 & t0 & ch & cp & _ & _ & Hadd & Hprobe & _ & _ & _ & ->).
  pose proof (resolve_fresh_spec wf cp sys fs1) as (_ & _ & _ & _ & Hr).
  destruct (Hr _ Htool) as (Hres & Hfs & Hw).
  destruct (resolve_fresh wf cp sys fs1) as [[r fs2] t2].
  unfold result, final_fs, trace in *; cbn [fst snd] in *. subst r fs2.
  split; [done|]. split.
  - rewrite !file_written_app, (probe_no_write _ Hprobe), Hw. by destruct cp.
  - intros q f. by apply (basedir_added_regular sys).
Qed.

(** The run depends on the system through the Nextflow home and the
    outcome of the tool only. *)
Lemma fetch_wf_config_sys_ext wf sys sys' fs :
  environ sys' = environ sys →
  tool_config sys' wf [] = tool_config sys wf [] →
  fetch_wf_config wf sys' fs = fetch_wf_config wf sys fs.
Proof.
  intros Henv Htool.
  assert (Hsetup : ∀ fs0, setup_cache_basedir sys' fs0 = setup_cache_basedir sys fs0).
  { intros fs0. rewrite !setup_cache_basedir_run. unfold nxf_home_of. rewrite Henv.
    destruct (_ ≫= _) as [nxf|]; [|done]. by rewrite !build_cache_basedir_run. }
  assert (Hfresh : ∀ cp fs0, resolve_fresh wf cp sys' fs0 = resolve_fresh wf cp sys fs0).
  { intros cp fs0. by rewrite !resolve_fresh_run, Htool. }
  rewrite !fetch_wf_config_run, !locate_cache_run, Hsetup.
  destruct (setup_cache_basedir sys fs) as [[[b|e] fs1] t1]; [|done].
  destruct (concat_hash_of wf fs1) as [ch|e]; [|done].
  destruct (cache_path_for b (cache_filename ch)) as [p|]; by rewrite Hfresh.
Qed.

(** C9.  When the run invokes the tool and spawning it fails with an
    [OSError] other than ENOENT, the error is swallowed and no tool output
    is parsed: the run is the one of a tool that printed nothing.  If
    reading main.nf raises, that exception leaves [fetch_wf_config];
    otherwise the mapping [d] holds the names scanned from main.nf, each
    with the value "false", and nothing else.  When the Nextflow home and
    the fingerprint [h] give a cache path, that path held no file, it is
    opened for writing, and either [d] is returned and the file at that
    path holds the JSON text of [d], or writing it raised and that
    exception leaves [fetch_wf_config]; without a cache path [d] is
    returned and nothing is written.  No other file is written. *)
Theorem spawn_error_swallowed wf sys fs errno :
  tool_invoked (trace (fetch_wf_config wf sys fs)) = true →
  run_process sys (nextflow_argv wf) = SpawnFailed errno →
  errno ≠ ENOENT →
  fetch_wf_config wf sys fs
  = fetch_wf_config wf (mksystem (environ sys) (λ _, Completed "")) fs
  ∧ match scraped_config fs wf [] with
    | Raise e =>
        result (fetch_wf_config wf sys fs) = Raise e
        ∧ file_written (trace (fetch_wf_config wf sys fs)) = false
    | Return d =>
        (∀ k, dict_get k d
              = if bool_decide (k ∈ scanned_names fs wf) then Some "false" else None)
        ∧ ((result (fetch_wf_config wf sys fs) = Return (PyDict d)
            ∧ ∀ p, In (EvOpen p WriteText) (trace (fetch_wf_config wf sys fs)) →
                ∃ f, final_fs (fetch_wf_config wf sys fs) !! p = Some (Regular f)
                     ∧ contents f = json_dump d)
           ∨ (∃ p e, In (EvOpen p WriteText) (trace (fetch_wf_config wf sys fs))
                ∧ fs_write (final_fs (fetch_wf_config wf sys fs)) p (json_dump d) = Raise e
                ∧ result (fetch_wf_config wf sys fs) = Raise e))
        ∧ ∃ cp, result (locate_cache wf sys fs) = Return cp
            ∧ match cp with
              | Some p =>
                  (∃ nxf h, nxf_home_of sys = Some nxf ∧ fs_isdir fs nxf = true
                     ∧ fingerprint_of wf fs = Return (Some h)
                     ∧ p = path_join (cache_basedir_of nxf)
                             ("wf-config-cache-" +:+ String.substring 0 25 h +:+ ".json"))
                  ∧ fs_isfile fs p = false
                  ∧ (∀ q, In (EvOpen q WriteText) (trace (fetch_wf_config wf sys fs))
                          ↔ q = p)
                  ∧ ((result (fetch_wf_config wf sys fs) = Return (PyDict d)
                      ∧ ∃ f, final_fs (fetch_wf_config wf sys fs) !! p = Some (Regular f)
                             ∧ contents f = json_dump d)
                     ∨ ∃ e, fs_write (final_fs (locate_cache wf sys fs)) p (json_dump d)
                            = Raise e
                          ∧ result (fetch_wf_config wf sys fs) = Raise e)
              | None =>
                  result (fetch_wf_config wf sys fs) = Return (PyDict d)
                  ∧ final_fs (fetch_wf_config wf sys fs) = final_fs (locate_cache wf sys fs)
                  ∧ file_written (trace (fetch_wf_config wf sys fs)) = false
              end
    end.
Proof.
  intros Hinv Hrun Herrno.
  assert (Htool : tool_config sys wf [] = Return []).
  { unfold tool_config. rewrite Hrun. by destruct (Z.eqb_spec errno ENOENT). }
  split.
  { symmetry. apply fetch_wf_config_sys_ext; [done|]. by rewrite Htool. }
  destruct (invoked_fresh wf sys fs Hinv)
    as (b & fs1 & t0 & ch & cp & Hb & Hfs1 & Hadd & Hprobe & Hch & Hcpdef & Hcp & ->).
  clear Hinv.
  assert (Hloc : result (locate_cache wf sys fs) = Return cp
                 ∧ final_fs (locate_cache wf sys fs) = fs1).
  { rewrite locate_cache_run.
    destruct (setup_cache_basedir sys fs) as [[r fsx] tx].
    unfold result, final_fs in *; cbn [fst snd] in *. subst r fsx.
    rewrite (proj1 (concat_hash_of_ext wf fs fs1
                      (λ fn Hfn, basedir_added_tracked sys fs fs1 wf fn Hadd Hfn))), Hch.
    by subst cp. }
  destruct Hloc as [Hloc Hlocfs]. rewrite Hlocfs.
  rewrite resolve_fresh_run, Htool.
  rewrite (scraped_config_ext wf fs fs1).
  2:{ apply (basedir_added_lookup sys); [done|]. by rewrite last_char_main_nf. }
  pose proof (scraped_config_get fs wf []) as Hget.
  assert (Hnw : ∀ q t, In (EvOpen q WriteText)
                  (t0 ++ lookup_events cp
                      ++ EvExec (nextflow_argv wf)
                         :: EvOpen (path_join wf "main.nf") ReadText :: t) →
                In (EvOpen q WriteText) t).
  { intros q t. rewrite !in_app_iff. intros [Hq|[Hq|Hq]].
    - by apply (probe_not_In _ _ Hprobe) in Hq.
    - destruct cp; simpl in Hq; naive_solver.
    - simpl in Hq. naive_solver. }
  destruct (scraped_config fs wf []) as [d|e].
  2:{ unfold result, trace; cbn [fst snd]. split; [done|].
      rewrite !file_written_app, (probe_no_write _ Hprobe). by destruct cp. }
  split; [intros k; by apply Hget|].
  destruct cp as [p|].
  - destruct (Hcp p eq_refl) as (Hfile & _ & nxf & fn & Hn & Hd & Hfn & Hp).
    assert (Hfp : ∃ h, fingerprint_of wf fs = Return (Some h)
              ∧ p = path_join (cache_basedir_of nxf)
                      ("wf-config-cache-" +:+ String.substring 0 25 h +:+ ".json")).
    { unfold fingerprint_of. rewrite Hch. unfold cache_filename in Hfn.
      destruct (bighash_of ch) as [h|]; [|done]. injection Hfn as <-. by exists h. }
    destruct Hfp as (h & Hfp & Hph).
    assert (Hopen : In (EvOpen p WriteText)
                      (t0 ++ lookup_events (Some p)
                          ++ EvExec (nextflow_argv wf)
                             :: EvOpen (path_join wf "main.nf") ReadText
                             :: [EvOpen p WriteText])).
    { rewrite !in_app_iff. right. right. simpl. auto. }
    destruct (fs_write fs1 p (json_dump d)) as [fs2|e] eqn:Hw;
      unfold result, final_fs, trace; cbn [fst snd].
    + apply fs_write_Return in Hw as (f & -> & Hc & _).
      split.
      { left. split; [done|]. intros q Hq%Hnw.
        destruct Hq as [Hq|[]]. injection Hq as <-.
        exists f. by rewrite lookup_insert_eq. }
      exists (Some p). split; [done|].
      split; [by exists nxf, h|]. split; [done|]. split.
      { intros q. split.
        - intros Hq%Hnw. destruct Hq as [Hq|[]]. by injection Hq as <-.
        - by intros ->. }
      left. split; [done|]. exists f. by rewrite lookup_insert_eq.
    + split.
      { right. exists p, e. split; [exact Hopen|done]. }
      exists (Some p). split; [done|].
      split; [by exists nxf, h|]. split; [done|]. split.
      { intros q. split.
        - intros Hq%Hnw. destruct Hq as [Hq|[]]. by injection Hq as <-.
        - by intros ->. }
      right. by exists e.
  - unfold result, final_fs, trace; cbn [fst snd]. split.
    { left. split; [done|]. intros q Hq%Hnw. destruct Hq. }
    exists None. split; [done|]. split; [done|]. split; [done|].
    rewrite !file_written_app, (probe_no_write _ Hprobe). done.
Qed.

(** C1 (as the code has it).  In a run that invokes the tool, the tool
    succeeds with output [raw] and a mapping [d] is returned: the tool's
    output parses to a mapping [td], every name scanned from main.nf has
    the value "false" in [d] whether or not the tool produced it, and
    every other key has the value the tool gave it. *)
Theorem scanned_names_override wf sys fs raw d :
  tool_invoked (trace (fetch_wf_config wf sys fs)) = true →
  run_process sys (nextflow_argv wf) = Completed raw →
  result (fetch_wf_config wf sys fs) = Return (PyDict d) →
  ∃ td, parse_config_lines (splitlines raw) [] = Return td
    ∧ ∀ k, dict_get k d
           = if bool_decide (k ∈ scanned_names fs wf) then Some "false" else dict_get k td.
Proof.
  intros Hinv Hrun Hres.
  destruct (invoked_fresh wf sys fs Hinv)
    as (b & fs1 & t0 & ch & cp & _ & _ & Hadd & Hprobe & _ & _ & Hcp & Hf).
  rewrite Hf in Hres. clear Hf Hinv. rewrite resolve_fresh_run in Hres.
  assert (Htool : tool_config sys wf [] = parse_config_lines (splitlines raw) []).
  { unfold tool_config. by rewrite Hrun. }
  rewrite Htool in Hres.
  destruct (parse_config_lines (splitlines raw) []) as [td|e]; [|discriminate].
  exists td. split; [done|]. intros k.
  rewrite (scraped_config_ext wf fs fs1) in Hres.
  2:{ apply (basedir_added_lookup sys); [done|]. by rewrite last_char_main_nf. }
  pose proof (scraped_config_get fs wf td) as Hget.
  destruct (scraped_config fs wf td) as [d'|e]; [|discriminate].
  rewrite <- (Hget d' k eq_refl).
  destruct cp as [p|].
  - destruct (fs_write fs1 p (json_dump d')); [|discriminate].
    unfold result in Hres; cbn [fst snd] in Hres. by injection Hres as ->.
  - unfold result in Hres; cbn [fst snd] in Hres. by injection Hres as ->.
Qed.

Lemma parse_config_lines_valid ls config :
  Forall (λ l, valid_utf8 l = true) ls →
  parse_config_lines ls config
  = Return (fold_left (λ c kv, dict_set kv.1 kv.2 c) (key_value_lines ls) config).
Proof.
  intros Hvalid. revert config.
  induction Hvalid as [|l ls Hl _ IH]; intros config; [done|].
  simpl. unfold parse_config_line, decode_utf8, key_value_lines. rewrite Hl. simpl.
  destruct (split_once " = " l) as [[k v]|]; simpl; apply IH.
Qed.

Lemma fold_dict_set_get k kvs d :
  dict_get k (fold_left (λ c kv, dict_set kv.1 kv.2 c) kvs d)
  = match last_write k kvs with Some v => Some v | None => dict_get k d end.
Proof.
  revert d. induction kvs as [|[k' v] kvs IH]; intros d; [done|].
  simpl. rewrite IH. destruct (last_write k kvs); [done|].
  rewrite dict_get_set. destruct (String.eqb_spec k' k); by case_decide.
Qed.

(** C8 (as the code has it).  When the tool succeeds and every line of
    its output is valid UTF-8, parsing returns without touching the file
    system, and the value of a key is the one of the last line that holds
    " = " and has that key before its first " = "; lines without the
    separator add nothing, whatever their position. *)
Theorem tool_output_parsing wf sys fs raw config :
  run_process sys (nextflow_argv wf) = Completed raw →
  Forall (λ l, valid_utf8 l = true) (splitlines raw) →
  ∃ d, call_nextflow_config wf config sys fs = (Return d, fs, [EvExec (nextflow_argv wf)])
    ∧ (∀ k, dict_get k d
            = match last_write k (key_value_lines (splitlines raw)) with
              | Some v => Some v
              | None => dict_get k config
              end)
    ∧ (∀ ls1 l ls2, splitlines raw = ls1 ++ l :: ls2 → split_once " = " l = None →
         parse_config_lines (ls1 ++ ls2) config = Return d).
Proof.
  intros Hrun Hvalid.
  rewrite call_nextflow_config_run. unfold tool_config. rewrite Hrun.
  rewrite (parse_config_lines_valid _ _ Hvalid).
  eexists. split; [reflexivity|]. split; [intros k; apply fold_dict_set_get|].
  intros ls1 l ls2 Hsplit Hl. rewrite Hsplit in *.
  rewrite parse_config_lines_valid.
  - f_equal. f_equal. unfold key_value_lines. rewrite !omap_app. simpl. by rewrite Hl.
  - apply Forall_app in Hvalid as [H1 H2]. apply Forall_app. split; [done|].
    by apply Forall_cons in H2 as [_ H2].
Qed.

(** C2 (as the code has it).  With the cache path [p] derived: when [p]
    is not an existing regular file the lookup is a miss and the tool is
    invoked; when it is one, the tool is not invoked and the result is what
    reading the file gives, so an unreadable file raises
    [PermissionError], a file that is not UTF-8 [UnicodeDecodeError] and a
    file that is not JSON [JSONDecodeError]. *)
Theorem cache_lookup_miss_or_error wf sys fs p :
  result (locate_cache wf sys fs) = Return (Some p) →
  match fs !! p with
  | Some (Regular f) =>
      result (fetch_wf_config wf sys fs) = cached_config fs p
      ∧ tool_invoked (trace (fetch_wf_config wf sys fs)) = false
      ∧ (readable f = false → result (fetch_wf_config wf sys fs) = Raise PermissionError)
      ∧ (readable f = true → decode_utf8 (contents f) = None →
           result (fetch_wf_config wf sys fs) = Raise UnicodeDecodeError)
      ∧ (readable f = true → ∀ text, decode_utf8 (contents f) = Some text →
           json_load text = None →
           result (fetch_wf_config wf sys fs) = Raise JSONDecodeError)
  | _ =>
      cache_looked_up (trace (fetch_wf_config wf sys fs)) = true
      ∧ tool_invoked (trace (fetch_wf_config wf sys fs)) = true
  end.
Proof.
  intros Hloc. rewrite fetch_wf_config_run.
  pose proof (locate_cache_spec wf sys fs) as (Hprobe & Hadd & _ & Hsome & _).
  destruct (locate_cache wf sys fs) as [[r fs1] t1].
  unfold result, final_fs, trace in *; cbn [fst snd] in *. subst r.
  destruct (Hsome p eq_refl) as (nxf & ch & fn & Hn & Hd & Hch & Hfn & ->).
  set (p := path_join (cache_basedir_of nxf) fn) in *.
  assert (Hp : fs1 !! p = fs !! p).
  { apply (basedir_added_lookup sys); [done|].
    unfold p. by rewrite (last_char_cache_path _ _ ch). }
  rewrite (fs_isfile_ext fs fs1 _ Hp), (cached_config_ext fs fs1 _ Hp).
  assert (Hmiss : fs_isfile fs p = false →
    cache_looked_up (trace
      (if fs_isfile fs p
       then (cached_config fs p, fs1, t1 ++ [EvIsFile p; EvOpen p ReadText])
       else let '(r, fs2, t2) := resolve_fresh wf (Some p) sys fs1 in
            (r, fs2, t1 ++ EvIsFile p :: t2))) = true
    ∧ tool_invoked (trace
      (if fs_isfile fs p
       then (cached_config fs p, fs1, t1 ++ [EvIsFile p; EvOpen p ReadText])
       else let '(r, fs2, t2) := resolve_fresh wf (Some p) sys fs1 in
            (r, fs2, t1 ++ EvIsFile p :: t2))) = true).
  { intros ->.
    pose proof (resolve_fresh_spec wf (Some p) sys fs1) as (Hexec & _).
    destruct (resolve_fresh wf (Some p) sys fs1) as [[r fs2] t2].
    unfold trace in *; cbn [fst snd] in *.
    rewrite cache_looked_up_app, tool_invoked_app.
    change (EvIsFile p :: t2) with ([EvIsFile p] ++ t2).
    rewrite cache_looked_up_app, tool_invoked_app, Hexec.
    split; [|by rewrite !orb_true_r]. simpl. by rewrite orb_true_r. }
  unfold trace in Hmiss.
  destruct (fs !! p) as [[wr|f]|] eqn:Hnode.
  - apply Hmiss. unfold fs_isfile. by rewrite Hnode.
  - replace (fs_isfile fs p) with true by (unfold fs_isfile; by rewrite Hnode).
    cbn [fst snd]. split; [done|].
    split; [by rewrite tool_invoked_app, (probe_no_exec _ Hprobe)|].
    unfold cached_config, fs_read. rewrite Hnode.
    destruct (readable f).
    + split; [discriminate|]. split.
      * by intros _ ->.
      * by intros _ text -> ->.
    + split; [done|]. split; discriminate.
  - apply Hmiss. unfold fs_isfile. by rewrite Hnode.
Qed.

(** C3 (as the code has it).  A failure to create the cache directory or
    to write the cache file aborts the resolution: the error of the failed
    step leaves [fetch_wf_config], no mapping is returned and no file is
    changed. *)
Theorem persist_failure_raises wf sys fs e :
  persist_fails wf sys fs e →
  result (fetch_wf_config wf sys fs) = Raise e
  ∧ (∀ q f, final_fs (fetch_wf_config wf sys fs) !! q = Some (Regular f)
            ↔ fs !! q = Some (Regular f)).
Proof.
  intros [nxf e' Hn Hd Hb Hmk|p td d e' Hloc Hfile Htool Hscr Hw].
  - rewrite fetch_wf_config_run, locate_cache_run, setup_cache_basedir_run, Hn,
      build_cache_basedir_run, Hd, Hb, Hmk. done.
  - rewrite fetch_wf_config_run.
    pose proof (locate_cache_spec wf sys fs) as (Hprobe & Hadd & _ & Hsome & _).
    destruct (locate_cache wf sys fs) as [[r fs1] t1].
    unfold result, final_fs, trace in *; simpl in *. subst r.
    destruct (Hsome p eq_refl) as (nxf & ch & fn & Hn & Hd & Hch & Hfn & ->).
    assert (Hp : fs1 !! path_join (cache_basedir_of nxf) fn
                 = fs !! path_join (cache_basedir_of nxf) fn).
    { apply (basedir_added_lookup sys); [done|].
      by rewrite (last_char_cache_path _ _ ch). }
    rewrite (fs_isfile_ext fs fs1 _ Hp), Hfile, resolve_fresh_run, Htool.
    rewrite (scraped_config_ext wf fs fs1), Hscr, Hw; simpl.
    + split; [done|]. intros q f. by apply (basedir_added_regular sys).
    + apply (basedir_added_lookup sys); [done|]. by rewrite last_char_main_nf.
Qed.

(** What a fresh resolution that returns [d] leaves: the tracked files are
    untouched and, when a cache path was derived, the cache file holds the
    JSON text of [d]. *)
Lemma fresh_run_stores wf sys fs0 d :
  tool_invoked (trace (fetch_wf_config wf sys fs0)) = true →
  result (fetch_wf_config wf sys fs0) = Return (PyDict d) →
  ∃ b ch,
    result (setup_cache_basedir sys fs0) = Return b
    ∧ concat_hash_of wf fs0 = Return ch
    ∧ (∀ fn, fn ∈ tracked_files →
         final_fs (fetch_wf_config wf sys fs0) !! path_join wf fn = fs0 !! path_join wf fn)
    ∧ (∀ p, cache_path_for b (cache_filename ch) = Some p →
         ∃ f, final_fs (fetch_wf_config wf sys fs0) !! p = Some (Regular f)
              ∧ contents f = json_dump d)
    ∧ (b = None → final_fs (fetch_wf_config wf sys fs0) = fs0).
Proof.
  intros Hinv Hres.
  destruct (invoked_fresh wf sys fs0 Hinv)
    as (b & fs1 & t0 & ch & cp & Hb & Hfs1 & Hadd & Hprobe & Hch & -> & Hcp & Hf).
  pose proof (setup_cache_basedir_spec sys fs0) as (_ & _ & _ & _ & Hnone).
  rewrite Hf in *. clear Hf Hinv. rewrite resolve_fresh_run in *.
  exists b, ch. split; [done|]. split; [done|].
  destruct (tool_config sys wf []) as [td|e]; [|discriminate].
  destruct (scraped_config fs1 wf td) as [d'|e]; [|discriminate].
  destruct (cache_path_for b (cache_filename ch)) as [p|] eqn:Hp.
  - destruct (fs_write fs1 p (json_dump d')) as [fs2|e] eqn:Hw; [|discriminate].
    unfold result, final_fs in Hres |- *; cbn [fst snd] in Hres |- *.
    injection Hres as ->.
    apply fs_write_Return in Hw as (f & -> & Hc & _).
    split; [|split].
    + intros fn Hfn. rewrite lookup_insert_ne.
      * by apply (basedir_added_tracked sys).
      * intros ->. pose proof (cache_path_for_last_char _ _ _ Hp) as Hl.
        unfold tracked_files in Hfn.
        apply elem_of_cons in Hfn as [->|Hfn]; [by rewrite last_char_config in Hl|].
        apply list_elem_of_singleton in Hfn as ->. by rewrite last_char_main_nf in Hl.
    + intros ? [= <-]. exists f. by rewrite lookup_insert_eq.
    + intros ->. discriminate.
  - unfold result, final_fs in Hres |- *; cbn [fst snd] in Hres |- *.
    split; [intros fn Hfn; by apply (basedir_added_tracked sys)|].
    split; [intros; discriminate|].
    intros ->. destruct (Hnone Hb) as (nxf & _ & _ & Hfs & _). congruence.
Qed.

(** C6.  When the cache path [p] is derived (a fingerprint is present)
    and [p] is a readable regular file whose text decodes to [v],
    [fetch_wf_config] returns [v] without invoking the tool, without
    opening main.nf for the scan and without opening any file for writing,
    and it leaves every regular file as it was.  If the file system is
    the one a fresh resolution of the same directory left when it
    returned [d], and [json.load] reads back what [json.dump] wrote for
    [d], then [v] is [d]. *)
Theorem cache_hit_returns_stored wf sys fs p f text v :
  result (locate_cache wf sys fs) = Return (Some p) →
  fs !! p = Some (Regular f) →
  readable f = true →
  decode_utf8 (contents f) = Some text →
  json_load text = Some v →
  result (fetch_wf_config wf sys fs) = Return v
  ∧ tool_invoked (trace (fetch_wf_config wf sys fs)) = false
  ∧ file_written (trace (fetch_wf_config wf sys fs)) = false
  ∧ ¬ In (EvOpen (path_join wf "main.nf") ReadText) (trace (fetch_wf_config wf sys fs))
  ∧ (∀ q f', final_fs (fetch_wf_config wf sys fs) !! q = Some (Regular f')
             ↔ fs !! q = Some (Regular f'))
  ∧ (∀ fs0 d,
       final_fs (fetch_wf_config wf sys fs0) = fs →
       tool_invoked (trace (fetch_wf_config wf sys fs0)) = true →
       result (fetch_wf_config wf sys fs0) = Return (PyDict d) →
       json_load (json_dump d) = Some (PyDict d) →
       v = PyDict d).
Proof.
  intros Hloc Hfile Hread Hdec Hjson.
  pose proof (locate_cache_spec wf sys fs) as (Hprobe & Hadd & _ & Hsome & _).
  destruct (Hsome p Hloc) as (nxf & ch & fn & Hn & Hd & Hch & Hfn & ->).
  set (p := path_join (cache_basedir_of nxf) fn) in *.
  assert (Hlast : last_char p = Some "n"%char).
  { unfold p. by apply (last_char_cache_path _ _ ch). }
  assert (Hshape :
    fetch_wf_config wf sys fs
    = (Return v, final_fs (locate_cache wf sys fs),
       trace (locate_cache wf sys fs) ++ [EvIsFile p; EvOpen p ReadText])).
  { rewrite fetch_wf_config_run.
    destruct (locate_cache wf sys fs) as [[r fs1] t1].
    unfold result, final_fs, trace in *; cbn [fst snd] in *. subst r.
    assert (Hp : fs1 !! p = fs !! p).
    { apply (basedir_added_lookup sys); [done|]. by rewrite Hlast. }
    rewrite (fs_isfile_ext fs fs1 _ Hp), (cached_config_ext fs fs1 _ Hp).
    unfold fs_isfile, cached_config, fs_read. by rewrite Hfile, Hread, Hdec, Hjson. }
  rewrite Hshape. unfold result, final_fs, trace in *; cbn [fst snd] in *.
  split; [done|].
  split; [by rewrite tool_invoked_app, (probe_no_exec _ Hprobe)|].
  split; [by rewrite file_written_app, (probe_no_write _ Hprobe)|].
  split.
  { rewrite in_app_iff. intros [Hin|[Hin|[Hin|[]]]].
    - by apply (probe_not_In _ _ Hprobe) in Hin.
    - done.
    - injection Hin as Hin. rewrite Hin, last_char_main_nf in Hlast. done. }
  split; [intros q f'; by apply (basedir_added_regular sys)|].
  intros fs0 d Hfinal Hinv Hres Hround.
  destruct (fresh_run_stores wf sys fs0 d Hinv Hres)
    as (b0 & ch0 & Hsetup0 & Hch0 & Htracked & Hstored & Hskip).
  pose proof (setup_cache_basedir_spec sys fs0) as (_ & _ & _ & Hsome0 & Hnone0).
  unfold result, final_fs, trace in *. rewrite Hfinal in *.
  destruct (concat_hash_of_ext wf fs0 fs Htracked) as [Hch' _].
  rewrite Hch, Hch0 in Hch'. injection Hch' as ->.
  destruct b0 as [b0|].
  - destruct (Hsome0 b0 Hsetup0) as (nxf0 & Hn0 & _ & ->).
    rewrite Hn in Hn0. injection Hn0 as <-.
    destruct (Hstored p) as (f0 & Hf0 & Hc0).
    { unfold cache_path_for. by rewrite Hfn. }
    rewrite Hfile in Hf0. injection Hf0 as <-.
    unfold decode_utf8 in Hdec. destruct (valid_utf8 (contents f)); [|discriminate].
    injection Hdec as <-. rewrite Hc0, Hround in Hjson. by injection Hjson as <-.
  - exfalso. rewrite (Hskip eq_refl) in *.
    destruct (Hnone0 Hsetup0) as (nxf0 & Hn0 & Hd0 & _).
    rewrite Hn in Hn0. injection Hn0 as <-. congruence.
Qed.

End Claims.

(* ===================================================================== *)
(** ** Further properties of fetch_wf_config                              *)
(* ===================================================================== *)

Section Further.
Context `{Library}.

(** What the fresh resolution does to the file system: nothing, or the
    cache file is replaced. *)
Lemma resolve_fresh_final_fs wf cp sys fs :
  final_fs (resolve_fresh wf cp sys fs) = fs
  ∨ ∃ p f, cp = Some p ∧ file_written (trace (resolve_fresh wf cp sys fs)) = true
      ∧ final_fs (resolve_fresh wf cp sys fs) = <[p := Regular f]> fs.
Proof.
  rewrite resolve_fresh_run. unfold final_fs, trace.
  destruct (tool_config sys wf []) as [c1|e]; [|by left].
  destruct (scraped_config fs wf c1) as [c2|e]; [|by left].
  destruct cp as [p|]; [|by left].
  destruct (fs_write fs p (json_dump c2)) as [fs2|e] eqn:Hw; [|by left].
  apply fs_write_Return in Hw as (f & -> & _). right. by exists p, f.
Qed.

(** X1.  When the run invokes the tool and it exits with a non-zero
    status, [fetch_wf_config] raises [AssertionError] whose arguments are
    the unformatted message, the return code and the captured output.  The
    cache file is not written: the file system is as it was but for the
    cache directory, which the run may have created, and every regular
    file is left as it was. *)
Theorem tool_failure_raises wf sys fs rc out :
  tool_invoked (trace (fetch_wf_config wf sys fs)) = true →
  run_process sys (nextflow_argv wf) = NonZeroExit rc out →
  result (fetch_wf_config wf sys fs)
  = Raise (AssertionError [AStr nextflow_failed_msg; AInt rc; ABytes out])
  ∧ basedir_added sys fs (final_fs (fetch_wf_config wf sys fs))
  ∧ (∀ q f, final_fs (fetch_wf_config wf sys fs) !! q = Some (Regular f)
            ↔ fs !! q = Some (Regular f)).
Proof.
  intros Hinv Hrun.
  assert (Htool : tool_config sys wf []
                  = Raise (AssertionError [AStr nextflow_failed_msg; AInt rc; ABytes out])).
  { unfold tool_config. by rewrite Hrun. }
  destruct (invoked_fresh wf sys fs Hinv)
    as (b & fs1 & t0 & ch & cp & _ & _ & Hadd & Hprobe & _ & _ & _ & ->).
  pose proof (resolve_fresh_spec wf cp sys fs1) as (_ & _ & _ & _ & Hr).
  destruct (Hr _ Htool) as (Hres & Hfs & Hw).
  destruct (resolve_fresh wf cp sys fs1) as [[r fs2] t2].
  unfold result, final_fs, trace in *; cbn [fst snd] in *. subst r fs2.
  split; [done|]. split; [done|].
  intros q f. by apply (basedir_added_regular sys).
Qed.

(** X2.  With HOME unset [fetch_wf_config] raises [TypeError] at once,
    also when NXF_HOME is set: it makes no system call and leaves the file
    system as it was. *)
Theorem home_unset_raises wf sys fs :
  environ sys !! "HOME" = None →
  fetch_wf_config wf sys fs = (Raise TypeError, fs, []).
Proof.
  intros Hhome.
  rewrite fetch_wf_config_run, locate_cache_run, setup_cache_basedir_run.
  unfold nxf_home_of. by rewrite Hhome.
Qed.

(** The paths at which a run can leave the file system changed. *)
Lemma changed_paths wf sys fs q :
  final_fs (fetch_wf_config wf sys fs) !! q ≠ fs !! q →
  ∃ nxf, nxf_home_of sys = Some nxf ∧ fs_isdir fs nxf = true
    ∧ (q = cache_basedir_of nxf
       ∨ ∃ ch fn, concat_hash_of wf fs = Return ch ∧ cache_filename ch = Some fn
           ∧ q = path_join (cache_basedir_of nxf) fn
           ∧ file_written (trace (fetch_wf_config wf sys fs)) = true).
Proof.
  intros Hq.
  assert (Hbase : ∀ fs1, basedir_added sys fs fs1 → fs1 !! q ≠ fs !! q →
            ∃ nxf, nxf_home_of sys = Some nxf ∧ fs_isdir fs nxf = true
                   ∧ q = cache_basedir_of nxf).
  { intros fs1 [->|(nxf & Hn & Hd & Hnone & ->)] Hne; [done|].
    exists nxf. split; [done|]. split; [done|].
    destruct (decide (cache_basedir_of nxf = q)) as [|Hne']; [done|].
    by rewrite lookup_insert_ne in Hne. }
  pose proof (setup_cache_basedir_spec sys fs) as (_ & _ & _ & Hsome & _).
  destruct (setup_cache_basedir sys fs) as [[[b|e] fs1] t1] eqn:Hsetup.
  2:{ destruct (fetch_setup_raises wf sys fs e fs1 t1 Hsetup) as [Hf _].
      rewrite Hf in Hq. done. }
  destruct (fetch_after_setup wf sys fs b fs1 t1 Hsetup) as (Hadd & Hprobe & Hf).
  rewrite Hf in *. clear Hf.
  destruct (concat_hash_of wf fs) as [ch|e] eqn:Hch.
  2:{ destruct (Hbase fs1 Hadd Hq) as (nxf & ? & ? & ?). exists nxf. auto. }
  unfold lookup_and_resolve in *.
  destruct (cache_path_for b (cache_filename ch)) as [p|] eqn:Hcp.
  - destruct (fs_isfile fs1 p).
    { destruct (Hbase fs1 Hadd Hq) as (nxf & ? & ? & ?). exists nxf. auto. }
    pose proof (resolve_fresh_final_fs wf (Some p) sys fs1) as Hfin.
    destruct (resolve_fresh wf (Some p) sys fs1) as [[r fs2] t2].
    unfold result, final_fs, trace in *; cbn [fst snd] in *.
    destruct Hfin as [->|(p' & f & [= <-] & Hw & ->)].
    { destruct (Hbase fs1 Hadd Hq) as (nxf & ? & ? & ?). exists nxf. auto. }
    unfold cache_path_for in Hcp. destruct b as [b|]; [|done].
    destruct (cache_filename ch) as [fn|] eqn:Hfn; [|done]. injection Hcp as <-.
    destruct (Hsome b eq_refl) as (nxf & Hn & Hd & ->).
    exists nxf. split; [done|]. split; [done|].
    destruct (decide (path_join (cache_basedir_of nxf) fn = q)) as [<-|Hne].
    + right. exists ch, fn. do 3 (split; [done|]).
      change (EvIsFile (path_join (cache_basedir_of nxf) fn) :: t2)
        with ([EvIsFile (path_join (cache_basedir_of nxf) fn)] ++ t2).
      rewrite !file_written_app, Hw. by rewrite !orb_true_r.
    + left. rewrite lookup_insert_ne in Hq by done.
      destruct (Hbase fs1 Hadd Hq) as (nxf' & Hn' & _ & ->).
      rewrite Hn in Hn'. by injection Hn' as <-.
  - pose proof (resolve_fresh_final_fs wf None sys fs1) as Hfin.
    destruct (resolve_fresh wf None sys fs1) as [[r fs2] t2].
    unfold result, final_fs, trace in *; cbn [fst snd] in *.
    destruct Hfin as [->|(p' & f & [=] & _)].
    destruct (Hbase fs1 Hadd Hq) as (nxf & ? & ? & ?). exists nxf. auto.
Qed.

(** X3.  Whatever the outcome, [fetch_wf_config] changes the file system
    at most at two paths, both under an existing Nextflow home: the cache
    directory and the cache file named by the fingerprint, the latter only
    by opening it for writing.  Neither path is that of nextflow.config
    or main.nf in the workflow directory. *)
Theorem fetch_footprint wf sys fs q :
  final_fs (fetch_wf_config wf sys fs) !! q ≠ fs !! q →
  (∃ nxf, nxf_home_of sys = Some nxf ∧ fs_isdir fs nxf = true
     ∧ (q = cache_basedir_of nxf
        ∨ ∃ ch fn, concat_hash_of wf fs = Return ch ∧ cache_filename ch = Some fn
            ∧ q = path_join (cache_basedir_of nxf) fn
            ∧ file_written (trace (fetch_wf_config wf sys fs)) = true))
  ∧ ∀ fn, fn ∈ tracked_files → q ≠ path_join wf fn.
Proof.
  intros Hq. pose proof (changed_paths wf sys fs q Hq) as Hc.
  split; [exact Hc|].
  destruct Hc as (nxf & _ & _ & Hplace).
  assert (Hlast : last_char q = Some "e"%char ∨ last_char q = Some "n"%char).
  { destruct Hplace as [->|(ch & fn & _ & Hfn & -> & _)].
    - left. apply last_char_basedir.
    - right. by apply (last_char_cache_path _ _ ch). }
  intros fn Hfn ->. unfold tracked_files in Hfn.
  apply elem_of_cons in Hfn as [->|Hfn].
  - rewrite last_char_config in Hlast. by destruct Hlast.
  - apply list_elem_of_singleton in Hfn as ->.
    rewrite last_char_main_nf in Hlast. by destruct Hlast.
Qed.

(** The representation of a [dict] keeps its keys unique. *)
Lemma dict_set_keys k v d :
  dict_keys (dict_set k v d)
  = if bool_decide (k ∈ dict_keys d) then dict_keys d else dict_keys d ++ [k].
Proof.
  unfold dict_keys. induction d as [|[k' v'] d IH]; [done|]. simpl.
  destruct (String.eqb_spec k' k) as [->|Hne]; simpl.
  - rewrite bool_decide_eq_true_2 by set_solver. done.
  - rewrite IH. destruct (decide (k ∈ map fst d)) as [Hin|Hin].
    + rewrite !bool_decide_eq_true_2 by set_solver. done.
    + rewrite !bool_decide_eq_false_2 by set_solver. done.
Qed.

Lemma dict_set_NoDup k v d : NoDup (dict_keys d) → NoDup (dict_keys (dict_set k v d)).
Proof.
  intros Hd. rewrite dict_set_keys. case_bool_decide as Hin; [done|].
  apply NoDup_app. split; [done|]. split; [|apply NoDup_singleton].
  intros x Hx ->%list_elem_of_singleton. done.
Qed.

(** What a fresh resolution returns: the scan of main.nf applied to the
    parsed output of the tool. *)
Lemma fresh_result wf sys fs d :
  tool_invoked (trace (fetch_wf_config wf sys fs)) = true →
  result (fetch_wf_config wf sys fs) = Return (PyDict d) →
  ∃ td, tool_config sys wf [] = Return td ∧ scraped_config fs wf td = Return d.
Proof.
  intros Hinv Hres.
  destruct (invoked_fresh wf sys fs Hinv)
    as (b & fs1 & t0 & ch & cp & _ & _ & Hadd & Hprobe & _ & _ & Hcp & Hf).
  rewrite Hf in Hres. clear Hf Hinv. rewrite resolve_fresh_run in Hres.
  destruct (tool_config sys wf []) as [td|e]; [|discriminate].
  exists td. split; [done|].
  rewrite (scraped_config_ext wf fs fs1) in Hres.
  2:{ apply (basedir_added_lookup sys); [done|]. by rewrite last_char_main_nf. }
  destruct (scraped_config fs wf td) as [d'|e]; [|discriminate].
  destruct cp as [p|].
  - destruct (fs_write fs1 p (json_dump d')); [|discriminate].
    unfold result in Hres; cbn [fst snd] in Hres. by injection Hres as ->.
  - unfold result in Hres; cbn [fst snd] in Hres. by injection Hres as ->.
Qed.

Lemma span_ident_spec s i t :
  span_ident s = (i, t) →
  s = i +:+ t ∧ forallb is_ident_char (list_ascii_of_string i) = true.
Proof.
  revert i t. induction s as [|c s IH]; intros i t; simpl.
  - by intros [= <- <-].
  - destruct (is_ident_char c) eqn:Hc.
    + destruct (span_ident s) as [i' t']. intros [= <- <-].
      destruct (IH i' t' eq_refl) as [-> Hi]. simpl. by rewrite Hc.
    + by intros [= <- <-].
Qed.

(** A name the scan finds is [params.] followed by a non-empty
    identifier. *)
Lemma match_param_shape l name :
  match_param l = Some name →
  ∃ ident, name = "params." +:+ ident ∧ ident ≠ ""
    ∧ forallb is_ident_char (list_ascii_of_string ident) = true.
Proof.
  unfold match_param. destruct (startswith "params." (skip_space l)); [|discriminate].
  destruct (span_ident _) as [ident rest] eqn:Hspan.
  apply span_ident_spec in Hspan as [_ Hident].
  destruct (String.eqb_spec ident ""); [discriminate|].
  destruct (startswith "=" (skip_space rest)); [|discriminate].
  intros [= <-]. by exists ident.
Qed.

Lemma scanned_names_params fs wf k :
  k ∈ scanned_names fs wf → startswith "params." k = true.
Proof.
  unfold scanned_names.
  destruct (fs_read fs (path_join wf "main.nf")) as [data|e]; [|by intros ?%elem_of_nil].
  destruct (decode_utf8 data) as [text|]; [|by intros ?%elem_of_nil].
  intros (l & _ & Hl)%list_elem_of_omap.
  destruct (match_param_shape l k Hl) as (ident & -> & _). by destruct ident.
Qed.

Lemma parse_config_lines_get k ls config d :
  parse_config_lines ls config = Return d →
  dict_get k d
  = match last_write k (key_value_lines ls) with
    | Some v => Some v
    | None => dict_get k config
    end.
Proof.
  revert config. induction ls as [|l ls IH]; intros config; simpl.
  - by intros [= <-].
  - unfold parse_config_line, key_value_lines. simpl.
    destruct (decode_utf8 l) as [ul|] eqn:Hdec; [|discriminate].
    assert (ul = l) as ->.
    { unfold decode_utf8 in Hdec. destruct (valid_utf8 l); by simplify_eq. }
    destruct (split_once " = " l) as [[k0 v0]|]; simpl; intros Hd; rewrite (IH _ Hd).
    + fold (key_value_lines ls). destruct (last_write k (key_value_lines ls)); [done|].
      rewrite dict_get_set. destruct (String.eqb_spec k0 k); by case_decide.
    + done.
Qed.

(** X5.  The scan of main.nf only ever sets keys that start with
    [params.]: in the mapping a fresh resolution returns, every other key
    (manifest.name, for one) has the value of the last line of the tool's
    output that sets it, and is absent when no line does. *)
Theorem keys_outside_params_from_tool wf sys fs raw d k :
  tool_invoked (trace (fetch_wf_config wf sys fs)) = true →
  run_process sys (nextflow_argv wf) = Completed raw →
  result (fetch_wf_config wf sys fs) = Return (PyDict d) →
  startswith "params." k = false →
  dict_get k d = last_write k (key_value_lines (splitlines raw)).
Proof.
  intros Hinv Hrun Hres Hk.
  destruct (fresh_result wf sys fs d Hinv Hres) as (td & Htool & Hscr).
  rewrite (scraped_config_get fs wf td d k Hscr).
  rewrite bool_decide_eq_false_2.
  2:{ intros Hin%scanned_names_params. congruence. }
  unfold tool_config in Htool. rewrite Hrun in Htool.
  rewrite (parse_config_lines_get k _ _ _ Htool). by destruct (last_write _ _).
Qed.

Lemma substring_all s : String.substring 0 (String.length s) s = s.
Proof. induction s as [|c s IH]; [done|]. simpl. by rewrite IH. Qed.

Lemma split_once_unfold sep s :
  split_once sep s
  = if startswith sep s
    then Some ("", String.substring (String.length sep)
                     (String.length s - String.length sep) s)
    else match s with
         | EmptyString => None
         | String c r =>
             match split_once sep r with
             | Some (k, v) => Some (String c k, v)
             | None => None
             end
         end.
Proof. by destruct s. Qed.

Lemma startswith_cons a p b s :
  startswith (String a p) (String b s) = (Ascii.eqb a b && startswith p s)%bool.
Proof.
  unfold startswith.
  change (String.prefix (String a p) (String b s))
    with (if ascii_dec a b then String.prefix p s else false).
  destruct (ascii_dec a b) as [->|Hne].
  - by rewrite Ascii.eqb_refl.
  - by rewrite (proj2 (Ascii.eqb_neq a b) Hne).
Qed.

Lemma startswith_append p s : startswith p (p +:+ s) = true.
Proof.
  induction p as [|c p IH].
  - by destruct s.
  - change (String c p +:+ s) with (String c (p +:+ s)).
    by rewrite startswith_cons, Ascii.eqb_refl, IH.
Qed.

Lemma substring_after p s :
  String.substring (String.length p) (String.length (p +:+ s) - String.length p) (p +:+ s) = s.
Proof.
  induction p as [|c p IH].
  - change ("" +:+ s) with s. simpl. rewrite Nat.sub_0_r. apply substring_all.
  - change (String c p +:+ s) with (String c (p +:+ s)). simpl. exact IH.
Qed.

Lemma split_once_key_value k v :
  no_equals_sign k = true → split_once " = " (k +:+ " = " +:+ v) = Some (k, v).
Proof.
  unfold no_equals_sign. induction k as [|c k IH]; intros Hk.
  - change ("" +:+ " = " +:+ v) with (" = " +:+ v).
    rewrite split_once_unfold, startswith_append. by rewrite substring_after.
  - simpl in Hk. apply andb_true_iff in Hk as [Hc Hk].
    change (String c k +:+ " = " +:+ v) with (String c (k +:+ " = " +:+ v)).
    assert (Hpre : startswith " = " (String c (k +:+ " = " +:+ v)) = false).
    { rewrite startswith_cons. destruct (Ascii.eqb " " c); [|done]. simpl.
      destruct k as [|c' k].
      - change ("" +:+ " = " +:+ v) with (String " " (String "=" (String " " v))).
        by rewrite startswith_cons.
      - change (String c' k +:+ " = " +:+ v) with (String c' (k +:+ " = " +:+ v)).
        simpl in Hk. apply andb_true_iff in Hk as [Hc' _].
        rewrite startswith_cons, Ascii.eqb_sym.
        by destruct (Ascii.eqb c' "="). }
    rewrite split_once_unfold, Hpre. by rewrite (IH Hk).
Qed.

(** X6.  A line [key = value] of the tool's output whose key holds no "="
    sets that key to everything after the first " = ", so the value may
    itself hold the separator. *)
Theorem key_value_line_parsed config k v :
  no_equals_sign k = true →
  valid_utf8 (k +:+ " = " +:+ v) = true →
  parse_config_line config (k +:+ " = " +:+ v) = Return (dict_set k v config).
Proof.
  intros Hk Hvalid. unfold parse_config_line, decode_utf8.
  by rewrite Hvalid, (split_once_key_value k v Hk).
Qed.

Lemma same_tracked_concat_hash wf1 wf2 fs :
  same_tracked_file fs (path_join wf1 "nextflow.config") fs (path_join wf2 "nextflow.config") →
  same_tracked_file fs (path_join wf1 "main.nf") fs (path_join wf2 "main.nf") →
  concat_hash_of wf2 fs = concat_hash_of wf1 fs.
Proof.
  intros [Hc _]%same_tracked_file_read [Hm _]%same_tracked_file_read.
  unfold concat_hash_of. by rewrite Hc, Hm.
Qed.

(** X7.  The cache is shared by content.  After a fresh resolution of
    [wf1] that returned [d] and wrote the cache file, resolving a
    directory [wf2] whose tracked files hold the same bytes returns [d]
    without invoking the tool for [wf2], provided [json.dump] writes UTF-8
    that [json.load] reads back. *)
Theorem cache_shared_by_content wf1 wf2 sys fs d :
  tool_invoked (trace (fetch_wf_config wf1 sys fs)) = true →
  file_written (trace (fetch_wf_config wf1 sys fs)) = true →
  result (fetch_wf_config wf1 sys fs) = Return (PyDict d) →
  same_tracked_file fs (path_join wf1 "nextflow.config") fs (path_join wf2 "nextflow.config") →
  same_tracked_file fs (path_join wf1 "main.nf") fs (path_join wf2 "main.nf") →
  valid_utf8 (json_dump d) = true →
  json_load (json_dump d) = Some (PyDict d) →
  result (fetch_wf_config wf2 sys (final_fs (fetch_wf_config wf1 sys fs))) = Return (PyDict d)
  ∧ tool_invoked (trace (fetch_wf_config wf2 sys (final_fs (fetch_wf_config wf1 sys fs))))
    = false
  ∧ final_fs (fetch_wf_config wf2 sys (final_fs (fetch_wf_config wf1 sys fs)))
    = final_fs (fetch_wf_config wf1 sys fs).
Proof.
  intros Hinv Hwritten Hres Hsc Hsm Hvalid Hround.
  destruct (invoked_fresh wf1 sys fs Hinv)
    as (b & fs1 & t0 & ch & cp & Hb & Hfs1 & Hadd & Hprobe & Hch & -> & Hcp & Hf).
  rewrite Hf in *. clear Hf Hinv. rewrite resolve_fresh_run in *.
  destruct (tool_config sys wf1 []) as [td|e]; [|discriminate].
  destruct (scraped_config fs1 wf1 td) as [d'|e]; [|discriminate].
  destruct (cache_path_for b (cache_filename ch)) as [p|] eqn:Hp.
  2:{ exfalso. revert Hwritten. unfold trace; cbn [fst snd].
      rewrite !file_written_app, (probe_no_write _ Hprobe). done. }
  destruct (Hcp p eq_refl) as (Hmiss & Hlast & nxf & fn & Hn & Hd & Hfn & ->).
  set (p := path_join (cache_basedir_of nxf) fn) in *.
  assert (Hp1 : fs1 !! p = fs !! p).
  { apply (basedir_added_lookup sys); [done|]. by rewrite Hlast. }
  destruct (fs_write fs1 p (json_dump d')) as [fs2|e] eqn:Hw; [|discriminate].
  unfold result, final_fs, trace in Hres |- *; cbn [fst snd] in Hres |- *.
  injection Hres as ->.
  (* the cache file was created, readable *)
  assert (Hnew : fs1 !! p = None ∧ fs2 = <[p := Regular (mkfile (json_dump d) true true)]> fs1).
  { revert Hw. unfold fs_write. unfold fs_isfile in Hmiss. rewrite Hp1.
    destruct (fs !! p) as [[wr|f]|]; [discriminate|discriminate|].
    destruct (fs_may_create fs1 p); [|discriminate]. by intros [= <-]. }
  destruct Hnew as [Hnone ->].
  (* the Nextflow home and the cache directory are there *)
  assert (Hbase : fs_isdir fs1 nxf = true ∧ fs_isdir fs1 (cache_basedir_of nxf) = true).
  { revert Hb Hfs1. rewrite setup_cache_basedir_run, Hn, build_cache_basedir_run, Hd.
    unfold result, final_fs.
    destruct (fs_isdir fs (cache_basedir_of nxf)) eqn:Hbd; cbn [fst snd].
    - by intros _ <-.
    - destruct (fs_mkdir fs (cache_basedir_of nxf)) as [fs'|e] eqn:Hmk; cbn [fst snd];
        [|discriminate].
      apply fs_mkdir_Return in Hmk as [_ ->]. intros _ <-. unfold fs_isdir in *.
      rewrite lookup_insert_eq. split; [|done].
      destruct (decide (cache_basedir_of nxf = nxf)) as [->|Hne].
      + by rewrite lookup_insert_eq.
      + by rewrite lookup_insert_ne. }
  destruct Hbase as [Hd1 Hbd1].
  assert (Hd2 : fs_isdir (<[p := Regular (mkfile (json_dump d) true true)]> fs1) nxf = true).
  { unfold fs_isdir in *. rewrite lookup_insert_ne; [done|].
    intros Heq. rewrite <- Heq, Hnone in Hd1. done. }
  assert (Hbd2 : fs_isdir (<[p := Regular (mkfile (json_dump d) true true)]> fs1)
                   (cache_basedir_of nxf) = true).
  { unfold fs_isdir in *. rewrite lookup_insert_ne; [done|].
    intros Heq. rewrite <- Heq, Hnone in Hbd1. done. }
  (* the second directory has the same fingerprint *)
  assert (Hch2 : concat_hash_of wf2 (<[p := Regular (mkfile (json_dump d) true true)]> fs1)
                 = Return ch).
  { destruct (concat_hash_of_ext wf2 fs (<[p := Regular (mkfile (json_dump d) true true)]> fs1))
      as [-> _].
    - intros fn' Hfn'. rewrite lookup_insert_ne.
      + by apply (basedir_added_tracked sys).
      + intros Heq. rewrite Heq in Hlast. unfold tracked_files in Hfn'.
        apply elem_of_cons in Hfn' as [->|Hfn']; [by rewrite last_char_config in Hlast|].
        apply list_elem_of_singleton in Hfn' as ->. by rewrite last_char_main_nf in Hlast.
    - by rewrite (same_tracked_concat_hash wf1 wf2 fs Hsc Hsm). }
  rewrite fetch_wf_config_run, locate_cache_run, setup_cache_basedir_run, Hn,
    build_cache_basedir_run, Hd2, Hbd2, Hch2.
  unfold cache_path_for. rewrite Hfn. fold p.
  unfold fs_isfile, cached_config, fs_read, decode_utf8. rewrite lookup_insert_eq.
  cbn [readable contents]. rewrite Hvalid, Hround.
  cbn [fst snd]. split; [done|]. split; [|done].
  unfold hash_events. by destruct (add_digest _ _).
Qed.

End Further.
(* ===================================================================== *)
(** ** check_if_outdated                                                  *)
(* ===================================================================== *)

Lemma is_clean_cons c s :
  is_clean (String c s) = (is_version_char c && is_clean s)%bool.
Proof. done. Qed.

Lemma is_clean_app s t : is_clean (s +:+ t) = (is_clean s && is_clean t)%bool.
Proof.
  induction s as [|c s IH]; [done|].
  change (String c s +:+ t) with (String c (s +:+ t)).
  by rewrite !is_clean_cons, IH, andb_assoc.
Qed.

Lemma clean_version_is_clean s : is_clean (clean_version s) = true.
Proof.
  induction s as [|c s IH]; [done|]. simpl.
  destruct (is_version_char c) eqn:Hc; [|done].
  by rewrite is_clean_cons, Hc, IH.
Qed.

Lemma clean_version_fixed s : is_clean s = true → clean_version s = s.
Proof.
  induction s as [|c s IH]; [done|].
  rewrite is_clean_cons. intros [Hc Hs]%andb_prop.
  simpl. by rewrite Hc, IH.
Qed.

Lemma clean_version_empty s :
  clean_version s = "" ↔ forallb (λ c, negb (is_version_char c)) (list_ascii_of_string s) = true.
Proof.
  induction s as [|c s IH]; [done|]. simpl.
  destruct (is_version_char c); simpl; [split; discriminate|done].
Qed.

Lemma span_digits_spec s ds t :
  span_digits s = (ds, t) →
  s = ds +:+ t
  ∧ forallb is_ascii_digit (list_ascii_of_string ds) = true
  ∧ match t with String c _ => is_ascii_digit c = false | EmptyString => True end.
Proof.
  revert ds t. induction s as [|c s IH]; intros ds t; simpl.
  { by intros [= <- <-]. }
  destruct (is_ascii_digit c) eqn:Hc.
  - destruct (span_digits s) as [ds' t']. intros [= <- <-].
    destruct (IH _ _ eq_refl) as (-> & Hds & Ht).
    split; [done|]. split; [|done]. simpl. by rewrite Hc.
  - intros [= <- <-]. by rewrite Hc.
Qed.

Lemma digits1_spec s n t :
  digits1 s = Some (n, t) →
  ∃ ds, s = ds +:+ t ∧ forallb is_ascii_digit (list_ascii_of_string ds) = true.
Proof.
  unfold digits1. destruct (span_digits s) as [ds t'] eqn:Hs.
  destruct (String.eqb ds ""); [done|]. intros [= <- <-].
  apply span_digits_spec in Hs as (-> & Hds & _). by exists ds.
Qed.

Lemma digits_are_clean ds :
  forallb is_ascii_digit (list_ascii_of_string ds) = true → is_clean ds = true.
Proof.
  induction ds as [|c ds IH]; [done|]. simpl. intros [Hc Hds]%andb_prop.
  rewrite is_clean_cons. unfold is_version_char. by rewrite Hc, IH.
Qed.

Lemma digits_are_strict ds :
  forallb is_ascii_digit (list_ascii_of_string ds) = true → is_strict_text ds = true.
Proof.
  induction ds as [|c ds IH]; [done|]. simpl. intros [Hc Hds]%andb_prop.
  unfold is_strict_text in *. simpl. unfold is_strict_char at 1, is_version_char.
  by rewrite Hc, IH.
Qed.

Lemma is_strict_text_app s t :
  is_strict_text (s +:+ t) = (is_strict_text s && is_strict_text t)%bool.
Proof.
  unfold is_strict_text. induction s as [|c s IH]; [done|].
  change (String c s +:+ t) with (String c (s +:+ t)). simpl.
  by rewrite IH, andb_assoc.
Qed.

Lemma opt_patch_spec s p t :
  opt_patch s = (p, t) →
  ∃ pre, s = pre +:+ t ∧ is_clean pre = true.
Proof.
  unfold opt_patch. destruct s as [|c r]; [intros [= <- <-]; by exists ""|].
  destruct (Ascii.eqb_spec c "."); [|intros [= <- <-]; by exists ""].
  subst c. destruct (digits1 r) as [[n t']|] eqn:Hd; intros [= <- <-]; [|by exists ""].
  apply digits1_spec in Hd as (ds & -> & Hds).
  exists (String "." ds). split; [done|].
  rewrite is_clean_cons. by rewrite (digits_are_clean ds).
Qed.

Lemma opt_prerelease_spec s pre t :
  opt_prerelease s = (pre, t) →
  (pre = None ∧ t = s)
  ∨ (∃ c ds, s = String c (ds +:+ t) ∧ (c = "a"%char ∨ c = "b"%char)
       ∧ forallb is_ascii_digit (list_ascii_of_string ds) = true).
Proof.
  unfold opt_prerelease. destruct s as [|c r]; [intros [= <- <-]; by left|].
  destruct (Ascii.eqb c "a" || Ascii.eqb c "b")%bool eqn:Hc; [|intros [= <- <-]; by left].
  destruct (digits1 r) as [[n t']|] eqn:Hd; intros [= <- <-]; [|by left].
  apply digits1_spec in Hd as (ds & -> & Hds).
  right. exists c, ds. split; [done|]. split; [|done].
  apply orb_prop in Hc as [Hc|Hc]; apply Ascii.eqb_eq in Hc; auto.
Qed.

Lemma at_end_spec s : at_end s = true → s = "" ∨ s = String LF "".
Proof.
  unfold at_end. intros [H|H]%orb_prop; apply String.eqb_eq in H; auto.
Qed.

(** The shape of a string [StrictVersion.parse] accepts. *)
Lemma parse_strict_version_shape s v :
  parse_strict_version s = Some v →
  ∃ d1 d2 p q e,
    s = d1 +:+ "." +:+ d2 +:+ p +:+ q +:+ e
    ∧ forallb is_ascii_digit (list_ascii_of_string d1) = true
    ∧ forallb is_ascii_digit (list_ascii_of_string d2) = true
    ∧ is_clean p = true
    ∧ ((q = "" ∧ prerelease v = None)
       ∨ ∃ c ds, q = String c ds ∧ (c = "a"%char ∨ c = "b"%char)
           ∧ forallb is_ascii_digit (list_ascii_of_string ds) = true)
    ∧ (e = "" ∨ e = String LF "").
Proof.
  unfold parse_strict_version.
  destruct (digits1 s) as [[major [|c r1]]|] eqn:H1; [done| |done].
  destruct (Ascii.eqb_spec c "."); [subst c|done].
  destruct (digits1 r1) as [[minor r2]|] eqn:H2; [|done].
  destruct (opt_patch r2) as [patch r3] eqn:H3.
  destruct (opt_prerelease r3) as [pre r4] eqn:H4.
  destruct (at_end r4) eqn:H5; [|done]. intros [= <-].
  apply digits1_spec in H1 as (d1 & -> & Hd1).
  apply digits1_spec in H2 as (d2 & -> & Hd2).
  apply opt_patch_spec in H3 as (p & -> & Hp).
  apply at_end_spec in H5.
  apply opt_prerelease_spec in H4 as [[-> ->]|(c & ds & -> & Hc & Hds)].
  - exists d1, d2, p, "", r3. simpl. split; [done|]. do 3 (split; [done|]).
    split; [by left|done].
  - exists d1, d2, p, (String c ds), r4. split; [done|]. do 3 (split; [done|]).
    split; [right; by exists c, ds|done].
Qed.

Lemma version_char_not_ab c :
  is_version_char c = true → c ≠ "a"%char ∧ c ≠ "b"%char ∧ c ≠ LF.
Proof. intros Hc. split; [|split]; intros ->; discriminate. Qed.

(** No pre-release tag survives the cleaning. *)
Lemma clean_parse_no_prerelease s v :
  is_clean s = true → parse_strict_version s = Some v → prerelease v = None.
Proof.
  intros Hs (d1 & d2 & p & q & e & -> & _ & _ & _ & Hq & _)%parse_strict_version_shape.
  destruct Hq as [[_ ?]|(c & ds & -> & Hc & _)]; [done|].
  rewrite !is_clean_app in Hs.
  repeat (apply andb_prop in Hs as [? Hs] || apply andb_prop in Hs as [Hs ?]).
  exfalso.
  match goal with H : is_clean (String c ds) = true |- _ => rewrite is_clean_cons in H;
    apply andb_prop in H as [H _]; apply version_char_not_ab in H end.
  naive_solver.
Qed.

Lemma parse_strict_text s v :
  parse_strict_version s = Some v → is_strict_text s = true.
Proof.
  intros (d1 & d2 & p & q & e & -> & H1 & H2 & Hp & Hq & He)%parse_strict_version_shape.
  rewrite !is_strict_text_app, (digits_are_strict d1 H1), (digits_are_strict d2 H2).
  simpl.
  assert (is_strict_text p = true) as ->.
  { clear -Hp. induction p as [|c p IH]; [done|].
    rewrite is_clean_cons in Hp. apply andb_prop in Hp as [Hc Hp].
    unfold is_strict_text in *. simpl. unfold is_strict_char at 1. by rewrite Hc, IH. }
  assert (is_strict_text q = true) as ->.
  { destruct Hq as [[-> _]|(c & ds & -> & Hc & Hds)]; [done|].
    change (String c ds) with (String c "" +:+ ds).
    rewrite is_strict_text_app, (digits_are_strict ds Hds).
    by destruct Hc as [-> | ->]. }
  by destruct He as [-> | ->].
Qed.

Lemma string_of_uint_digits d :
  forallb is_ascii_digit (list_ascii_of_string (DecimalString.NilEmpty.string_of_uint d)) = true.
Proof. induction d; simpl; try done. Qed.

Lemma str_of_N_digits n :
  forallb is_ascii_digit (list_ascii_of_string (str_of_N n)) = true.
Proof.
  unfold str_of_N, DecimalString.NilZero.string_of_uint.
  destruct (N.to_uint n) eqn:E; try done; rewrite <- E; apply string_of_uint_digits.
Qed.

Lemma str_of_N_nonempty n : String.eqb (str_of_N n) "" = false.
Proof.
  unfold str_of_N, DecimalString.NilZero.string_of_uint.
  by destruct (N.to_uint n).
Qed.

(** [int(str(n)) == n] *)
Lemma int_of_digits_str n : int_of_digits (str_of_N n) = n.
Proof.
  unfold int_of_digits, str_of_N, DecimalString.NilZero.string_of_uint.
  destruct (N.to_uint n) eqn:E;
    [simpl; by rewrite <- (DecimalN.Unsigned.of_to n), E|..];
    rewrite <- E, DecimalString.NilEmpty.usu; apply DecimalN.Unsigned.of_to.
Qed.

Lemma span_digits_app ds t :
  forallb is_ascii_digit (list_ascii_of_string ds) = true →
  match t with String c _ => is_ascii_digit c = false | EmptyString => True end →
  span_digits (ds +:+ t) = (ds, t).
Proof.
  intros Hds Ht. induction ds as [|c ds IH]; simpl in *.
  - destruct t as [|c t]; [done|]. simpl. by rewrite Ht.
  - apply andb_prop in Hds as [Hc Hds]. by rewrite Hc, IH.
Qed.

Lemma append_empty_r (s : string) : s +:+ "" = s.
Proof.
  induction s as [|c s IH]; [done|].
  change (String c (s +:+ "") = String c s). by rewrite IH.
Qed.

Lemma digits1_str n t :
  match t with String c _ => is_ascii_digit c = false | EmptyString => True end →
  digits1 (str_of_N n +:+ t) = Some (n, t).
Proof.
  intros Ht. unfold digits1.
  rewrite (span_digits_app _ _ (str_of_N_digits n) Ht), str_of_N_nonempty.
  by rewrite int_of_digits_str.
Qed.

Lemma digits1_str_end n : digits1 (str_of_N n) = Some (n, "").
Proof. rewrite <- (append_empty_r (str_of_N n)) at 1. by apply digits1_str. Qed.

Lemma opt_patch_dot p : opt_patch (String "." (str_of_N p)) = (p, "").
Proof. unfold opt_patch. change (Ascii.eqb "." ".") with true. by rewrite digits1_str_end. Qed.

Lemma parse_dotted v :
  parse_strict_version (dotted v) = Some (mkversion v None).
Proof.
  destruct v as [[major minor] patch]. unfold dotted, parse_strict_version.
  rewrite digits1_str by done.
  change ("." +:+ str_of_N minor +:+ "." +:+ str_of_N patch)
    with (String "." (str_of_N minor +:+ String "." (str_of_N patch))).
  change (Ascii.eqb "." ".") with true. cbv iota.
  rewrite digits1_str by done. by rewrite opt_patch_dot.
Qed.

Lemma dotted_is_clean v : is_clean (dotted v) = true.
Proof.
  destruct v as [[major minor] patch]. unfold dotted.
  rewrite !is_clean_app, !(digits_are_clean _ (str_of_N_digits _)). done.
Qed.

Lemma dotted_nonempty v : String.eqb (dotted v) "" = false.
Proof.
  destruct v as [[major minor] patch]. unfold dotted.
  pose proof (str_of_N_nonempty major). by destruct (str_of_N major).
Qed.

Lemma construct_dotted v : construct_version (dotted v) = Parsed (mkversion v None).
Proof. unfold construct_version. by rewrite dotted_nonempty, parse_dotted. Qed.

Lemma env_truthy_spec env k :
  env_truthy env k = true ↔ ∃ v, env !! k = Some v ∧ v ≠ "".
Proof.
  unfold env_truthy. destruct (env !! k) as [v|].
  - destruct (String.eqb_spec v ""); simpl.
    + split; [done|]. intros (v' & [= <-] & Hv). done.
    + split; [|done]. intros _. by exists v.
  - split; [done|]. by intros (v & ? & _).
Qed.

(** X8.  [check_if_outdated] returns [True] exactly when the variable
    NFCORE_NO_VERSION_CHECK is set to a non-empty value (setting it to
    the empty string does not disable the check), and then it sends no
    request. *)
Theorem returns_true_iff_disabled env pkg_version http_get cur rem url :
  (fst (check_if_outdated env pkg_version http_get cur rem url) = ReturnsTrue
   ↔ ∃ v, env !! "NFCORE_NO_VERSION_CHECK" = Some v ∧ v ≠ "")
  ∧ (fst (check_if_outdated env pkg_version http_get cur rem url) = ReturnsTrue →
     snd (check_if_outdated env pkg_version http_get cur rem url) = []).
Proof.
  rewrite <- env_truthy_spec. unfold check_if_outdated.
  destruct (env_truthy env "NFCORE_NO_VERSION_CHECK"); [done|].
  split; [split; [|done]|]; intros Hc; exfalso; revert Hc;
    (destruct rem as [r|]; [|destruct (http_get _)]); simpl; try done;
    repeat match goal with
           | |- context [match construct_version ?x with _ => _ end] =>
               destruct (construct_version x)
           end; done.
Qed.

(** X9.  With the check enabled and no [remote_version] given, a tuple is
    returned only if the request to [<url>?v=<cleaned current version>]
    succeeded, where [<url>] is NFCORE_VERSION_URL when set and
    [source_url] otherwise; the two strings returned are the digits and
    dots of the current version and of the response text, both parse as
    version numbers without a pre-release tag, and the flag is the
    comparison of the numeric triples: no pre-release tag of either
    version takes part in the comparison. *)
Theorem fetched_versions_compared env pkg_version http_get cur url b c r :
  env_truthy env "NFCORE_NO_VERSION_CHECK" = false →
  fst (check_if_outdated env pkg_version http_get cur None url) = ReturnsTuple b c r →
  let request := default url (env !! "NFCORE_VERSION_URL") +:+ "?v=" +:+ c in
  c = clean_version (default pkg_version cur)
  ∧ snd (check_if_outdated env pkg_version http_get cur None url) = [request]
  ∧ (∃ text, http_get request = Some text ∧ r = clean_version text)
  ∧ ∃ vc vr, parse_strict_version c = Some (mkversion vc None)
      ∧ parse_strict_version r = Some (mkversion vr None)
      ∧ b = is_gt (triple_compare vr vc).
Proof.
  intros Henv. unfold check_if_outdated. rewrite Henv.
  set (c0 := clean_version (default pkg_version cur)).
  set (u := default url (env !! "NFCORE_VERSION_URL") +:+ "?v=" +:+ c0).
  destruct (http_get u) as [text|] eqn:Hget; simpl; [|done].
  unfold construct_version.
  destruct (String.eqb (clean_version text) "");
    [by destruct (String.eqb c0 ""); [|destruct (parse_strict_version c0)]|].
  destruct (parse_strict_version (clean_version text)) as [vr|] eqn:Hr; [|done].
  destruct (String.eqb c0 ""); [done|].
  destruct (parse_strict_version c0) as [vc|] eqn:Hc; [|done].
  intros [= <- <- <-]. fold u.
  split; [done|]. split; [done|]. split; [by exists text|].
  pose proof (clean_parse_no_prerelease _ _ (clean_version_is_clean _) Hr) as Hpr.
  pose proof (clean_parse_no_prerelease _ _ (clean_version_is_clean _) Hc) as Hpc.
  destruct vr as [tr pr], vc as [tc pc]. simpl in Hpr, Hpc. subst pr pc.
  exists tc, tr. split; [done|]. split; [done|].
  unfold strict_version_cmp. simpl. by destruct (triple_compare tr tc).
Qed.

(** X10.  With the check enabled, a current version [M.m.p] and a given
    remote version [M'.m'.p'], written in decimal, are compared as triples
    of numbers (so that 1.10.0 is newer than 1.9.0), both strings are
    returned as given and no request is sent. *)
Theorem dotted_versions_compared env pkg_version http_get url vc vr :
  env_truthy env "NFCORE_NO_VERSION_CHECK" = false →
  check_if_outdated env pkg_version http_get (Some (dotted vc)) (Some (dotted vr)) url
  = (ReturnsTuple (is_gt (triple_compare vr vc)) (dotted vc) (dotted vr), []).
Proof.
  intros Henv. unfold check_if_outdated. rewrite Henv. simpl.
  rewrite (clean_version_fixed _ (dotted_is_clean vc)), !construct_dotted.
  unfold strict_version_cmp. simpl. by destruct (triple_compare vr vc).
Qed.

(** X11.  With the check enabled and no [remote_version] given, a response
    whose text holds no digit and no dot (an error page, say) yields no
    tuple: the empty string left by the cleaning is not parsed, and the
    comparison raises [AttributeError], unless the current version is the
    one rejected with [ValueError]. *)
Theorem unrecognised_response_raises env pkg_version http_get cur url text :
  env_truthy env "NFCORE_NO_VERSION_CHECK" = false →
  http_get (default url (env !! "NFCORE_VERSION_URL") +:+ "?v="
            +:+ clean_version (default pkg_version cur)) = Some text →
  clean_version text = "" →
  fst (check_if_outdated env pkg_version http_get cur None url)
  = match construct_version (clean_version (default pkg_version cur)) with
    | Invalid => RaisesValueError (clean_version (default pkg_version cur))
    | _ => RaisesAttributeError
    end.
Proof.
  intros Henv Hget Htext. unfold check_if_outdated. rewrite Henv, Hget. simpl.
  rewrite Htext. simpl. by destruct (construct_version _).
Qed.

(** X12.  A given [remote_version] is not cleaned: with the check enabled,
    one that holds a character other than a digit, a dot, "a", "b" or a
    newline is rejected with [ValueError], and no request is sent. *)
Theorem given_remote_not_cleaned env pkg_version http_get cur url r :
  env_truthy env "NFCORE_NO_VERSION_CHECK" = false →
  is_strict_text r = false →
  check_if_outdated env pkg_version http_get cur (Some r) url
  = (RaisesValueError r, []).
Proof.
  intros Henv Hr. unfold check_if_outdated. rewrite Henv. simpl.
  unfold construct_version at 1.
  destruct (String.eqb_spec r ""); [by subst r|].
  destruct (parse_strict_version r) as [v|] eqn:Hp; [|done].
  apply parse_strict_text in Hp. congruence.
Qed.

(* ===================================================================== *)
(** ** Pipeline._load_pipeline_config                                     *)
(* ===================================================================== *)

Lemma list_ascii_of_string_app a b :
  list_ascii_of_string (a +:+ b) = list_ascii_of_string a ++ list_ascii_of_string b.
Proof.
  induction a as [|c a IH]; [done|].
  change (String c a +:+ b) with (String c (a +:+ b)). simpl. by rewrite IH.
Qed.

Lemma string_of_list_ascii_app l1 l2 :
  string_of_list_ascii (l1 ++ l2) = string_of_list_ascii l1 +:+ string_of_list_ascii l2.
Proof.
  induction l1 as [|c l1 IH]; [done|]. simpl. rewrite IH. done.
Qed.

Lemma string_rev_app a b : string_rev (a +:+ b) = string_rev b +:+ string_rev a.
Proof.
  unfold string_rev.
  by rewrite list_ascii_of_string_app, rev_app_distr, string_of_list_ascii_app.
Qed.

Lemma string_rev_involutive s : string_rev (string_rev s) = s.
Proof.
  unfold string_rev.
  by rewrite list_ascii_of_string_of_list_ascii, rev_involutive,
    string_of_list_ascii_of_string.
Qed.

Lemma all_quotes_rev q : all_quotes q = true → all_quotes (string_rev q) = true.
Proof.
  unfold all_quotes, string_rev. rewrite list_ascii_of_string_of_list_ascii.
  rewrite !forallb_forall. intros Hq c Hc. apply Hq. by apply in_rev.
Qed.

Lemma lstrip_all_quotes q s : all_quotes q = true → lstrip_quotes (q +:+ s) = lstrip_quotes s.
Proof.
  unfold all_quotes. induction q as [|c q IH]; [done|].
  cbn [list_ascii_of_string forallb]. intros [Hc Hq]%andb_prop.
  change (String c q +:+ s) with (String c (q +:+ s)).
  apply Ascii.eqb_eq in Hc as <-. cbn [lstrip_quotes].
  rewrite Ascii.eqb_refl. auto.
Qed.

Lemma lstrip_no_quote c s : c ≠ quote_char → lstrip_quotes (String c s) = String c s.
Proof. intros Hc. simpl. by destruct (Ascii.eqb_spec c quote_char). Qed.

Lemma last_char_snoc s c : last_char s = Some c → ∃ s', s = s' +:+ String c "".
Proof.
  induction s as [|a s IH]; [done|]. simpl.
  destruct s as [|b s].
  - intros [= ->]. by exists "".
  - intros Hl. destruct (IH Hl) as (s' & Hs'). exists (String a s').
    change (String a s' +:+ String c "") with (String a (s' +:+ String c "")).
    by rewrite <- Hs'.
Qed.

Lemma last_char_None s : last_char s = None → s = "".
Proof.
  induction s as [|a s IH]; [done|]. simpl.
  destruct s; [done|]. intros Hl. by specialize (IH Hl).
Qed.

(** [strip] takes the quotes off both ends and nothing else. *)
Lemma strip_quotes_spec q1 c body q2 :
  all_quotes q1 = true → all_quotes q2 = true →
  c ≠ quote_char → last_char (String c body) ≠ Some quote_char →
  strip_quotes (q1 +:+ String c body +:+ q2) = String c body.
Proof.
  intros H1 H2 Hc Hl. unfold strip_quotes.
  rewrite (lstrip_all_quotes _ _ H1).
  change (String c body +:+ q2) with (String c (body +:+ q2)).
  rewrite (lstrip_no_quote _ _ Hc).
  change (String c (body +:+ q2)) with (String c body +:+ q2).
  rewrite string_rev_app, (lstrip_all_quotes _ _ (all_quotes_rev _ H2)).
  destruct (last_char (String c body)) as [l|] eqn:El;
    [|by apply last_char_None in El].
  destruct (last_char_snoc _ _ El) as (s' & Hs').
  rewrite Hs', string_rev_app.
  change (string_rev (String l "")) with (String l "").
  change (String l "" +:+ string_rev s') with (String l (string_rev s')).
  rewrite lstrip_no_quote by congruence.
  change (String l (string_rev s')) with (string_rev (String l "") +:+ string_rev s').
  by rewrite <- string_rev_app, string_rev_involutive.
Qed.

Lemma remove_from_skip old pre s :
  remove_from old (String.length pre) (pre +:+ s) = remove_from old 0 s.
Proof.
  induction pre as [|c pre IH]; [done|].
  change (String c pre +:+ s) with (String c (pre +:+ s)). simpl. apply IH.
Qed.

(** An occurrence at the front is dropped, and the search goes on behind
    it. *)
Lemma remove_all_prefix old s :
  old ≠ "" → remove_all old (old +:+ s) = remove_all old s.
Proof.
  intros Hold. unfold remove_all. destruct old as [|c old'] eqn:E; [done|].
  change (String c old' +:+ s) with (String c (old' +:+ s)).
  cbn [remove_from].
  change (String c (old' +:+ s)) with (String c old' +:+ s).
  rewrite startswith_append. cbn [String.length].
  rewrite Nat.sub_1_r. cbn [Nat.pred]. apply remove_from_skip.
Qed.

Lemma remove_all_absent old s : occurs old s = false → remove_all old s = s.
Proof.
  unfold remove_all. induction s as [|c s IH]; [done|].
  cbn [occurs remove_from]. intros [Hp Hs]%orb_false_elim.
  by rewrite Hp, (IH Hs).
Qed.

Lemma span_version_spec s v t :
  span_version s = (v, t) →
  s = v +:+ t ∧ is_clean v = true
  ∧ match t with String c _ => is_version_char c = false | EmptyString => True end.
Proof.
  revert v t. induction s as [|c s IH]; intros v t; simpl.
  { by intros [= <- <-]. }
  destruct (is_version_char c) eqn:Hc.
  - destruct (span_version s) as [v' t']. intros [= <- <-].
    destruct (IH _ _ eq_refl) as (-> & Hv & Ht).
    split; [done|]. split; [|done]. by rewrite is_clean_cons, Hc.
  - intros [= <- <-]. by rewrite Hc.
Qed.

Lemma search_version_spec s :
  match search_version s with
  | None => clean_version s = ""
  | Some m =>
      ∃ pre c run post,
        s = pre +:+ String c run +:+ post
        ∧ clean_version pre = ""
        ∧ is_clean (String c run) = true
        ∧ match post with String a _ => is_version_char a = false | EmptyString => True end
        ∧ m = String c run +:+ (if startswith "-edge" post then "-edge" else "")
  end.
Proof.
  induction s as [|c s IH]; [done|].
  cbn [search_version clean_version].
  destruct (is_version_char c) eqn:Hc.
  - destruct (span_version (String c s)) as [v t] eqn:Hs.
    pose proof (span_version_spec _ _ _ Hs) as (Heq & Hv & Ht).
    simpl in Hs. rewrite Hc in Hs. destruct (span_version s) as [v' t'].
    injection Hs as <- <-.
    exists "", c, v', t'. by rewrite Heq.
  - destruct (search_version s) as [m|]; [|done].
    destruct IH as (pre & a & run & post & -> & Hpre & Hrun & Hpost & ->).
    exists (String c pre), a, run, post. split; [done|].
    split; [|done]. simpl. by rewrite Hc.
Qed.

(** X13.  When the value of [manifest.name] is the text [nf-core/NAME]
    wrapped in any number of single quotes, where [NAME] does not end
    with a quote and does not contain [nf-core/], the pipeline name is
    [NAME]. *)
Theorem pipeline_name_of_quoted nf_config q1 name q2 :
  dict_get "manifest.name" nf_config = Some (q1 +:+ "nf-core/" +:+ name +:+ q2) →
  all_quotes q1 = true → all_quotes q2 = true →
  last_char name ≠ Some quote_char →
  occurs "nf-core/" name = false →
  pipeline_name_of nf_config = name.
Proof.
  intros Hget H1 H2 Hl Hocc. unfold pipeline_name_of. rewrite Hget. simpl default.
  change ("nf-core/" +:+ name +:+ q2) with (String "n" ("f-core/" +:+ name) +:+ q2).
  rewrite strip_quotes_spec; [|done|done|done|].
  - change (String "n" ("f-core/" +:+ name)) with ("nf-core/" +:+ name).
    rewrite remove_all_prefix by done. by apply remove_all_absent.
  - change (String "n" ("f-core/" +:+ name)) with ("nf-core/" +:+ name).
    destruct name as [|c name']; [done|].
    rewrite last_char_app by done. done.
Qed.

(** X14.  [minNextflowVersion] is left as it was exactly when
    [manifest.nextflowVersion] is missing or holds no digit and no dot.
    Otherwise it becomes the first run of digits and dots of the value,
    with the suffix [-edge] when the value goes on with it: whatever comes
    before the run (an operator such as [>=], a quote) and after it is
    dropped. *)
Theorem min_nextflow_version_shape nf_config :
  match min_nextflow_version_of nf_config with
  | None => clean_version (default "" (dict_get "manifest.nextflowVersion" nf_config)) = ""
  | Some m =>
      ∃ pre c run post,
        dict_get "manifest.nextflowVersion" nf_config
        = Some (pre +:+ String c run +:+ post)
        ∧ clean_version pre = ""
        ∧ is_clean (String c run) = true
        ∧ match post with String a _ => is_version_char a = false | EmptyString => True end
        ∧ m = String c run +:+ (if startswith "-edge" post then "-edge" else "")
  end.
Proof.
  unfold min_nextflow_version_of.
  pose proof (search_version_spec
                (default "" (dict_get "manifest.nextflowVersion" nf_config))) as Hs.
  destruct (search_version _) as [m|]; [|done].
  destruct Hs as (pre & c & run & post & Heq & Hrest).
  exists pre, c, run, post. split; [|done].
  destruct (dict_get _ nf_config) as [v|]; simpl in Heq; [by rewrite Heq|].
  by destruct pre.
Qed.

Section Loaded.
Context `{Library}.

(** X15.  [_load_pipeline_config] after a run of [fetch_wf_config] that
    invokes the tool: the pipeline name and the minimum Nextflow version
    are read off the last line of the tool's output that sets
    [manifest.name], respectively [manifest.nextflowVersion]; neither the
    earlier lines nor main.nf have a say. *)
Theorem pipeline_attributes_from_tool wf sys fs raw d :
  tool_invoked (trace (fetch_wf_config wf sys fs)) = true →
  run_process sys (nextflow_argv wf) = Completed raw →
  result (fetch_wf_config wf sys fs) = Return (PyDict d) →
  pipeline_name_of d
  = remove_all "nf-core/"
      (strip_quotes
         (default "" (last_write "manifest.name" (key_value_lines (splitlines raw)))))
  ∧ min_nextflow_version_of d
    = search_version
        (default "" (last_write "manifest.nextflowVersion"
                       (key_value_lines (splitlines raw)))).
Proof.
  intros Hinv Hrun Hres.
  destruct (fresh_result wf sys fs d Hinv Hres) as (td & Htool & Hscr).
  unfold tool_config in Htool. rewrite Hrun in Htool.
  assert (Hget : ∀ k, startswith "params." k = false →
            dict_get k d = last_write k (key_value_lines (splitlines raw))).
  { intros k Hk. rewrite (scraped_config_get fs wf td d k Hscr).
    rewrite bool_decide_eq_false_2.
    2:{ intros Hin%scanned_names_params. congruence. }
    rewrite (parse_config_lines_get k _ _ _ Htool). by destruct (last_write _ _). }
  unfold pipeline_name_of, min_nextflow_version_of.
  by rewrite !Hget.
Qed.

End Loaded.

(* ===================================================================== *)
(** ** wait_cli_function                                                  *)
(* ===================================================================== *)

(** X16.  What [wait_cli_function] does, for every [poll_every]: it
    returns when [poll_func] first gives a true value, having slept two
    seconds after each false one; an exception raised by [poll_func]
    leaves it unchanged, except that ctrl+c, during a call or a sleep,
    leaves it as [AssertionError("Cancelled!")]; and as long as
    [poll_func] gives false values it keeps waiting. *)
Theorem wait_cli_function_spec script poll_every :
  let sleeps := snd (wait_cli_function script poll_every) in
  match fst (wait_cli_function script poll_every) with
  | WaitReturns =>
      ∃ n rest, script = repeat (Falsy false) n ++ Truthy :: rest
                ∧ sleeps = repeat 2%Z n
  | WaitRaises e =>
      ∃ n rest,
        (script = repeat (Falsy false) n ++ Raised e :: rest ∧ sleeps = repeat 2%Z n)
        ∨ (e = cancelled
           ∧ script = repeat (Falsy false) n ++ Interrupted :: rest
           ∧ sleeps = repeat 2%Z n)
        ∨ (e = cancelled
           ∧ script = repeat (Falsy false) n ++ Falsy true :: rest
           ∧ sleeps = repeat 2%Z (S n))
  | StillWaiting =>
      script = repeat (Falsy false) (length script)
      ∧ sleeps = repeat 2%Z (length script)
  end.
Proof.
  induction script as [|p script IH]; [done|].
  destruct p as [|[]| |e]; cbn [wait_cli_function].
  - by exists 0, script.
  - exists 0, script. right. by right.
  - destruct (wait_cli_function script poll_every) as [r sleeps] eqn:E.
    cbn [fst snd] in *. destruct r as [|e|].
    + destruct IH as (n & rest & -> & ->). by exists (S n), rest.
    + destruct IH as (n & rest & [[-> ->]|[(-> & -> & ->)|(-> & -> & ->)]]);
        exists (S n), rest; [by left|right; by left|right; by right].
    + destruct IH as [Hs ->]. cbn [length repeat]. by rewrite <- Hs.
  - exists 0, script. right. by left.
  - exists 0, script. by left.
Qed.

Section Unreadable.
Context `{Library}.

(** X17.  Only a missing tracked file is skipped by the fingerprint.  When
    reading nextflow.config or main.nf fails in any other way (no read
    permission, a directory in its place), that exception leaves
    [fetch_wf_config] once the cache directory is set up: the tool is not
    invoked, no cache file is looked up and nothing is written. *)
Theorem unreadable_tracked_file_raises wf sys fs b e :
  result (setup_cache_basedir sys fs) = Return b →
  concat_hash_of wf fs = Raise e →
  result (fetch_wf_config wf sys fs) = Raise e
  ∧ e ≠ FileNotFoundError
  ∧ (∃ fn, fn ∈ tracked_files ∧ fs_read fs (path_join wf fn) = Raise e)
  ∧ tool_invoked (trace (fetch_wf_config wf sys fs)) = false
  ∧ cache_looked_up (trace (fetch_wf_config wf sys fs)) = false
  ∧ file_written (trace (fetch_wf_config wf sys fs)) = false.
Proof.
  intros Hsetup Hch.
  destruct (setup_cache_basedir sys fs) as [[r fs1] t1] eqn:Hs.
  unfold result in Hsetup; cbn [fst snd] in Hsetup. subst r.
  destruct (fetch_after_setup wf sys fs b fs1 t1 Hs) as (_ & Hprobe & ->).
  rewrite Hch. unfold result, trace; cbn [fst snd].
  split; [done|].
  rewrite (probe_no_exec _ Hprobe), (probe_no_lookup _ Hprobe), (probe_no_write _ Hprobe).
  assert (Hone : ∀ acc p, add_digest acc (fs_read fs p) = Raise e →
            e ≠ FileNotFoundError ∧ fs_read fs p = Raise e).
  { intros acc p. unfold add_digest. destruct (fs_read fs p) as [data|e0]; [done|].
    destruct e0; intros [= <-]; done. }
  unfold concat_hash_of in Hch.
  destruct (add_digest "" (fs_read fs (path_join wf "nextflow.config"))) as [a1|e1] eqn:H1.
  - apply Hone in Hch as [Hne Hr]. split; [done|]. split; [|done].
    exists "main.nf". split; [|done]. unfold tracked_files. set_solver.
  - injection Hch as ->. apply Hone in H1 as [Hne Hr]. split; [done|]. split; [|done].
    exists "nextflow.config". split; [|done]. unfold tracked_files. set_solver.
Qed.

End Unreadable.


(* ===================================================================== *)
(** ** The properties on concrete systems                                 *)
(* ===================================================================== *)

#[local] Existing Instance python_library.

Example sha256_empty :
  SHA256.hexdigest "" = "e3b0c44298fc1c149afbf4c8996fb92427ae41e4649b934ca495991b7852b855".
Proof. vm_compute. reflexivity. Qed.

Example sha256_abc :
  SHA256.hexdigest "abc" = "ba7816bf8f01cfea414140de5dae2223b00361a396177a9cb410ff61f20015ad".
Proof. vm_compute. reflexivity. Qed.

Example json_round_trip : JSON.load (JSON.dump demo_mapping) = Some (PyDict demo_mapping).
Proof. vm_compute. reflexivity. Qed.

Example json_not_a_dict : JSON.load "[1, 2.5e3, null]" = Some PyOther.
Proof. vm_compute. reflexivity. Qed.

Example demo_cache_path_derived :
  result (locate_cache "/wf" demo_sys demo_fs) = Return (Some demo_cache_path).
Proof. vm_compute. reflexivity. Qed.

(** C1, counterexample.  The tool gives params.a the value "1", main.nf
    declares params.a and params.b, and the returned mapping has params.a
    at "false": the tool's value is not kept. *)
Lemma tool_value_overwritten :
  tool_invoked (trace (fetch_wf_config "/wf" demo_sys demo_fs)) = true
  ∧ run_process demo_sys (nextflow_argv "/wf") = Completed demo_output
  ∧ parse_config_lines (splitlines demo_output) []
    = Return [("params.a", "1"); ("manifest.name", "'x'")]
  ∧ scanned_names demo_fs "/wf" = ["params.a"; "params.b"]
  ∧ result (fetch_wf_config "/wf" demo_sys demo_fs) = Return (PyDict demo_mapping)
  ∧ dict_get "params.a" demo_mapping = Some "false".
Proof. repeat (split; [vm_compute; reflexivity|]). vm_compute; reflexivity. Qed.

(** C1 on the same system. *)
Lemma scanned_names_override_witness :
  tool_invoked (trace (fetch_wf_config "/wf" demo_sys demo_fs)) = true
  ∧ run_process demo_sys (nextflow_argv "/wf") = Completed demo_output
  ∧ result (fetch_wf_config "/wf" demo_sys demo_fs) = Return (PyDict demo_mapping)
  ∧ ∃ td, parse_config_lines (splitlines demo_output) [] = Return td
      ∧ ∀ k, dict_get k demo_mapping
             = if bool_decide (k ∈ scanned_names demo_fs "/wf")
               then Some "false" else dict_get k td.
Proof.
  repeat (split; [vm_compute; reflexivity|]).
  apply (@scanned_names_override python_library "/wf" demo_sys demo_fs demo_output demo_mapping);
    vm_compute; reflexivity.
Defined.

(** C4 on /wf and a read-only copy of it beside another file, under two
    different systems. *)
Lemma fingerprint_deterministic_witness :
  same_tracked_file demo_fs (path_join "/wf" "nextflow.config")
                    copy_fs (path_join "/srv/copy" "nextflow.config")
  ∧ same_tracked_file demo_fs (path_join "/wf" "main.nf")
                      copy_fs (path_join "/srv/copy" "main.nf")
  ∧ fingerprint_of "/wf" demo_fs = fingerprint_of "/srv/copy" copy_fs
  ∧ result (compute_cache_fn "/wf" demo_sys demo_fs)
    = result (compute_cache_fn "/srv/copy" no_tool_sys copy_fs)
  ∧ ∃ fn, result (compute_cache_fn "/wf" demo_sys demo_fs) = Return fn.
Proof.
  assert (H1 : same_tracked_file demo_fs (path_join "/wf" "nextflow.config")
                 copy_fs (path_join "/srv/copy" "nextflow.config")).
  { eapply both_present; vm_compute; reflexivity. }
  assert (H2 : same_tracked_file demo_fs (path_join "/wf" "main.nf")
                 copy_fs (path_join "/srv/copy" "main.nf")).
  { eapply both_present; vm_compute; reflexivity. }
  split; [exact H1|]. split; [exact H2|].
  exact (@fingerprint_deterministic python_library
           "/wf" demo_sys demo_fs "/srv/copy" no_tool_sys copy_fs H1 H2).
Defined.

(** C5 on a directory without tracked files. *)
Lemma no_tracked_file_no_caching_witness :
  bare_fs !! path_join "/bare" "nextflow.config" = None
  ∧ bare_fs !! path_join "/bare" "main.nf" = None
  ∧ fingerprint_of "/bare" bare_fs = Return None
  ∧ cache_looked_up (trace (fetch_wf_config "/bare" bare_sys bare_fs)) = false
  ∧ file_written (trace (fetch_wf_config "/bare" bare_sys bare_fs)) = false.
Proof.
  assert (H1 : bare_fs !! path_join "/bare" "nextflow.config" = None)
    by (vm_compute; reflexivity).
  assert (H2 : bare_fs !! path_join "/bare" "main.nf" = None) by (vm_compute; reflexivity).
  split; [exact H1|]. split; [exact H2|].
  destruct (@no_tracked_file_no_caching python_library "/bare" bare_sys bare_fs H1 H2)
    as (Hfp & _ & Hlook & Hw & _).
  exact (conj Hfp (conj Hlook Hw)).
Defined.

(** C10 with NXF_HOME naming a directory that does not exist. *)
Lemma cache_needs_nxf_home_witness :
  nxf_home_of nxf_sys = Some "/opt/nxf"
  ∧ fs_isdir demo_fs "/opt/nxf" = false
  ∧ final_fs (fetch_wf_config "/wf" nxf_sys demo_fs) = demo_fs
  ∧ dir_made (trace (fetch_wf_config "/wf" nxf_sys demo_fs)) = false
  ∧ cache_looked_up (trace (fetch_wf_config "/wf" nxf_sys demo_fs)) = false
  ∧ file_written (trace (fetch_wf_config "/wf" nxf_sys demo_fs)) = false.
Proof.
  assert (H1 : nxf_home_of nxf_sys = Some "/opt/nxf") by (vm_compute; reflexivity).
  assert (H2 : fs_isdir demo_fs "/opt/nxf" = false) by (vm_compute; reflexivity).
  split; [exact H1|]. split; [exact H2|].
  destruct (@cache_needs_nxf_home python_library "/wf" nxf_sys demo_fs "/opt/nxf" H1)
    as (Hno & _).
  destruct (Hno H2) as (Hfs & Hmk & Hlook & Hw & _).
  exact (conj Hfs (conj Hmk (conj Hlook Hw))).
Defined.

(** C7, counterexample.  Nextflow is not installed, and the cache file of
    /wf exists: [fetch_wf_config] returns the stored mapping and never
    looks for the tool, so nothing is raised. *)
Lemma missing_tool_served_from_cache :
  run_process no_tool_sys (nextflow_argv "/wf") = SpawnFailed ENOENT
  ∧ fs_isfile (cached_fs true (Some (mkfile (json_dump demo_mapping) true true)))
      demo_cache_path = true
  ∧ result (fetch_wf_config "/wf" no_tool_sys
              (cached_fs true (Some (mkfile (json_dump demo_mapping) true true))))
    = Return (PyDict demo_mapping)
  ∧ tool_invoked
      (trace (fetch_wf_config "/wf" no_tool_sys
                (cached_fs true (Some (mkfile (json_dump demo_mapping) true true))))) = false.
Proof. repeat (split; [vm_compute; reflexivity|]). vm_compute; reflexivity. Qed.

(** C7 on a system without nextflow and without a cache file. *)
Lemma tool_missing_raises_witness :
  tool_invoked (trace (fetch_wf_config "/wf" no_tool_sys demo_fs)) = true
  ∧ run_process no_tool_sys (nextflow_argv "/wf") = SpawnFailed ENOENT
  ∧ result (fetch_wf_config "/wf" no_tool_sys demo_fs)
    = Raise (AssertionError [AStr nextflow_missing_msg])
  ∧ file_written (trace (fetch_wf_config "/wf" no_tool_sys demo_fs)) = false
  ∧ (∀ q f, final_fs (fetch_wf_config "/wf" no_tool_sys demo_fs) !! q = Some (Regular f)
            ↔ demo_fs !! q = Some (Regular f)).
Proof.
  repeat (split; [vm_compute; reflexivity|]).
  apply (@tool_missing_raises python_library "/wf" no_tool_sys demo_fs);
    vm_compute; reflexivity.
Defined.

(** C9 when spawning fails with EACCES (13): the names of main.nf come
    back with the value "false", and the cache file named by the
    fingerprint of /wf holds their JSON text. *)
Lemma spawn_error_swallowed_witness :
  tool_invoked (trace (fetch_wf_config "/wf" eacces_sys demo_fs)) = true
  ∧ run_process eacces_sys (nextflow_argv "/wf") = SpawnFailed 13
  ∧ 13%Z ≠ ENOENT
  ∧ fetch_wf_config "/wf" eacces_sys demo_fs
    = fetch_wf_config "/wf" (mksystem (environ eacces_sys) (λ _, Completed "")) demo_fs
  ∧ result (fetch_wf_config "/wf" eacces_sys demo_fs)
    = Return (PyDict [("params.a", "false"); ("params.b", "false")])
  ∧ result (locate_cache "/wf" eacces_sys demo_fs) = Return (Some demo_cache_path)
  ∧ demo_fs !! demo_cache_path = None
  ∧ ∃ f, final_fs (fetch_wf_config "/wf" eacces_sys demo_fs) !! demo_cache_path
         = Some (Regular f)
       ∧ contents f = json_dump [("params.a", "false"); ("params.b", "false")].
Proof.
  assert (H1 : tool_invoked (trace (fetch_wf_config "/wf" eacces_sys demo_fs)) = true)
    by (vm_compute; reflexivity).
  assert (H2 : run_process eacces_sys (nextflow_argv "/wf") = SpawnFailed 13) by reflexivity.
  assert (H3 : 13%Z ≠ ENOENT) by discriminate.
  assert (Hs : scraped_config demo_fs "/wf" []
               = Return [("params.a", "false"); ("params.b", "false")])
    by (vm_compute; reflexivity).
  assert (Hl : result (locate_cache "/wf" eacces_sys demo_fs) = Return (Some demo_cache_path))
    by (vm_compute; reflexivity).
  split; [exact H1|]. split; [exact H2|]. split; [exact H3|].
  destruct (@spawn_error_swallowed python_library "/wf" eacces_sys demo_fs 13 H1 H2 H3)
    as [Heq Hrest].
  split; [exact Heq|]. split; [vm_compute; reflexivity|]. split; [exact Hl|].
  split; [vm_compute; reflexivity|].
  rewrite Hs in Hrest. destruct Hrest as (_ & _ & cp & Hcp & Hm).
  rewrite Hl in Hcp. injection Hcp as <-.
  destruct Hm as (_ & _ & _ & [[_ Hf]|(e & Hw & _)]); [exact Hf|].
  vm_compute in Hw. discriminate Hw.
Defined.

(** C8, counterexample.  The tool succeeds and prints the single byte
    0xff: the line holds no separator, and [fetch_wf_config] raises
    [UnicodeDecodeError] instead of skipping it. *)
Lemma undecodable_line_raises :
  run_process bad_sys (nextflow_argv "/wf") = Completed bad_line
  ∧ splitlines bad_line = [bad_line]
  ∧ split_once " = " bad_line = None
  ∧ tool_invoked (trace (fetch_wf_config "/wf" bad_sys demo_fs)) = true
  ∧ result (fetch_wf_config "/wf" bad_sys demo_fs) = Raise UnicodeDecodeError.
Proof. repeat (split; [vm_compute; reflexivity|]). vm_compute; reflexivity. Qed.

(** C8 on the output "foo = bar", "garbage". *)
Lemma tool_output_parsing_witness :
  run_process foo_sys (nextflow_argv "/wf") = Completed foo_output
  ∧ Forall (λ l, valid_utf8 l = true) (splitlines foo_output)
  ∧ call_nextflow_config "/wf" [] foo_sys demo_fs
    = (Return [("foo", "bar")], demo_fs, [EvExec (nextflow_argv "/wf")]).
Proof.
  assert (H1 : run_process foo_sys (nextflow_argv "/wf") = Completed foo_output)
    by (vm_compute; reflexivity).
  assert (H2 : Forall (λ l, valid_utf8 l = true) (splitlines foo_output)).
  { vm_compute. repeat constructor. }
  split; [exact H1|]. split; [exact H2|].
  destruct (tool_output_parsing "/wf" foo_sys demo_fs foo_output [] H1 H2)
    as (d & Hrun & Hget & _).
  rewrite Hrun. f_equal. f_equal. f_equal.
  rewrite call_nextflow_config_run in Hrun. injection Hrun as Hrun. rewrite <- Hrun.
  vm_compute. reflexivity.
Defined.

(** C2, counterexample.  The cache file of the workflow holds "garbage":
    [fetch_wf_config] raises [JSONDecodeError]; when it holds JSON but is
    not readable, [PermissionError]. *)
Lemma corrupt_cache_raises :
  result (locate_cache "/wf" demo_sys (cached_fs true (Some (mkfile "garbage" true true))))
  = Return (Some demo_cache_path)
  ∧ cached_fs true (Some (mkfile "garbage" true true)) !! demo_cache_path
    = Some (Regular (mkfile "garbage" true true))
  ∧ json_load "garbage" = None
  ∧ result (fetch_wf_config "/wf" demo_sys (cached_fs true (Some (mkfile "garbage" true true))))
    = Raise JSONDecodeError
  ∧ result (fetch_wf_config "/wf" demo_sys
              (cached_fs true (Some (mkfile (json_dump demo_mapping) false true))))
    = Raise PermissionError.
Proof. repeat (split; [vm_compute; reflexivity|]). vm_compute; reflexivity. Qed.

(** C2 on the corrupt cache file. *)
Lemma cache_lookup_miss_or_error_witness :
  result (locate_cache "/wf" demo_sys (cached_fs true (Some (mkfile "garbage" true true))))
  = Return (Some demo_cache_path)
  ∧ result (fetch_wf_config "/wf" demo_sys (cached_fs true (Some (mkfile "garbage" true true))))
    = cached_config (cached_fs true (Some (mkfile "garbage" true true))) demo_cache_path
  ∧ tool_invoked
      (trace (fetch_wf_config "/wf" demo_sys
                (cached_fs true (Some (mkfile "garbage" true true))))) = false.
Proof.
  assert (H1 : result (locate_cache "/wf" demo_sys
                         (cached_fs true (Some (mkfile "garbage" true true))))
               = Return (Some demo_cache_path)) by (vm_compute; reflexivity).
  split; [exact H1|].
  pose proof (@cache_lookup_miss_or_error python_library "/wf" demo_sys
                (cached_fs true (Some (mkfile "garbage" true true))) demo_cache_path H1) as Hc.
  replace (cached_fs true (Some (mkfile "garbage" true true)) !! demo_cache_path)
    with (Some (Regular (mkfile "garbage" true true))) in Hc by (vm_compute; reflexivity).
  destruct Hc as (Hres & Hinv & _). exact (conj Hres Hinv).
Defined.

(** C3, counterexample.  The cache directory is not writable: the tool
    runs, the mapping is computed, and [fetch_wf_config] raises
    [PermissionError] instead of returning it. *)
Lemma read_only_cache_dir_raises :
  tool_config demo_sys "/wf" [] = Return [("params.a", "1"); ("manifest.name", "'x'")]
  ∧ scraped_config (cached_fs false None) "/wf" [("params.a", "1"); ("manifest.name", "'x'")]
    = Return demo_mapping
  ∧ tool_invoked (trace (fetch_wf_config "/wf" demo_sys (cached_fs false None))) = true
  ∧ result (fetch_wf_config "/wf" demo_sys (cached_fs false None)) = Raise PermissionError.
Proof. repeat (split; [vm_compute; reflexivity|]). vm_compute; reflexivity. Qed.

(** C3 on the read-only cache directory. *)
Lemma persist_failure_raises_witness :
  persist_fails "/wf" demo_sys (cached_fs false None) PermissionError
  ∧ result (fetch_wf_config "/wf" demo_sys (cached_fs false None)) = Raise PermissionError.
Proof.
  assert (H1 : persist_fails "/wf" demo_sys (cached_fs false None) PermissionError).
  { apply (write_fails "/wf" demo_sys (cached_fs false None) demo_cache_path
             [("params.a", "1"); ("manifest.name", "'x'")] demo_mapping);
      vm_compute; reflexivity. }
  split; [exact H1|].
  exact (proj1 (@persist_failure_raises python_library "/wf" demo_sys
                  (cached_fs false None) PermissionError H1)).
Defined.

(** C6.  The first resolution of /wf leaves the cache file; a second one,
    on a system where nextflow is gone, returns the stored mapping. *)
Lemma cache_hit_returns_stored_witness :
  result (locate_cache "/wf" no_tool_sys
            (cached_fs true (Some (mkfile (json_dump demo_mapping) true true))))
  = Return (Some demo_cache_path)
  ∧ final_fs (fetch_wf_config "/wf" demo_sys demo_fs)
    = cached_fs true (Some (mkfile (json_dump demo_mapping) true true))
  ∧ result (fetch_wf_config "/wf" no_tool_sys
              (cached_fs true (Some (mkfile (json_dump demo_mapping) true true))))
    = Return (PyDict demo_mapping)
  ∧ tool_invoked
      (trace (fetch_wf_config "/wf" no_tool_sys
                (cached_fs true (Some (mkfile (json_dump demo_mapping) true true))))) = false
  ∧ file_written
      (trace (fetch_wf_config "/wf" no_tool_sys
                (cached_fs true (Some (mkfile (json_dump demo_mapping) true true))))) = false.
Proof.
  assert (H1 : result (locate_cache "/wf" no_tool_sys
                 (cached_fs true (Some (mkfile (json_dump demo_mapping) true true))))
               = Return (Some demo_cache_path)) by (vm_compute; reflexivity).
  split; [exact H1|]. split; [vm_compute; reflexivity|].
  destruct (@cache_hit_returns_stored python_library "/wf" no_tool_sys
              (cached_fs true (Some (mkfile (json_dump demo_mapping) true true)))
              demo_cache_path (mkfile (json_dump demo_mapping) true true)
              (json_dump demo_mapping) (PyDict demo_mapping) H1)
    as (Hres & Hinv & Hw & _); try (vm_compute; reflexivity).
  exact (conj Hres (conj Hinv Hw)).
Defined.

Example strict_version_ex1 :
  construct_version "1.0" = Parsed (mkversion (1, 0, 0)%N None).
Proof. vm_compute. reflexivity. Qed.
Example strict_version_ex2 :
  construct_version "1.0.0b2" = Parsed (mkversion (1, 0, 0)%N (Some ("b"%char, 2%N))).
Proof. vm_compute. reflexivity. Qed.
Example strict_version_ex3 : construct_version "01.002" = Parsed (mkversion (1, 2, 0)%N None).
Proof. vm_compute. reflexivity. Qed.
Example strict_version_ex4 :
  map construct_version ["1"; "1."; "1.0."; "1.0.0.0"; "1.0c1"; "1.0a"]
  = [Invalid; Invalid; Invalid; Invalid; Invalid; Invalid].
Proof. vm_compute. reflexivity. Qed.
Example strict_version_ex5 :
  construct_version ("1.0" +:+ nl) = Parsed (mkversion (1, 0, 0)%N None)
  ∧ construct_version ("1.0" +:+ nl +:+ nl) = Invalid.
Proof. split; vm_compute; reflexivity. Qed.
Example clean_version_ex : clean_version "v2.0.1-beta.3" = "2.0.1.3".
Proof. reflexivity. Qed.
Example strip_quotes_ex : strip_quotes "''a'b''" = "a'b".
Proof. reflexivity. Qed.
Example remove_all_ex : remove_all "nf-core/" "nf-nf-core/core/x" = "nf-core/x".
Proof. reflexivity. Qed.
Example search_version_ex :
  map search_version ["'>=20.04.0'"; "!>=21.04.0-edge"; "none"; "1-edg"; "-edge1.2"]
  = [Some "20.04.0"; Some "21.04.0-edge"; None; Some "1"; Some "1.2"].
Proof. reflexivity. Qed.
Example check_if_outdated_ex :
  check_if_outdated ∅ "1.10dev" version_server None None "https://nf-co.re/tools_version"
  = (ReturnsTuple true "1.10" "1.11", ["https://nf-co.re/tools_version?v=1.10"]).
Proof. vm_compute. reflexivity. Qed.

(** X1 on a system whose tool exits with status 1. *)
Lemma tool_failure_raises_witness :
  tool_invoked (trace (fetch_wf_config "/wf" failing_sys demo_fs)) = true
  ∧ run_process failing_sys (nextflow_argv "/wf") = NonZeroExit 1 "boom"
  ∧ result (fetch_wf_config "/wf" failing_sys demo_fs)
    = Raise (AssertionError [AStr nextflow_failed_msg; AInt 1; ABytes "boom"])
  ∧ basedir_added failing_sys demo_fs (final_fs (fetch_wf_config "/wf" failing_sys demo_fs))
  ∧ (∀ q f, final_fs (fetch_wf_config "/wf" failing_sys demo_fs) !! q = Some (Regular f)
            ↔ demo_fs !! q = Some (Regular f)).
Proof.
  assert (H1 : tool_invoked (trace (fetch_wf_config "/wf" failing_sys demo_fs)) = true)
    by (vm_compute; reflexivity).
  assert (H2 : run_process failing_sys (nextflow_argv "/wf") = NonZeroExit 1 "boom")
    by reflexivity.
  split; [exact H1|]. split; [exact H2|].
  exact (@tool_failure_raises python_library "/wf" failing_sys demo_fs 1 "boom" H1 H2).
Defined.

(** X2 with NXF_HOME set and HOME unset. *)
Lemma home_unset_raises_witness :
  environ homeless_sys !! "HOME" = None
  ∧ environ homeless_sys !! "NXF_HOME" = Some "/opt/nxf"
  ∧ fetch_wf_config "/wf" homeless_sys demo_fs = (Raise TypeError, demo_fs, []).
Proof.
  assert (H1 : environ homeless_sys !! "HOME" = None) by (vm_compute; reflexivity).
  split; [exact H1|]. split; [vm_compute; reflexivity|].
  exact (@home_unset_raises python_library "/wf" homeless_sys demo_fs H1).
Defined.

(** X3 at the cache file the first run of /wf writes. *)
Lemma fetch_footprint_witness :
  final_fs (fetch_wf_config "/wf" demo_sys demo_fs) !! demo_cache_path
  ≠ demo_fs !! demo_cache_path
  ∧ (∃ nxf, nxf_home_of demo_sys = Some nxf ∧ fs_isdir demo_fs nxf = true
       ∧ (demo_cache_path = cache_basedir_of nxf
          ∨ ∃ ch fn, concat_hash_of "/wf" demo_fs = Return ch ∧ cache_filename ch = Some fn
              ∧ demo_cache_path = path_join (cache_basedir_of nxf) fn
              ∧ file_written (trace (fetch_wf_config "/wf" demo_sys demo_fs)) = true))
  ∧ ∀ fn, fn ∈ tracked_files → demo_cache_path ≠ path_join "/wf" fn.
Proof.
  assert (H1 : final_fs (fetch_wf_config "/wf" demo_sys demo_fs) !! demo_cache_path
               ≠ demo_fs !! demo_cache_path) by (vm_compute; discriminate).
  split; [exact H1|].
  exact (@fetch_footprint python_library "/wf" demo_sys demo_fs demo_cache_path H1).
Defined.

(** X5 for the key manifest.name of the first run of /wf. *)
Lemma keys_outside_params_from_tool_witness :
  tool_invoked (trace (fetch_wf_config "/wf" demo_sys demo_fs)) = true
  ∧ run_process demo_sys (nextflow_argv "/wf") = Completed demo_output
  ∧ result (fetch_wf_config "/wf" demo_sys demo_fs) = Return (PyDict demo_mapping)
  ∧ startswith "params." "manifest.name" = false
  ∧ dict_get "manifest.name" demo_mapping
    = last_write "manifest.name" (key_value_lines (splitlines demo_output)).
Proof.
  assert (H1 : tool_invoked (trace (fetch_wf_config "/wf" demo_sys demo_fs)) = true)
    by (vm_compute; reflexivity).
  assert (H2 : run_process demo_sys (nextflow_argv "/wf") = Completed demo_output)
    by (vm_compute; reflexivity).
  assert (H3 : result (fetch_wf_config "/wf" demo_sys demo_fs) = Return (PyDict demo_mapping))
    by (vm_compute; reflexivity).
  assert (H4 : startswith "params." "manifest.name" = false) by (vm_compute; reflexivity).
  split; [exact H1|]. split; [exact H2|]. split; [exact H3|]. split; [exact H4|].
  exact (@keys_outside_params_from_tool python_library "/wf" demo_sys demo_fs demo_output
           demo_mapping "manifest.name" H1 H2 H3 H4).
Defined.

(** X6 on a line whose value holds the separator. *)
Lemma key_value_line_parsed_witness :
  no_equals_sign "a" = true
  ∧ valid_utf8 ("a" +:+ " = " +:+ "2 = 3") = true
  ∧ parse_config_line [("a", "1")] ("a" +:+ " = " +:+ "2 = 3")
    = Return (dict_set "a" "2 = 3" [("a", "1")]).
Proof.
  assert (H1 : no_equals_sign "a" = true) by reflexivity.
  assert (H2 : valid_utf8 ("a" +:+ " = " +:+ "2 = 3") = true) by reflexivity.
  split; [exact H1|]. split; [exact H2|].
  exact (key_value_line_parsed [("a", "1")] "a" "2 = 3" H1 H2).
Defined.

(** X7 on /wf and its copy: the tool knows /wf only, and the copy is
    resolved from the cache file the run of /wf wrote. *)
Lemma cache_shared_by_content_witness :
  tool_invoked (trace (fetch_wf_config "/wf" demo_sys twin_fs)) = true
  ∧ file_written (trace (fetch_wf_config "/wf" demo_sys twin_fs)) = true
  ∧ result (fetch_wf_config "/wf" demo_sys twin_fs) = Return (PyDict demo_mapping)
  ∧ run_process demo_sys (nextflow_argv "/srv/copy") = SpawnFailed ENOENT
  ∧ result (fetch_wf_config "/srv/copy" demo_sys
              (final_fs (fetch_wf_config "/wf" demo_sys twin_fs)))
    = Return (PyDict demo_mapping)
  ∧ tool_invoked (trace (fetch_wf_config "/srv/copy" demo_sys
                           (final_fs (fetch_wf_config "/wf" demo_sys twin_fs)))) = false
  ∧ final_fs (fetch_wf_config "/srv/copy" demo_sys
                (final_fs (fetch_wf_config "/wf" demo_sys twin_fs)))
    = final_fs (fetch_wf_config "/wf" demo_sys twin_fs).
Proof.
  assert (H1 : tool_invoked (trace (fetch_wf_config "/wf" demo_sys twin_fs)) = true)
    by (vm_compute; reflexivity).
  assert (H2 : file_written (trace (fetch_wf_config "/wf" demo_sys twin_fs)) = true)
    by (vm_compute; reflexivity).
  assert (H3 : result (fetch_wf_config "/wf" demo_sys twin_fs) = Return (PyDict demo_mapping))
    by (vm_compute; reflexivity).
  assert (H4 : same_tracked_file twin_fs (path_join "/wf" "nextflow.config")
                 twin_fs (path_join "/srv/copy" "nextflow.config")).
  { eapply both_present; vm_compute; reflexivity. }
  assert (H5 : same_tracked_file twin_fs (path_join "/wf" "main.nf")
                 twin_fs (path_join "/srv/copy" "main.nf")).
  { eapply both_present; vm_compute; reflexivity. }
  assert (H6 : valid_utf8 (json_dump demo_mapping) = true) by (vm_compute; reflexivity).
  assert (H7 : json_load (json_dump demo_mapping) = Some (PyDict demo_mapping))
    by (vm_compute; reflexivity).
  split; [exact H1|]. split; [exact H2|]. split; [exact H3|].
  split; [vm_compute; reflexivity|].
  exact (@cache_shared_by_content python_library "/wf" "/srv/copy" demo_sys twin_fs
           demo_mapping H1 H2 H3 H4 H5 H6 H7).
Defined.

(** X9 on a package at version 1.10dev and a server that answers
    [v1.11]. *)
Lemma fetched_versions_compared_witness :
  env_truthy ∅ "NFCORE_NO_VERSION_CHECK" = false
  ∧ fst (check_if_outdated ∅ "1.10dev" version_server None None
           "https://nf-co.re/tools_version")
    = ReturnsTuple true "1.10" "1.11"
  ∧ snd (check_if_outdated ∅ "1.10dev" version_server None None
           "https://nf-co.re/tools_version")
    = ["https://nf-co.re/tools_version?v=1.10"]
  ∧ ∃ vc vr, parse_strict_version "1.10" = Some (mkversion vc None)
      ∧ parse_strict_version "1.11" = Some (mkversion vr None)
      ∧ true = is_gt (triple_compare vr vc).
Proof.
  assert (H1 : env_truthy ∅ "NFCORE_NO_VERSION_CHECK" = false) by reflexivity.
  assert (H2 : fst (check_if_outdated ∅ "1.10dev" version_server None None
                      "https://nf-co.re/tools_version")
               = ReturnsTuple true "1.10" "1.11") by (vm_compute; reflexivity).
  split; [exact H1|]. split; [exact H2|].
  destruct (fetched_versions_compared ∅ "1.10dev" version_server None
              "https://nf-co.re/tools_version" true "1.10" "1.11" H1 H2)
    as (_ & Hreq & _ & Hcmp).
  exact (conj Hreq Hcmp).
Defined.

(** X10: 1.10.0 is newer than 1.9.0. *)
Lemma dotted_versions_compared_witness :
  env_truthy ∅ "NFCORE_NO_VERSION_CHECK" = false
  ∧ dotted (1, 9, 0)%N = "1.9.0" ∧ dotted (1, 10, 0)%N = "1.10.0"
  ∧ check_if_outdated ∅ "0" error_server (Some (dotted (1, 9, 0)%N))
      (Some (dotted (1, 10, 0)%N)) "https://nf-co.re/tools_version"
    = (ReturnsTuple (is_gt (triple_compare (1, 10, 0)%N (1, 9, 0)%N))
         (dotted (1, 9, 0)%N) (dotted (1, 10, 0)%N), []).
Proof.
  assert (H1 : env_truthy ∅ "NFCORE_NO_VERSION_CHECK" = false) by reflexivity.
  split; [exact H1|]. split; [vm_compute; reflexivity|]. split; [vm_compute; reflexivity|].
  exact (dotted_versions_compared ∅ "0" error_server "https://nf-co.re/tools_version"
           (1, 9, 0)%N (1, 10, 0)%N H1).
Defined.

(** X11 on a server that answers with an error page. *)
Lemma unrecognised_response_raises_witness :
  env_truthy ∅ "NFCORE_NO_VERSION_CHECK" = false
  ∧ error_server (default "https://nf-co.re/tools_version" ((∅ : gmap string string) !! "NFCORE_VERSION_URL")
                  +:+ "?v=" +:+ clean_version (default "1.10dev" None))
    = Some "Not Found"
  ∧ clean_version "Not Found" = ""
  ∧ fst (check_if_outdated ∅ "1.10dev" error_server None None
           "https://nf-co.re/tools_version")
    = match construct_version (clean_version "1.10dev") with
      | Invalid => RaisesValueError (clean_version "1.10dev")
      | _ => RaisesAttributeError
      end.
Proof.
  assert (H1 : env_truthy ∅ "NFCORE_NO_VERSION_CHECK" = false) by reflexivity.
  assert (H3 : clean_version "Not Found" = "") by reflexivity.
  split; [exact H1|]. split; [reflexivity|]. split; [exact H3|].
  exact (unrecognised_response_raises ∅ "1.10dev" error_server None
           "https://nf-co.re/tools_version" "Not Found" H1 eq_refl H3).
Defined.

(** X12 on a remote version given with a leading "v". *)
Lemma given_remote_not_cleaned_witness :
  env_truthy ∅ "NFCORE_NO_VERSION_CHECK" = false
  ∧ is_strict_text "v1.11" = false
  ∧ check_if_outdated ∅ "1.10dev" version_server None (Some "v1.11")
      "https://nf-co.re/tools_version"
    = (RaisesValueError "v1.11", []).
Proof.
  assert (H1 : env_truthy ∅ "NFCORE_NO_VERSION_CHECK" = false) by reflexivity.
  assert (H2 : is_strict_text "v1.11" = false) by reflexivity.
  split; [exact H1|]. split; [exact H2|].
  exact (given_remote_not_cleaned ∅ "1.10dev" version_server None
           "https://nf-co.re/tools_version" "v1.11" H1 H2).
Defined.

(** X13 on the name of nf-core/rnaseq. *)
Lemma pipeline_name_of_quoted_witness :
  dict_get "manifest.name" [("manifest.name", "'nf-core/rnaseq'")]
  = Some ("'" +:+ "nf-core/" +:+ "rnaseq" +:+ "'")
  ∧ all_quotes "'" = true
  ∧ last_char "rnaseq" ≠ Some quote_char
  ∧ occurs "nf-core/" "rnaseq" = false
  ∧ pipeline_name_of [("manifest.name", "'nf-core/rnaseq'")] = "rnaseq".
Proof.
  assert (H1 : dict_get "manifest.name" [("manifest.name", "'nf-core/rnaseq'")]
               = Some ("'" +:+ "nf-core/" +:+ "rnaseq" +:+ "'")) by reflexivity.
  assert (H2 : all_quotes "'" = true) by reflexivity.
  assert (H3 : last_char "rnaseq" ≠ Some quote_char) by discriminate.
  assert (H4 : occurs "nf-core/" "rnaseq" = false) by reflexivity.
  split; [exact H1|]. split; [exact H2|]. split; [exact H3|]. split; [exact H4|].
  exact (pipeline_name_of_quoted _ "'" "rnaseq" "'" H1 H2 H2 H3 H4).
Defined.

(** X15 on the first run of /wf. *)
Lemma pipeline_attributes_from_tool_witness :
  tool_invoked (trace (fetch_wf_config "/wf" demo_sys demo_fs)) = true
  ∧ run_process demo_sys (nextflow_argv "/wf") = Completed demo_output
  ∧ result (fetch_wf_config "/wf" demo_sys demo_fs) = Return (PyDict demo_mapping)
  ∧ pipeline_name_of demo_mapping
    = remove_all "nf-core/"
        (strip_quotes
           (default "" (last_write "manifest.name"
                          (key_value_lines (splitlines demo_output)))))
  ∧ pipeline_name_of demo_mapping = "x".
Proof.
  assert (H1 : tool_invoked (trace (fetch_wf_config "/wf" demo_sys demo_fs)) = true)
    by (vm_compute; reflexivity).
  assert (H2 : run_process demo_sys (nextflow_argv "/wf") = Completed demo_output)
    by (vm_compute; reflexivity).
  assert (H3 : result (fetch_wf_config "/wf" demo_sys demo_fs) = Return (PyDict demo_mapping))
    by (vm_compute; reflexivity).
  split; [exact H1|]. split; [exact H2|]. split; [exact H3|].
  split; [|reflexivity].
  exact (proj1 (@pipeline_attributes_from_tool python_library "/wf" demo_sys demo_fs
                  demo_output demo_mapping H1 H2 H3)).
Defined.

(** X17 on a workflow whose main.nf may not be read. *)
Lemma unreadable_tracked_file_raises_witness :
  result (setup_cache_basedir demo_sys locked_fs) = Return (Some demo_basedir)
  ∧ concat_hash_of "/wf" locked_fs = Raise PermissionError
  ∧ result (fetch_wf_config "/wf" demo_sys locked_fs) = Raise PermissionError
  ∧ tool_invoked (trace (fetch_wf_config "/wf" demo_sys locked_fs)) = false
  ∧ file_written (trace (fetch_wf_config "/wf" demo_sys locked_fs)) = false.
Proof.
  assert (H1 : result (setup_cache_basedir demo_sys locked_fs) = Return (Some demo_basedir))
    by (vm_compute; reflexivity).
  assert (H2 : concat_hash_of "/wf" locked_fs = Raise PermissionError)
    by (vm_compute; reflexivity).
  split; [exact H1|]. split; [exact H2|].
  destruct (@unreadable_tracked_file_raises python_library "/wf" demo_sys locked_fs
              (Some demo_basedir) PermissionError H1 H2)
    as (Hres & _ & _ & Hinv & _ & Hw).
  exact (conj Hres (conj Hinv Hw)).
Defined.
